(** * PatentSentry: the patent term and maintenance fee calculators

    A shallow embedding of the three calculators of [backend/ps.py]
    ([calculate_expiry], [calculate_design_patent_expiry],
    [calculate_maintenance_fees] with its inner [add_years_months] and
    [fee_schedule]) together with the parts of Python's [calendar],
    [datetime] and [dateutil.relativedelta] they call.

    Conventions.
    - Python [int] is [Z]; [//] and [%] are [Z.div] and [Z.modulo] (both
      floor towards minus infinity for a positive divisor).
    - A raised exception is the [Raise] branch of [result]; the calculators
      catch nothing, so the first exception is the outcome of the call.
    - [datetime.now()] is read exactly once by a calculator; the value read
      is the explicit argument [now].
    - [str] is modelled over ASCII: [strptime]'s [\d] is taken as [0-9].

    The second part of the development follows the calculators into their
    callers: [extract_key_terms], and the handlers [handle_search],
    [handle_analyze] and [handle_assignee_patents] with the replies of
    PatentsView, the clock and the analysis cache as explicit arguments. *)

From Stdlib Require Import ZArith List String Ascii Bool Lia DecimalString.
From Stdlib Require PrimFloat.
Import ListNotations.
Local Open Scope string_scope.
Local Open Scope Z_scope.

(** ** Exceptions and results *)

(** Where a [ValueError] comes from: [_strptime] (the text does not match
    the format, text is left over, or the fields are no calendar date) or
    the range check of [datetime]'s fields ([datetime.replace]). *)
Inductive value_error : Type :=
| NoMatch
| OutOfRange.

Inductive exn : Type :=
| ValueError (why : value_error)
| IllegalMonthError
| OverflowError.

Inductive result (A : Type) : Type :=
| Ok (a : A)
| Raise (e : exn).

Arguments Ok {A} a.
Arguments Raise {A} e.

Definition bind {A B : Type} (r : result A) (k : A -> result B) : result B :=
  match r with
  | Ok a => k a
  | Raise e => Raise e
  end.

Notation "x <- r ;; k" := (bind r (fun x => k))
  (at level 61, r at next level, right associativity).

Definition obind {A B : Type} (o : option A) (k : A -> option B) : option B :=
  match o with
  | Some a => k a
  | None => None
  end.

(** ** Python library model *)

Module Py.

(** [str(n)] and [f"{n}"] of an [int]. *)
Definition str (n : Z) : string := NilZero.string_of_int (Z.to_int n).

(** Truth value of an [int] in [if n:]. *)
Definition truthy (n : Z) : bool := negb (n =? 0).

(** Truth value of a [str]. *)
Definition nonempty (s : string) : bool :=
  match s with
  | EmptyString => false
  | String _ _ => true
  end.

(** *** calendar *)

Definition isleap (year : Z) : bool :=
  (year mod 4 =? 0) && (negb (year mod 100 =? 0) || (year mod 400 =? 0)).

(** [calendar.mdays], indexed from 1 (entry 0 is a placeholder). *)
Definition mdays (month : Z) : Z :=
  match month with
  | 1 => 31 | 2 => 28 | 3 => 31 | 4 => 30 | 5 => 31 | 6 => 30
  | 7 => 31 | 8 => 31 | 9 => 30 | 10 => 31 | 11 => 30 | 12 => 31
  | _ => 0
  end.

(** [calendar.monthrange(year, month)[1]]: the number of days of the
    month.  The weekday component is not used by the calculators; it is
    defined for every year (years outside 1..9999 are folded into the
    400-year cycle), so only a bad month raises. *)
Definition monthrange_ndays (year month : Z) : result Z :=
  if (1 <=? month) && (month <=? 12)
  then Ok (mdays month + (if (month =? 2) && isleap year then 1 else 0))
  else Raise IllegalMonthError.

(** *** datetime *)

Record datetime : Type := mkdatetime {
  year : Z;
  month : Z;
  day : Z;
  hour : Z;
  minute : Z;
  second : Z;
  microsecond : Z
}.

Definition MINYEAR : Z := 1.
Definition MAXYEAR : Z := 9999.
Definition MAXORDINAL : Z := 3652059.

Definition DAYS_IN_MONTH (m : Z) : Z :=
  match m with
  | 1 => 31 | 2 => 28 | 3 => 31 | 4 => 30 | 5 => 31 | 6 => 30
  | 7 => 31 | 8 => 31 | 9 => 30 | 10 => 31 | 11 => 30 | 12 => 31
  | _ => -1
  end.

Definition DAYS_BEFORE_MONTH (m : Z) : Z :=
  match m with
  | 1 => 0 | 2 => 31 | 3 => 59 | 4 => 90 | 5 => 120 | 6 => 151
  | 7 => 181 | 8 => 212 | 9 => 243 | 10 => 273 | 11 => 304 | 12 => 334
  | _ => -1
  end.

Definition b2z (b : bool) : Z := if b then 1 else 0.

Definition days_before_year (year : Z) : Z :=
  let y := year - 1 in
  y * 365 + y / 4 - y / 100 + y / 400.

Definition days_in_month (year month : Z) : Z :=
  if (month =? 2) && isleap year then 29 else DAYS_IN_MONTH month.

Definition days_before_month (year month : Z) : Z :=
  DAYS_BEFORE_MONTH month + b2z ((2 <? month) && isleap year).

Definition ymd2ord (year month day : Z) : Z :=
  days_before_year year + days_before_month year month + day.

(** Second half of [_ord2ymd]: month and day from the 0-based day of the
    year [n] and the leap flag of that year. *)
Definition yday2md (n : Z) (leapyear : bool) : Z * Z :=
  let month := Z.shiftr (n + 50) 5 in
  let preceding := DAYS_BEFORE_MONTH month + b2z ((2 <? month) && leapyear) in
  if n <? preceding then
    let month := month - 1 in
    let preceding :=
      preceding - (DAYS_IN_MONTH month + b2z ((month =? 2) && leapyear)) in
    (month, n - preceding + 1)
  else (month, n - preceding + 1).

Definition ord2ymd (n0 : Z) : Z * Z * Z :=
  let n := n0 - 1 in
  let n400 := n / 146097 in
  let n := n mod 146097 in
  let year := n400 * 400 + 1 in
  let n100 := n / 36524 in
  let n := n mod 36524 in
  let n4 := n / 1461 in
  let n := n mod 1461 in
  let n1 := n / 365 in
  let n := n mod 365 in
  let year := year + n100 * 100 + n4 * 4 + n1 in
  if (n1 =? 4) || (n100 =? 4) then (year - 1, 12, 31)
  else
    let leapyear := (n1 =? 3) && (negb (n4 =? 24) || (n100 =? 3)) in
    let '(month, day) := yday2md n leapyear in
    (year, month, day).

(** [_check_date_fields]. *)
Definition date_fields_ok (y m d : Z) : bool :=
  (MINYEAR <=? y) && (y <=? MAXYEAR) &&
  (1 <=? m) && (m <=? 12) &&
  (1 <=? d) && (d <=? days_in_month y m).

(** [_check_time_fields]. *)
Definition time_fields_ok (dt : datetime) : bool :=
  (0 <=? hour dt) && (hour dt <=? 23) &&
  (0 <=? minute dt) && (minute dt <=? 59) &&
  (0 <=? second dt) && (second dt <=? 59) &&
  (0 <=? microsecond dt) && (microsecond dt <=? 999999).

(** The values the [datetime] type holds. *)
Definition valid (dt : datetime) : bool :=
  date_fields_ok (year dt) (month dt) (day dt) && time_fields_ok dt.

(** A [datetime] at 00:00:00.000000, as [strptime] with a date-only
    format builds it. *)
Definition midnight (dt : datetime) : bool :=
  (hour dt =? 0) && (minute dt =? 0) && (second dt =? 0) && (microsecond dt =? 0).

(** [dt.replace(year=y, month=m, day=d)]. *)
Definition replace (dt : datetime) (y m d : Z) : result datetime :=
  if date_fields_ok y m d
  then Ok (mkdatetime y m d (hour dt) (minute dt) (second dt) (microsecond dt))
  else Raise (ValueError OutOfRange).

Definition toordinal (dt : datetime) : Z :=
  ymd2ord (year dt) (month dt) (day dt).

(** [dt + timedelta(days=n)]: the [timedelta] constructor refuses more
    than 999999999 days, and the sum must be an ordinal of the type. *)
Definition add_days (dt : datetime) (n : Z) : result datetime :=
  if (-999999999 <=? n) && (n <=? 999999999) then
    let o := toordinal dt + n in
    if (0 <? o) && (o <=? MAXORDINAL) then
      let '(y, m, d) := ord2ymd o in
      Ok (mkdatetime y m d (hour dt) (minute dt) (second dt) (microsecond dt))
    else Raise OverflowError
  else Raise OverflowError.

(** Comparison of naive datetimes: the tuples of fields, in order. *)
Definition fields (dt : datetime) : list Z :=
  [year dt; month dt; day dt; hour dt; minute dt; second dt; microsecond dt].

Fixpoint lex_compare (a b : list Z) : comparison :=
  match a, b with
  | [], [] => Eq
  | [], _ :: _ => Lt
  | _ :: _, [] => Gt
  | x :: a', y :: b' =>
      match x ?= y with
      | Eq => lex_compare a' b'
      | c => c
      end
  end.

Definition cmp (a b : datetime) : comparison := lex_compare (fields a) (fields b).

(** [a < b] *)
Definition lt (a b : datetime) : bool :=
  match cmp a b with Lt => true | _ => false end.

(** [a >= b] *)
Definition ge (a b : datetime) : bool :=
  match cmp a b with Lt => false | _ => true end.

(** *** strptime and strftime with the format "%Y-%m-%d" *)

Definition digit_of (c : ascii) : option Z :=
  let n := Z.of_nat (nat_of_ascii c) in
  if (48 <=? n) && (n <=? 57) then Some (n - 48) else None.

Definition digit_char (n : Z) : ascii := ascii_of_nat (Z.to_nat (48 + n)).

(** [%Y]: the group [\d\d\d\d]. *)
Definition match_Y (s : string) : option (Z * string) :=
  match s with
  | String c1 (String c2 (String c3 (String c4 rest))) =>
      obind (digit_of c1) (fun d1 =>
      obind (digit_of c2) (fun d2 =>
      obind (digit_of c3) (fun d3 =>
      obind (digit_of c4) (fun d4 =>
      Some (1000 * d1 + 100 * d2 + 10 * d3 + d4, rest)))))
  | _ => None
  end.

Definition match_dash (s : string) : option string :=
  match s with
  | String c rest => if Ascii.eqb c "-"%char then Some rest else None
  | EmptyString => None
  end.

(** Two leading digits, when both are there. *)
Definition two_digits (s : string) : option (Z * Z * string) :=
  match s with
  | String c1 (String c2 rest) =>
      obind (digit_of c1) (fun d1 =>
      obind (digit_of c2) (fun d2 => Some (d1, d2, rest)))
  | _ => None
  end.

(** One leading digit [1-9]. *)
Definition one_digit (s : string) : option (Z * string) :=
  match s with
  | String c1 rest =>
      obind (digit_of c1) (fun d1 => if 1 <=? d1 then Some (d1, rest) else None)
  | EmptyString => None
  end.

(** [%m]: the group [1[0-2]|0[1-9]|[1-9]], alternatives tried in order.
    When a two-digit alternative matches, the one-digit alternative
    cannot make the rest of the pattern match (a digit would face the
    dash), so the first match is the only one. *)
Definition match_m (s : string) : option (Z * string) :=
  match two_digits s with
  | Some (d1, d2, rest) =>
      if ((d1 =? 1) && (d2 <=? 2)) || ((d1 =? 0) && (1 <=? d2))
      then Some (10 * d1 + d2, rest)
      else one_digit s
  | None => one_digit s
  end.

(** [%d]: the group [3[0-1]|[1-2]\d|0[1-9]|[1-9]| [1-9]]. *)
Definition match_d (s : string) : option (Z * string) :=
  match two_digits s with
  | Some (d1, d2, rest) =>
      if ((d1 =? 3) && (d2 <=? 1)) || ((1 <=? d1) && (d1 <=? 2)) ||
         ((d1 =? 0) && (1 <=? d2))
      then Some (10 * d1 + d2, rest)
      else one_digit s
  | None =>
      match one_digit s with
      | Some r => Some r
      | None =>
          match s with
          | String c rest => if Ascii.eqb c " "%char then one_digit rest else None
          | EmptyString => None
          end
      end
  end.

(** The regular expression of "%Y-%m-%d" matched at the start of the
    text; the text left over is returned with the fields. *)
Definition match_format (s : string) : option (Z * Z * Z * string) :=
  obind (match_Y s) (fun '(y, s1) =>
  obind (match_dash s1) (fun s2 =>
  obind (match_m s2) (fun '(m, s3) =>
  obind (match_dash s3) (fun s4 =>
  obind (match_d s4) (fun '(d, s5) => Some (y, m, d, s5)))))).

(** [datetime.strptime(s, "%Y-%m-%d")]. *)
Definition strptime (s : string) : result datetime :=
  match match_format s with
  | Some (y, m, d, EmptyString) =>
      if date_fields_ok y m d
      then Ok (mkdatetime y m d 0 0 0 0)
      else Raise (ValueError NoMatch)
  | _ => Raise (ValueError NoMatch)
  end.

Definition pad2 (n : Z) : string :=
  String (digit_char (n / 10)) (String (digit_char (n mod 10)) EmptyString).

Definition pad4 (n : Z) : string :=
  String (digit_char (n / 1000))
    (String (digit_char (n / 100 mod 10)) (pad2 (n mod 100))).

(** [%Y] as [strftime] writes it.  The year is written by the C library:
    glibc, which CPython 3.11 runs on under Linux, writes the number as it
    is, so a year below 1000 has fewer than four digits ("999"); other C
    libraries fill it to four digits ("0999").  From year 1000 on all
    agree. *)
Definition year_text (y : Z) : string := if y <? 1000 then str y else pad4 y.

(** [dt.strftime("%Y-%m-%d")].  [strptime] reads a year of four digits
    only, so the text of a date before year 1000 does not parse back. *)
Definition strftime (dt : datetime) : string :=
  (year_text (year dt) ++ "-" ++ pad2 (month dt) ++ "-" ++ pad2 (day dt))%string.

(** *** dateutil.relativedelta *)

(** [dt + relativedelta(years=n)] ([relativedelta.__radd__]): the year is
    shifted, the day is cut to the length of the target month, the fields
    are replaced, and the (zero) day and time offsets are added as a
    [timedelta]. *)
Definition add_relativedelta_years (dt : datetime) (years : Z) : result datetime :=
  let y := year dt + years in
  ndays <- monthrange_ndays y (month dt) ;;
  let d := Z.min ndays (day dt) in
  repl <- replace dt y (month dt) d ;;
  add_days repl 0.

End Py.

Import Py.

(** ** The calculators of [backend/ps.py] *)

(** The dict returned by [calculate_expiry] and
    [calculate_design_patent_expiry]. *)
Record ExpirationResult : Type := mkExpirationResult {
  expiry : string;
  reason : string;
  is_active : bool;
  baseline_expiry : string;
  pta_days : Z;
  pte_days : Z;
  calculated_expiry : string
}.

(** [pta_days or 0] for an [int]. *)
Definition or0 (n : Z) : Z := if truthy n then n else 0.

(** [td_date_str] is [None] or a [str]; an empty [str] is falsy and skips
    the terminal disclaimer like [None]. *)
Definition calculate_expiry (now : datetime) (filing_str : string)
    (pta_days pte_days : Z) (td_date_str : option string) : result ExpirationResult :=
  filing_date <- strptime filing_str ;;
  baseline <- add_relativedelta_years filing_date 20 ;;
  let total_adjustment := or0 pta_days + or0 pte_days in
  adjusted_date <- add_days baseline total_adjustment ;;
  let reason := "20 years from filing" in
  let reason :=
    if truthy pta_days then (reason ++ " + " ++ str pta_days ++ " days PTA")%string
    else reason in
  let reason :=
    if truthy pte_days then (reason ++ " + " ++ str pte_days ++ " days PTE")%string
    else reason in
  fr <- match td_date_str with
        | Some s =>
            if nonempty s then
              td_date <- strptime s ;;
              if lt td_date adjusted_date
              then Ok (td_date, "Terminal Disclaimer (expires with linked patent)")
              else Ok (adjusted_date, reason)
            else Ok (adjusted_date, reason)
        | None => Ok (adjusted_date, reason)
        end ;;
  let '(final_date, reason) := fr in
  Ok {| expiry := strftime final_date;
        reason := reason;
        is_active := lt now final_date;
        baseline_expiry := strftime baseline;
        pta_days := or0 pta_days;
        pte_days := or0 pte_days;
        calculated_expiry := strftime final_date |}.

Definition is_leap_year (year : Z) : bool :=
  ((year mod 4 =? 0) && negb (year mod 100 =? 0)) || (year mod 400 =? 0).

Definition calculate_design_patent_expiry (now : datetime)
    (grant_date_str filing_date_str : string) : result ExpirationResult :=
  grant_date <- strptime grant_date_str ;;
  filing_date <- strptime filing_date_str ;;
  cutoff_date <- strptime "2015-05-13" ;;
  let years_to_add := if ge filing_date cutoff_date then 15 else 14 in
  baseline <- add_relativedelta_years grant_date years_to_add ;;
  let reason := (str years_to_add ++ " years from grant date")%string in
  Ok {| expiry := strftime baseline;
        reason := reason;
        is_active := lt now baseline;
        baseline_expiry := strftime baseline;
        pta_days := 0;
        pte_days := 0;
        calculated_expiry := strftime baseline |}.

(** The inner function of [calculate_maintenance_fees]. *)
Definition add_years_months (date : datetime) (years months : Z) : result datetime :=
  let new_month := month date + months in
  let new_year := year date + years + (new_month - 1) / 12 in
  let new_month := ((new_month - 1) mod 12) + 1 in
  last_day_of_month <- monthrange_ndays new_year new_month ;;
  let clamped_day := Z.min (day date) last_day_of_month in
  replace date new_year new_month clamped_day.

Record FeeWindow : Type := mkFeeWindow {
  due_date : string;
  window_start : string;
  window_end : string;
  surcharge_end : string
}.

(** The inner function [fee_schedule(due_date)]; the dict entries are
    evaluated in the order they are written, so the subtraction runs before
    the addition. *)
Definition fee_schedule (due : datetime) : result FeeWindow :=
  ws <- add_years_months due 0 (-6) ;;
  se <- add_years_months due 0 6 ;;
  Ok {| due_date := strftime due;
        window_start := strftime ws;
        window_end := strftime due;
        surcharge_end := strftime se |}.

Record MaintenanceFees : Type := mkMaintenanceFees {
  year_3_5 : FeeWindow;
  year_7_5 : FeeWindow;
  year_11_5 : FeeWindow
}.

Definition calculate_maintenance_fees (grant_date_str : string) : result MaintenanceFees :=
  grant_date <- strptime grant_date_str ;;
  y_3_5 <- add_years_months grant_date 3 6 ;;
  y_7_5 <- add_years_months grant_date 7 6 ;;
  y_11_5 <- add_years_months grant_date 11 6 ;;
  f_3_5 <- fee_schedule y_3_5 ;;
  f_7_5 <- fee_schedule y_7_5 ;;
  f_11_5 <- fee_schedule y_11_5 ;;
  Ok {| year_3_5 := f_3_5; year_7_5 := f_7_5; year_11_5 := f_11_5 |}.

(** ** The specification's vocabulary *)

(** Last day of month [m] of year [y] in the Gregorian calendar. *)
Definition last_day_of (y m : Z) : Z :=
  if m =? 2 then (if is_leap_year y then 29 else 28)
  else if (m =? 4) || (m =? 6) || (m =? 9) || (m =? 11) then 30
  else 31.

(** "[n] calendar years after [f] with month and day preserved, except
    that a 29 February whose target year is not a leap year becomes
    28 February". *)
Definition years_after (f : datetime) (n : Z) : datetime :=
  let y := year f + n in
  if (month f =? 2) && (day f =? 29) && negb (is_leap_year y)
  then mkdatetime y 2 28 (hour f) (minute f) (second f) (microsecond f)
  else mkdatetime y (month f) (day f) (hour f) (minute f) (second f) (microsecond f).

(** [addCalendarMonths(date, yearsToAdd, monthsToAdd)] of the
    specification: whole years and months are added, a month outside 1..12
    is carried into (or borrowed from) the year, and the day is cut to the
    last day of the resulting month. *)
Definition addCalendarMonths (date : datetime) (yearsToAdd monthsToAdd : Z) : datetime :=
  let total := 12 * (year date + yearsToAdd) + (month date - 1) + monthsToAdd in
  let y := total / 12 in
  let m := total mod 12 + 1 in
  mkdatetime y m (Z.min (day date) (last_day_of y m))
    (hour date) (minute date) (second date) (microsecond date).

(** The reason of a utility patent without terminal disclaimer, clause by
    clause. *)
Definition pta_clause (pta : Z) : string :=
  if pta =? 0 then "" else (" + " ++ str pta ++ " days PTA")%string.

Definition pte_clause (pte : Z) : string :=
  if pte =? 0 then "" else (" + " ++ str pte ++ " days PTE")%string.

Definition utility_reason (pta pte : Z) : string :=
  ("20 years from filing" ++ pta_clause pta ++ pte_clause pte)%string.

(** The statutory cutoff of the design term, and "filed on or after
    2015-05-13" read off the calendar fields of the filing date. *)
Definition design_cutoff : datetime := mkdatetime 2015 5 13 0 0 0 0.

Definition on_or_after_2015_05_13 (f : datetime) : bool :=
  (2015 <? year f) ||
  ((year f =? 2015) && ((5 <? month f) || ((month f =? 5) && (13 <=? day f)))).

(** The dict built by [calculate_design_patent_expiry]. *)
Definition design_dict (now baseline : datetime) (years : Z) : ExpirationResult :=
  {| expiry := strftime baseline;
     reason := (str years ++ " years from grant date")%string;
     is_active := lt now baseline;
     baseline_expiry := strftime baseline;
     pta_days := 0;
     pte_days := 0;
     calculated_expiry := strftime baseline |}.

(** The fee window the specification attaches to a due date. *)
Definition fee_window (due : datetime) : FeeWindow :=
  {| due_date := strftime due;
     window_start := strftime (addCalendarMonths due 0 (-6));
     window_end := strftime due;
     surcharge_end := strftime (addCalendarMonths due 0 6) |}.

(** Six months back and six months forth again, as [fee_schedule] would
    do it from a due date. *)
Definition back_and_forth (due : datetime) : result datetime :=
  ws <- add_years_months due 0 (-6) ;;
  add_years_months ws 0 6.

(** Two results that agree in every field but [is_active]. *)
Definition same_but_is_active (a b : ExpirationResult) : Prop :=
  expiry a = expiry b /\ reason a = reason b /\
  baseline_expiry a = baseline_expiry b /\
  pta_days a = pta_days b /\ pte_days a = pte_days b /\
  calculated_expiry a = calculated_expiry b.

(** The dict built by [calculate_expiry] from its local variables. *)
Definition expiry_dict (now baseline final_date : datetime) (reason : string)
    (pta pte : Z) : ExpirationResult :=
  {| expiry := strftime final_date;
     reason := reason;
     is_active := lt now final_date;
     baseline_expiry := strftime baseline;
     pta_days := pta;
     pte_days := pte;
     calculated_expiry := strftime final_date |}.

(** What the terminal disclaimer step leaves in [final_date] and [reason]. *)
Inductive td_step (td : option string) (adjusted : datetime) (pta pte : Z) :
    datetime -> string -> Prop :=
| td_absent :
    td = None \/ td = Some "" ->
    td_step td adjusted pta pte adjusted (utility_reason pta pte)
| td_overrides (s : string) (td_date : datetime) :
    td = Some s -> strptime s = Ok td_date -> lt td_date adjusted = true ->
    td_step td adjusted pta pte td_date "Terminal Disclaimer (expires with linked patent)"
| td_ignored (s : string) (td_date : datetime) :
    td = Some s -> strptime s = Ok td_date -> lt td_date adjusted = false ->
    td_step td adjusted pta pte adjusted (utility_reason pta pte).

(** ** Python's [str] methods

    Over ASCII: [isspace], [lower] and [upper] are the ASCII parts of the
    Unicode ones.  On other text Python's methods change more than these
    do ([upper] writes "SS" for the sharp s), so what is proved of the case
    of a text is stated for ASCII text, see [is_ascii]. *)

Module Str.

Definition code (c : ascii) : Z := Z.of_nat (nat_of_ascii c).

(** [c.isspace()]: tab to carriage return, the four separators 28..31 and
    the space. *)
Definition isspace (c : ascii) : bool :=
  ((9 <=? code c) && (code c <=? 13)) || ((28 <=? code c) && (code c <=? 32)).

(** [c.isascii()]. *)
Definition is_ascii (c : ascii) : bool := code c <? 128.

Definition is_lower (c : ascii) : bool := (97 <=? code c) && (code c <=? 122).
Definition is_upper (c : ascii) : bool := (65 <=? code c) && (code c <=? 90).
Definition is_digit (c : ascii) : bool := (48 <=? code c) && (code c <=? 57).

Definition lower_char (c : ascii) : ascii :=
  if is_upper c then ascii_of_nat (nat_of_ascii c + 32) else c.

Definition upper_char (c : ascii) : ascii :=
  if is_lower c then ascii_of_nat (nat_of_ascii c - 32) else c.

Fixpoint map_chars (f : ascii -> ascii) (s : string) : string :=
  match s with
  | EmptyString => EmptyString
  | String c r => String (f c) (map_chars f r)
  end.

(** [s.lower()] and [s.upper()]. *)
Definition lower (s : string) : string := map_chars lower_char s.
Definition upper (s : string) : string := map_chars upper_char s.

(** [s.split()]: the maximal runs of characters that are not whitespace;
    [cur] is the run being read. *)
Fixpoint split_from (s cur : string) : list string :=
  match s with
  | EmptyString => if nonempty cur then [cur] else []
  | String c r =>
      if isspace c
      then (if nonempty cur then cur :: split_from r "" else split_from r "")
      else split_from r (cur ++ String c "")
  end.

Definition split (s : string) : list string := split_from s "".

(** [sep.join(l)]. *)
Fixpoint join (sep : string) (l : list string) : string :=
  match l with
  | [] => ""
  | [x] => x
  | x :: r => x ++ sep ++ join sep r
  end.

(** [s.replace(old, new)] for a non-empty [old]: the occurrences of [old]
    are found from left to right and do not overlap; [skip] counts the
    characters of an occurrence still to be passed over. *)
Fixpoint replace_from (old new s : string) (skip : nat) : string :=
  match s with
  | EmptyString => EmptyString
  | String c r =>
      match skip with
      | S k => replace_from old new r k
      | O =>
          if String.prefix old s
          then new ++ replace_from old new r (Nat.pred (String.length old))
          else String c (replace_from old new r 0)
      end
  end.

Definition replace (s old new : string) : string := replace_from old new s 0.

(** [s.strip()]. *)
Fixpoint lstrip (s : string) : string :=
  match s with
  | EmptyString => EmptyString
  | String c r => if isspace c then lstrip r else s
  end.

Fixpoint rstrip (s : string) : string :=
  match s with
  | EmptyString => EmptyString
  | String c r =>
      let r' := rstrip r in
      if isspace c && negb (nonempty r') then EmptyString else String c r'
  end.

Definition strip (s : string) : string := rstrip (lstrip s).

(** [sub in s]. *)
Fixpoint contains (sub s : string) : bool :=
  String.prefix sub s ||
  match s with
  | EmptyString => false
  | String _ r => contains sub r
  end.

(** Every character of [s] passes the test [p]. *)
Fixpoint all_chars (p : ascii -> bool) (s : string) : bool :=
  match s with
  | EmptyString => true
  | String c r => p c && all_chars p r
  end.

End Str.

(** [len(s)]. *)
Definition len (s : string) : Z := Z.of_nat (String.length s).

(** ** Key terms of a title *)

(** [STOPWORDS] is a set that is only tested for membership. *)
Definition STOPWORDS : list string :=
  ["a"; "an"; "the"; "and"; "or"; "but"; "for"; "of"; "to"; "in"; "on"; "at";
   "by"; "with"; "from"; "as"; "is"; "are"; "was"; "were"; "be"; "been"; "being";
   "have"; "has"; "had"; "do"; "does"; "did"; "will"; "would"; "could"; "should";
   "may"; "might"; "must"; "shall"; "can"; "this"; "that"; "these"; "those";
   "method"; "system"; "apparatus"; "device"; "thereof"; "therefor"; "therein";
   "comprising"; "including"; "having"; "using"; "making"; "forming"].

(** [x in l]. *)
Definition mem (x : string) (l : list string) : bool := existsb (String.eqb x) l.

(** [re.sub(r'[^a-z0-9\s]', ' ', s)]. *)
Definition sub_non_term (s : string) : string :=
  Str.map_chars
    (fun c => if Str.is_lower c || Str.is_digit c || Str.isspace c then c else " "%char) s.

(** The [for term in terms] loop of [extract_key_terms] with its two
    accumulators; [seen] is a set that is only tested for membership. *)
Fixpoint key_terms_loop (terms unique_terms seen : list string) : list string :=
  match terms with
  | [] => unique_terms
  | term :: rest =>
      if (2 <? len term) && negb (mem term STOPWORDS) && negb (mem term seen) then
        let unique_terms := (unique_terms ++ [term])%list in
        let seen := term :: seen in
        if 6 <=? Z.of_nat (List.length unique_terms) then unique_terms
        else key_terms_loop rest unique_terms seen
      else key_terms_loop rest unique_terms seen
  end.

Definition extract_key_terms (title : string) : list string :=
  let terms := Str.split (sub_non_term (Str.lower title)) in
  key_terms_loop terms [] [].

(** ** The request handlers of [backend/ps.py]

    Conventions.
    - A handler runs from its first line to its last without another
      request in between; [_analysis_cache] is explicit state.
    - The reply of PatentsView is modelled with the types its API gives the
      fields the handlers compute with: strings for the id, the dates and the
      type, an [int] for the term extension; such a field may be missing or
      [null]. What a handler only passes on is any JSON value.
    - [http_client.post] followed by [raise_for_status] and [json] is one
      function [post] of the URL and the body; it raises [httpx.HTTPError] or
      gives the decoded body.  A body that is not JSON, or whose fields are
      not of these types, is not modelled: there the source raises
      [json.JSONDecodeError], [KeyError], [TypeError] or [AttributeError],
      and what is proved of a handler is proved of replies of these types
      only.
    - Every [datetime.now()] is a reading of its own; [print] is left out. *)

(** JSON values that are built for a request or passed on to the caller. *)
#[local] Unset Elimination Schemes.
Inductive json : Type :=
| JNull
| JBool (b : bool)
| JInt (n : Z)
| JStr (s : string)
| JList (l : list json)
| JDict (kv : list (string * json)).
#[local] Set Elimination Schemes.

(** A JSON object read with [get]. *)
Definition dict : Type := list (string * json).

Fixpoint dict_get (d : dict) (k : string) : json :=
  match d with
  | [] => JNull
  | (k', v) :: r => if String.eqb k k' then v else dict_get r k
  end.

(** A key of a JSON object: missing, [null], or a value. *)
Inductive field (A : Type) : Type :=
| Absent
| Null
| Val (a : A).

Arguments Absent {A}.
Arguments Null {A}.
Arguments Val {A} a.

(** [d.get(k)] for a typed key: [None] when the key is missing or [null]. *)
Definition get {A : Type} (f : field A) : option A :=
  match f with
  | Val a => Some a
  | _ => None
  end.

(** [bool(s)] for an [Optional[str]]. *)
Definition truthy_str (s : option string) : bool :=
  match s with
  | Some s => nonempty s
  | None => false
  end.

(** [x or d] for an [Optional[int]]. *)
Definition or_int (x : option Z) (d : Z) : Z :=
  match x with
  | Some n => if truthy n then n else d
  | None => d
  end.

(** [bool(b)] for an [Optional[bool]]. *)
Definition truthy_bool (b : option bool) : bool :=
  match b with
  | Some b => b
  | None => false
  end.

Module Req.

(** [class UnifiedRequest(BaseModel)]. *)
Record UnifiedRequest : Type := mk {
  action : string;
  query : option string;
  page : option Z;
  per_page : option Z;
  sort : option string;
  patent_id : option string;
  patent_ids : option (list string);
  force_refresh : option bool;
  patent_title : option string;
  assignee : option string;
  limit : option Z
}.

End Req.

Module Hit.

(** One element of ["patents"] in a reply of PatentsView. *)
Record t : Type := mk {
  patent_id : string;
  patent_title : json;
  patent_abstract : json;
  patent_date : field string;
  patent_earliest_application_date : field string;
  patent_term_extension : field Z;
  patent_type : field string;
  assignees : field json;
  inventors : field json;
  cpc_current : field (list dict)
}.

End Hit.

(** The decoded body of a reply of PatentsView. *)
Record PatentsData : Type := mkPatentsData {
  patents : list Hit.t;
  total_hits : option Z;
  count : option Z
}.

Inductive http_reply : Type :=
| HTTPError (message : string)
| Json (data : PatentsData).

(** What a handler raises: an [HTTPException], an exception of a calculator
    (no handler of a calculator's caller catches [ValueError]), or the
    [AttributeError] of [None.lower()]. *)
Inductive raised : Type :=
| HTTPException (status_code : Z) (detail : string)
| Unhandled (e : exn)
| AttributeError.

Inductive response (A : Type) : Type :=
| Returns (a : A)
| Raises (e : raised).

Arguments Returns {A} a.
Arguments Raises {A} e.

(** A call of a calculator inside a handler. *)
Definition call {A : Type} (r : result A) : response A :=
  match r with
  | Ok a => Returns a
  | Raise e => Raises (Unhandled e)
  end.

Definition rbind {A B : Type} (r : response A) (k : A -> response B) : response B :=
  match r with
  | Returns a => k a
  | Raises e => Raises e
  end.

Notation "x <~ r ;; k" := (rbind r (fun x => k))
  (at level 61, r at next level, right associativity).

Definition patent_url : string := "https://search.patentsview.org/api/v1/patent/".

(** [d.get(k, [])] for a value that is passed on. *)
Definition get_or_list (f : field json) : json :=
  match f with
  | Absent => JList []
  | Null => JNull
  | Val v => v
  end.

(** [d.get(k)] as a JSON value. *)
Definition get_str (f : field string) : json :=
  match f with
  | Val s => JStr s
  | _ => JNull
  end.

(** *** [handle_search] *)

Module Found.

(** One element of ["results"]. *)
Record t : Type := mk {
  patent_id : string;
  patent_number : string;
  patent_title : json;
  patent_abstract : json;
  patent_date : option string;
  filing_date : option string;
  patent_type : option string;
  expiration_date : option string;
  is_active : option bool;
  assignees : json;
  inventors : json;
  source : string;
  url : string
}.

End Found.

Module Search.

(** The dict returned by [handle_search]. *)
Record t : Type := mk {
  query : string;
  keywords : option (list json);
  results : list Found.t;
  total_count : Z;
  page : Z;
  per_page : Z;
  total_pages : Z;
  has_next : bool;
  has_prev : bool;
  source : string
}.

End Search.

(** The keywords of the query: the answer of the query expansion when
    there is a client, the call raised nothing and the answer is a non-empty
    JSON list, else the query alone. [claude] is [get_claude_client()];
    applied to the query it gives the decoded answer, or [None] when
    something was raised. *)
Definition search_keywords (claude : option (string -> option json)) (query : string)
    : list json :=
  match claude with
  | Some ask =>
      match ask query with
      | Some (JList (kw :: kws)) => kw :: kws
      | _ => [JStr query]
      end
  | None => [JStr query]
  end.

Definition text_any (kw : json) : json :=
  JDict [("_text_any", JDict [("patent_title", kw)])].

(** The body of the POST of [handle_search]. *)
Definition search_body (keywords : list json) (per_page offset : Z) (sort : option string)
    : json :=
  let q :=
    match keywords with
    | _ :: _ :: _ => JDict [("_or", JList (map text_any keywords))]
    | kw :: _ => text_any kw
    | [] => JNull
    end in
  let body :=
    [("q", q);
     ("f", JList (map JStr
        ["patent_id"; "patent_title"; "patent_abstract"; "patent_date";
         "patent_type"; "patent_earliest_application_date"; "assignees"; "inventors"]));
     ("o", JDict [("size", JInt per_page); ("from", JInt offset)])] in
  match sort with
  | Some "date_desc" => JDict (body ++ [("s", JList [JDict [("patent_date", JStr "desc")]])])
  | Some "date_asc" => JDict (body ++ [("s", JList [JDict [("patent_date", JStr "asc")]])])
  | _ => JDict body
  end.

(** The element of ["results"] made from the hit [p]. *)
Definition found (p : Hit.t) (expiration_info : option ExpirationResult) : Found.t :=
  {| Found.patent_id := "US" ++ Hit.patent_id p;
     Found.patent_number := Hit.patent_id p;
     Found.patent_title := Hit.patent_title p;
     Found.patent_abstract := Hit.patent_abstract p;
     Found.patent_date := get (Hit.patent_date p);
     Found.filing_date := get (Hit.patent_earliest_application_date p);
     Found.patent_type := get (Hit.patent_type p);
     Found.expiration_date := option_map expiry expiration_info;
     Found.is_active := option_map is_active expiration_info;
     Found.assignees := get_or_list (Hit.assignees p);
     Found.inventors := get_or_list (Hit.inventors p);
     Found.source := "patentsview";
     Found.url := "https://patents.google.com/patent/US" ++ Hit.patent_id p |}.

(** [expiration_info] of one hit; [now] is the clock as read while this
    hit is processed. *)
Definition search_expiration (now : datetime) (p : Hit.t) : result (option ExpirationResult) :=
  let filing_date := get (Hit.patent_earliest_application_date p) in
  let grant_date := get (Hit.patent_date p) in
  match filing_date with
  | Some filing_str =>
      if nonempty filing_str && truthy_str grant_date &&
         negb (match get (Hit.patent_type p) with
               | Some ty => String.eqb ty "design"
               | None => false
               end)
      then r <- calculate_expiry now filing_str 0 0 None ;; Ok (Some r)
      else Ok None
  | None => Ok None
  end.

(** The [for p in data.get("patents", [])] loop; [clock k] is the clock as
    read while the hit at position [k] is processed. *)
Fixpoint search_loop (clock : nat -> datetime) (k : nat) (hits : list Hit.t)
    (patents : list Found.t) : result (list Found.t) :=
  match hits with
  | [] => Ok patents
  | p :: rest =>
      expiration_info <- search_expiration (clock k) p ;;
      search_loop clock (S k) rest (patents ++ [found p expiration_info])
  end.

Definition handle_search (req : Req.UnifiedRequest)
    (claude : option (string -> option json))
    (post : string -> json -> http_reply)
    (clock : nat -> datetime) : response Search.t :=
  match Req.query req with
  | None => Raises (HTTPException 400 "Query parameter is required")
  | Some query =>
      if negb (nonempty query) || negb (nonempty (Str.strip query))
      then Raises (HTTPException 400 "Query parameter is required")
      else
        let keywords := search_keywords claude query in
        let page := or_int (Req.page req) 1 in
        let per_page := or_int (Req.per_page req) 25 in
        let offset := (page - 1) * per_page in
        match post patent_url (search_body keywords per_page offset (Req.sort req)) with
        | HTTPError message =>
            Raises (HTTPException 500 ("PatentsView API error: " ++ message))
        | Json data =>
            patents <~ call (search_loop clock 0 (patents data) []) ;;
            let total :=
              match total_hits data with
              | Some n => n
              | None => match count data with Some n => n | None => 0 end
              end in
            let total_pages := Z.max 1 ((total + per_page - 1) / per_page) in
            Returns {| Search.query := query;
                       Search.keywords :=
                         match keywords with
                         | _ :: _ :: _ => Some keywords
                         | _ => None
                         end;
                       Search.results := patents;
                       Search.total_count := total;
                       Search.page := page;
                       Search.per_page := per_page;
                       Search.total_pages := total_pages;
                       Search.has_next := page <? total_pages;
                       Search.has_prev := 1 <? page;
                       Search.source := "patentsview" |}
        end
  end.

(** *** [handle_analyze] *)

Module Analysis.

Record Dates : Type := mkDates {
  filed : string;
  granted : option string;
  baseline_expiry : string;
  calculated_expiry : string;
  pta_days : Z;
  pte_days : Z
}.

Record Warnings : Type := mkWarnings {
  terminal_disclaimer : bool;
  fee_status : string;
  reason : string
}.

(** The dict [result] of [handle_analyze]. *)
Record t : Type := mk {
  patent_id : string;
  title : json;
  abstract : json;
  patent_type : option string;
  dates : Dates;
  expiration : ExpirationResult;
  maintenance_fees : option MaintenanceFees;
  warnings : Warnings;
  is_active : bool;
  assignees : json;
  inventors : json;
  cpc_codes : json;
  source : string;
  url : string
}.

End Analysis.

Module Cache.

Import PrimFloat.

(** [_analysis_cache]: a dict that is only indexed, with the [float]
    timestamps that [datetime.timestamp] gives. *)
Record entry : Type := mkentry {
  data : Analysis.t;
  timestamp : float
}.

Definition t : Type := string -> option entry.

Definition empty : t := fun _ => None.

Definition set (c : t) (key : string) (e : entry) : t :=
  fun k => if String.eqb k key then Some e else c k.

(** [3600 * 24], an [int] that is exact as a float. *)
Definition CACHE_TTL_SECONDS : float := 86400%float.

(** [now - cached["timestamp"] < CACHE_TTL_SECONDS]. *)
Definition fresh (now ts : float) : bool := ltb (sub now ts) CACHE_TTL_SECONDS.

End Cache.

(** [patent_id.upper().replace("US", "").strip()]. *)
Definition patent_num (patent_id : string) : string :=
  Str.strip (Str.replace (Str.upper patent_id) "US" "").

(** The body of the POST of [handle_analyze]. *)
Definition analyze_body (patent_num : string) : json :=
  JDict
    [("q", JDict [("patent_id", JStr patent_num)]);
     ("f", JList (map JStr
        ["patent_id"; "patent_title"; "patent_abstract"; "patent_date";
         "patent_earliest_application_date"; "patent_term_extension";
         "patent_type"; "assignees"; "inventors"; "cpc_current"]));
     ("o", JDict [("size", JInt 1)])].

(** The part of [handle_analyze] after the reply: from the first hit to
    the dict [result]. *)
Definition analyze_hit (now : datetime) (p : Hit.t) : response Analysis.t :=
  let filing_date := get (Hit.patent_earliest_application_date p) in
  let grant_date := get (Hit.patent_date p) in
  let pte := or_int (get (Hit.patent_term_extension p)) 0 in
  patent_type <~ match Hit.patent_type p with
                 | Absent => Returns ""
                 | Null => Raises AttributeError
                 | Val ty => Returns (Str.lower ty)
                 end ;;
  match filing_date with
  | None => Raises (HTTPException 400 "Filing date not available")
  | Some filing_str =>
      if negb (nonempty filing_str)
      then Raises (HTTPException 400 "Filing date not available")
      else
        let is_design :=
          if nonempty patent_type then Str.contains "design" patent_type else false in
        em <~ (if is_design then
                 match grant_date with
                 | Some grant_str =>
                     if nonempty grant_str then
                       expiration <~ call (calculate_design_patent_expiry now grant_str
                                             filing_str) ;;
                       Returns (expiration, None)
                     else Raises (HTTPException 400
                            "Grant date required for design patent expiry calculation")
                 | None => Raises (HTTPException 400
                            "Grant date required for design patent expiry calculation")
                 end
               else
                 expiration <~ call (calculate_expiry now filing_str 0 pte None) ;;
                 match grant_date with
                 | Some grant_str =>
                     if nonempty grant_str then
                       fees <~ call (calculate_maintenance_fees grant_str) ;;
                       Returns (expiration, Some fees)
                     else Returns (expiration, None)
                 | None => Returns (expiration, None)
                 end) ;;
        let '(expiration, maintenance_fees) := em in
        Returns
          {| Analysis.patent_id := "US" ++ Hit.patent_id p;
             Analysis.title := Hit.patent_title p;
             Analysis.abstract := Hit.patent_abstract p;
             Analysis.patent_type := get (Hit.patent_type p);
             Analysis.dates :=
               {| Analysis.filed := filing_str;
                  Analysis.granted := grant_date;
                  Analysis.baseline_expiry := baseline_expiry expiration;
                  Analysis.calculated_expiry := calculated_expiry expiration;
                  Analysis.pta_days := pta_days expiration;
                  Analysis.pte_days := pte_days expiration |};
             Analysis.expiration := expiration;
             Analysis.maintenance_fees := maintenance_fees;
             Analysis.warnings :=
               {| Analysis.terminal_disclaimer := false;
                  Analysis.fee_status :=
                    if negb is_design
                    then "Cannot verify if fees have been paid. Check USPTO PAIR."
                    else "Design patents do not require maintenance fees.";
                  Analysis.reason := reason expiration |};
             Analysis.is_active := is_active expiration;
             Analysis.assignees := get_or_list (Hit.assignees p);
             Analysis.inventors := get_or_list (Hit.inventors p);
             Analysis.cpc_codes :=
               match Hit.cpc_current p with
               | Absent => JList []
               | Null => JNull
               | Val l => JList (map JDict l)
               end;
             Analysis.source := "patentsview";
             Analysis.url := "https://patents.google.com/patent/US" ++ Hit.patent_id p |}
  end.

(** [handle_analyze]: the answer, whether it carries ["from_cache": True],
    and the cache afterwards. [ts_check] and [ts_store] are the two readings
    of [datetime.now().timestamp()], [now] is the clock as the calculator
    reads it. *)
Definition handle_analyze (req : Req.UnifiedRequest) (cache : Cache.t)
    (ts_check : PrimFloat.float) (post : string -> json -> http_reply)
    (now : datetime) (ts_store : PrimFloat.float)
    : response (Analysis.t * bool) * Cache.t :=
  match Req.patent_id req with
  | None => (Raises (HTTPException 400 "patent_id required"), cache)
  | Some patent_id =>
      if negb (nonempty patent_id)
      then (Raises (HTTPException 400 "patent_id required"), cache)
      else
        let patent_num := patent_num patent_id in
        let cache_key := "analyze:" ++ patent_num in
        let cached :=
          if negb (truthy_bool (Req.force_refresh req)) then
            match cache cache_key with
            | Some cached =>
                if Cache.fresh ts_check (Cache.timestamp cached)
                then Some (Cache.data cached) else None
            | None => None
            end
          else None in
        match cached with
        | Some data => (Returns (data, true), cache)
        | None =>
            match post patent_url (analyze_body patent_num) with
            | HTTPError message =>
                (Raises (HTTPException 500 ("Analysis error: " ++ message)), cache)
            | Json data =>
                match patents data with
                | [] => (Raises (HTTPException 404 "Patent not found"), cache)
                | p :: _ =>
                    match analyze_hit now p with
                    | Returns result =>
                        (Returns (result, false),
                         Cache.set cache cache_key
                           {| Cache.data := result; Cache.timestamp := ts_store |})
                    | Raises e => (Raises e, cache)
                    end
                end
            end
        end
  end.

(** *** [handle_assignee_patents] *)

Module Related.

(** One element of ["patents"] in the answer. *)
Record t : Type := mk {
  patent_id : string;
  patent_title : json;
  patent_date : json;
  cpc_codes : list json
}.

End Related.

Module Assignee.

(** The dict returned by [handle_assignee_patents]. *)
Record t : Type := mk {
  assignee : string;
  patents : list Related.t;
  count : Z
}.

End Assignee.

Definition related (p : Hit.t) : Related.t :=
  {| Related.patent_id := "US" ++ Hit.patent_id p;
     Related.patent_title := Hit.patent_title p;
     Related.patent_date := get_str (Hit.patent_date p);
     Related.cpc_codes :=
       map (fun c => dict_get c "cpc_group_id")
           (firstn 3 (match get (Hit.cpc_current p) with
                      | Some l => l
                      | None => []
                      end)) |}.

(** [exclude_id and p["patent_id"] == exclude_id]. *)
Definition excluded (exclude_id : option string) (p : Hit.t) : bool :=
  truthy_str exclude_id &&
  match exclude_id with
  | Some e => String.eqb (Hit.patent_id p) e
  | None => false
  end.

(** [req.patent_id.upper().replace("US", "") if req.patent_id else None]. *)
Definition exclude_id (req : Req.UnifiedRequest) : option string :=
  match Req.patent_id req with
  | Some patent_id =>
      if nonempty patent_id
      then Some (Str.replace (Str.upper patent_id) "US" "")
      else None
  | None => None
  end.

(** The [for p in data.get("patents", [])] loop with its [continue] and
    [break]. *)
Fixpoint assignee_loop (exclude_id : option string) (limit : Z) (hits : list Hit.t)
    (patents : list Related.t) : list Related.t :=
  match hits with
  | [] => patents
  | p :: rest =>
      if excluded exclude_id p then assignee_loop exclude_id limit rest patents
      else if limit <=? Z.of_nat (List.length patents) then patents
      else assignee_loop exclude_id limit rest (patents ++ [related p])
  end.

(** The body of the POST of [handle_assignee_patents]. *)
Definition assignee_body (assignee : string) (limit : Z) : json :=
  JDict
    [("q", JDict [("_text_any", JDict [("assignees.assignee_organization", JStr assignee)])]);
     ("f", JList (map JStr ["patent_id"; "patent_title"; "patent_date"; "cpc_current"]));
     ("o", JDict [("size", JInt (limit + 1))]);
     ("s", JList [JDict [("patent_date", JStr "desc")]])].

Definition handle_assignee_patents (req : Req.UnifiedRequest)
    (post : string -> json -> http_reply) : response Assignee.t :=
  match Req.assignee req with
  | None => Raises (HTTPException 400 "assignee required")
  | Some assignee =>
      if negb (nonempty assignee) then Raises (HTTPException 400 "assignee required")
      else
        let limit := or_int (Req.limit req) 10 in
        match post patent_url (assignee_body assignee limit) with
        | HTTPError message =>
            Raises (HTTPException 500 ("Assignee patents fetch error: " ++ message))
        | Json data =>
            let patents := assignee_loop (exclude_id req) limit (patents data) [] in
            Returns {| Assignee.assignee := assignee;
                       Assignee.patents := patents;
                       Assignee.count := Z.of_nat (List.length patents) |}
        end
  end.

(** ** Vocabulary for the properties of the calculators *)

(** A date the calculators hand out: a date of the type, at midnight. *)
Definition good (d : datetime) : Prop :=
  date_fields_ok (year d) (month d) (day d) = true /\ midnight d = true.

(** The text [s] is what [strftime] writes for [d], a date of the type at
    midnight: [d] is the date that the text denotes.  At most one date is
    written as a given text ([written_unique]), whether or not [strptime]
    reads it. *)
Definition written (s : string) (d : datetime) : Prop :=
  good d /\ strftime d = s.

(** The number that a text of digits writes, read from the left with the
    digits read so far in [acc]; [None] for a text with another character. *)
Fixpoint digits_value (s : string) (acc : Z) : option Z :=
  match s with
  | EmptyString => Some acc
  | String c r =>
      match digit_of c with
      | Some d => digits_value r (10 * acc + d)
      | None => None
      end
  end.

(** The years that [%Y] writes with fewer than four digits, 1 to 999. *)
Definition short_years : list Z := map Z.of_nat (seq 1 (Z.to_nat 999)).

(** The text of the year [y] is made of digits that write [y]. *)
Definition year_text_reads (y : Z) : bool :=
  match digits_value (year_text y) 0 with
  | Some v => v =? y
  | None => false
  end.

(** The month count of a date: months since year 0. *)
Definition month_index (d : datetime) : Z := 12 * year d + month d.

(** A text written for a date that falls in the month of [g], [k] years
    later, on the day of [g] or, when that month is shorter, on an earlier
    day. *)
Definition anniversary (s : string) (g : datetime) (k : Z) : Prop :=
  exists d,
    written s d /\
    year d = year g + k /\ month d = month g /\
    day d <= day g /\ (day g <= 28 -> day d = day g).

(** ** Vocabulary for the key terms *)

Definition is_term_char (c : ascii) : bool := Str.is_lower c || Str.is_digit c.

(** A token that [extract_key_terms] does not drop for its length or as a
    stopword. *)
Definition keep_term (t : string) : bool := (2 <? len t) && negb (mem t STOPWORDS).

(** The elements of [l] that occur neither earlier in [l] nor in [seen]. *)
Fixpoint first_occurrences (l seen : list string) : list string :=
  match l with
  | [] => []
  | x :: r =>
      if mem x seen then first_occurrences r seen
      else x :: first_occurrences r (x :: seen)
  end.

(** The tokens of a title: lower case, every character that is no lower
    case letter, digit or whitespace taken as a blank, cut at whitespace. *)
Definition title_tokens (title : string) : list string :=
  Str.split (sub_non_term (Str.lower title)).

(** ** Vocabulary for the properties of the handlers *)

(** A character of a patent number as PatentsView writes it: a digit or a
    capital letter other than U. *)
Definition number_char (c : ascii) : bool :=
  Str.is_digit c || (Str.is_upper c && negb (Ascii.eqb c "U")).

(** The hit is one that [handle_search] computes an expiry for. *)
Definition needs_expiry (p : Hit.t) : bool :=
  truthy_str (get (Hit.patent_earliest_application_date p)) &&
  truthy_str (get (Hit.patent_date p)) &&
  negb (match get (Hit.patent_type p) with
        | Some ty => String.eqb ty "design"
        | None => false
        end).

(** The expiry that [handle_search] asks for can be computed: the filing
    date of a hit that needs one parses, and twenty years later is a year
    that [datetime] still has. *)
Definition expiry_computable (p : Hit.t) : Prop :=
  needs_expiry p = true ->
  exists filing_str d,
    get (Hit.patent_earliest_application_date p) = Some filing_str /\
    strptime filing_str = Ok d /\ year d + 20 <= MAXYEAR.

(** The hit is one that [handle_analyze] takes as a design patent. *)
Definition is_design (p : Hit.t) : bool :=
  match Hit.patent_type p with
  | Val ty => Str.contains "design" (Str.lower ty)
  | _ => false
  end.

(** ** Sample data for the examples *)

Definition sample_hit : Hit.t :=
  {| Hit.patent_id := "7654321";
     Hit.patent_title := JStr "Battery pack";
     Hit.patent_abstract := JNull;
     Hit.patent_date := Val "2010-02-02";
     Hit.patent_earliest_application_date := Val "2006-03-14";
     Hit.patent_term_extension := Val 120;
     Hit.patent_type := Val "utility";
     Hit.assignees := Absent;
     Hit.inventors := Absent;
     Hit.cpc_current := Val [[("cpc_group_id", JStr "H01M10/42")]] |}.

(** A hit whose filing date is not in the format of the calculators. *)
Definition odd_hit : Hit.t :=
  {| Hit.patent_id := "7000001";
     Hit.patent_title := JNull;
     Hit.patent_abstract := JNull;
     Hit.patent_date := Val "2010-02-02";
     Hit.patent_earliest_application_date := Val "14/03/2006";
     Hit.patent_term_extension := Null;
     Hit.patent_type := Val "utility";
     Hit.assignees := Absent;
     Hit.inventors := Absent;
     Hit.cpc_current := Absent |}.

Definition sample_request : Req.UnifiedRequest :=
  {| Req.action := "search";
     Req.query := Some "battery";
     Req.page := Some 2;
     Req.per_page := Some 10;
     Req.sort := Some "date_desc";
     Req.patent_id := Some "us7654321";
     Req.patent_ids := None;
     Req.force_refresh := None;
     Req.patent_title := None;
     Req.assignee := Some "Acme";
     Req.limit := Some 1 |}.

(** The same patent asked for again, spelled differently. *)
Definition sample_again : Req.UnifiedRequest :=
  {| Req.action := "analyze";
     Req.query := None;
     Req.page := None;
     Req.per_page := None;
     Req.sort := None;
     Req.patent_id := Some "US 7654321";
     Req.patent_ids := None;
     Req.force_refresh := Some false;
     Req.patent_title := None;
     Req.assignee := None;
     Req.limit := None |}.

Definition sample_post (hits : list Hit.t) (url : string) (body : json) : http_reply :=
  Json {| patents := hits; total_hits := Some 35; count := None |}.

Definition sample_clock (k : nat) : datetime := mkdatetime 2026 11 4 9 30 0 0.

(** What [handle_search] makes of [sample_hit] on the day of [sample_clock]. *)
Definition sample_found : Found.t :=
  {| Found.patent_id := "US7654321";
     Found.patent_number := "7654321";
     Found.patent_title := JStr "Battery pack";
     Found.patent_abstract := JNull;
     Found.patent_date := Some "2010-02-02";
     Found.filing_date := Some "2006-03-14";
     Found.patent_type := Some "utility";
     Found.expiration_date := Some "2026-03-14";
     Found.is_active := Some false;
     Found.assignees := JList [];
     Found.inventors := JList [];
     Found.source := "patentsview";
     Found.url := "https://patents.google.com/patent/US7654321" |}.

Definition sample_search : Search.t :=
  {| Search.query := "battery";
     Search.keywords := None;
     Search.results := [sample_found];
     Search.total_count := 35;
     Search.page := 2;
     Search.per_page := 10;
     Search.total_pages := 4;
     Search.has_next := true;
     Search.has_prev := true;
     Search.source := "patentsview" |}.

(** What [handle_analyze] makes of [sample_hit] on the day of [sample_clock]. *)
Definition sample_analysis : Analysis.t :=
  {| Analysis.patent_id := "US7654321";
     Analysis.title := JStr "Battery pack";
     Analysis.abstract := JNull;
     Analysis.patent_type := Some "utility";
     Analysis.dates :=
       {| Analysis.filed := "2006-03-14";
          Analysis.granted := Some "2010-02-02";
          Analysis.baseline_expiry := "2026-03-14";
          Analysis.calculated_expiry := "2026-07-12";
          Analysis.pta_days := 0;
          Analysis.pte_days := 120 |};
     Analysis.expiration :=
       mkExpirationResult "2026-07-12" "20 years from filing + 120 days PTE" false
         "2026-03-14" 0 120 "2026-07-12";
     Analysis.maintenance_fees :=
       Some (mkMaintenanceFees
               (mkFeeWindow "2013-08-02" "2013-02-02" "2013-08-02" "2014-02-02")
               (mkFeeWindow "2017-08-02" "2017-02-02" "2017-08-02" "2018-02-02")
               (mkFeeWindow "2021-08-02" "2021-02-02" "2021-08-02" "2022-02-02"));
     Analysis.warnings :=
       {| Analysis.terminal_disclaimer := false;
          Analysis.fee_status := "Cannot verify if fees have been paid. Check USPTO PAIR.";
          Analysis.reason := "20 years from filing + 120 days PTE" |};
     Analysis.is_active := false;
     Analysis.assignees := JList [];
     Analysis.inventors := JList [];
     Analysis.cpc_codes := JList [JDict [("cpc_group_id", JStr "H01M10/42")]];
     Analysis.source := "patentsview";
     Analysis.url := "https://patents.google.com/patent/US7654321" |}.

Module Sample.

Import PrimFloat.

(** Two readings of [datetime.now().timestamp()], an hour apart. *)
Definition stored_at : float := 1793784600.25%float.
Definition asked_at : float := 1793788200.5%float.

End Sample.

(** A design patent, with a term extension that design patents do not
    get, and what [handle_analyze] makes of it. *)
Definition design_hit : Hit.t :=
  {| Hit.patent_id := "D765432";
     Hit.patent_title := JStr "Bottle";
     Hit.patent_abstract := JNull;
     Hit.patent_date := Val "2016-08-30";
     Hit.patent_earliest_application_date := Val "2015-05-13";
     Hit.patent_term_extension := Val 30;
     Hit.patent_type := Val "Design";
     Hit.assignees := Null;
     Hit.inventors := Absent;
     Hit.cpc_current := Absent |}.

Definition design_sample : Analysis.t :=
  {| Analysis.patent_id := "USD765432";
     Analysis.title := JStr "Bottle";
     Analysis.abstract := JNull;
     Analysis.patent_type := Some "Design";
     Analysis.dates :=
       {| Analysis.filed := "2015-05-13";
          Analysis.granted := Some "2016-08-30";
          Analysis.baseline_expiry := "2031-08-30";
          Analysis.calculated_expiry := "2031-08-30";
          Analysis.pta_days := 0;
          Analysis.pte_days := 0 |};
     Analysis.expiration :=
       mkExpirationResult "2031-08-30" "15 years from grant date" true
         "2031-08-30" 0 0 "2031-08-30";
     Analysis.maintenance_fees := None;
     Analysis.warnings :=
       {| Analysis.terminal_disclaimer := false;
          Analysis.fee_status := "Design patents do not require maintenance fees.";
          Analysis.reason := "15 years from grant date" |};
     Analysis.is_active := true;
     Analysis.assignees := JNull;
     Analysis.inventors := JList [];
     Analysis.cpc_codes := JList [];
     Analysis.source := "patentsview";
     Analysis.url := "https://patents.google.com/patent/USD765432" |}.

(** ** Proof tools *)

Ltac is_pos_lit p :=
  lazymatch p with
  | xH => idtac
  | xO ?q => is_pos_lit q
  | xI ?q => is_pos_lit q
  end.

Ltac is_Z_lit z :=
  lazymatch z with
  | Z0 => idtac
  | Zpos ?p => is_pos_lit p
  | Zneg ?p => is_pos_lit p
  end.

(** Evaluate the divisions, remainders and tests between numerals. *)
Ltac fold_consts :=
  repeat match goal with
  | |- context [?a mod ?b] =>
      is_Z_lit a; is_Z_lit b;
      let v := eval vm_compute in (a mod b) in change (a mod b) with v
  | |- context [?a / ?b] =>
      is_Z_lit a; is_Z_lit b;
      let v := eval vm_compute in (a / b) in change (a / b) with v
  | |- context [?a =? ?b] =>
      is_Z_lit a; is_Z_lit b;
      let v := eval vm_compute in (a =? b) in change (a =? b) with v
  | |- context [?a - ?b] =>
      is_Z_lit a; is_Z_lit b;
      let v := eval vm_compute in (a - b) in change (a - b) with v
  end.

(** Sums and comparisons of numerals, and entries of [mdays]. *)
Ltac lit_step :=
  match goal with
  | |- context [?a + ?b] =>
      is_Z_lit a; is_Z_lit b;
      let v := eval vm_compute in (a + b) in change (a + b) with v
  | |- context [?a <=? ?b] =>
      is_Z_lit a; is_Z_lit b;
      let v := eval vm_compute in (a <=? b) in change (a <=? b) with v
  | |- context [mdays ?a] =>
      is_Z_lit a;
      let v := eval vm_compute in (mdays a) in change (mdays a) with v
  end.

(** Run the first [add_years_months] of the goal on a date whose month is a
    numeral: the month arithmetic is evaluated and the range check of
    [replace] is discharged from the hypotheses. *)
Ltac run_add_years_months :=
  unfold add_years_months, monthrange_ndays; cbv zeta;
  cbn [year month day hour minute second microsecond];
  repeat (first [progress fold_consts | lit_step]);
  cbn [andb bind]; rewrite ?Z.add_0_r;
  unfold replace;
  match goal with
  | |- context [date_fields_ok ?a ?b ?c] =>
      replace (date_fields_ok a b c) with true
        by (symmetry; unfold date_fields_ok, MINYEAR, MAXYEAR, days_in_month;
            rewrite !andb_true_iff, !Z.leb_le;
            cbn [DAYS_IN_MONTH andb Z.eqb Pos.eqb];
            repeat match goal with |- context [isleap ?x] => destruct (isleap x) end;
            lia)
  end;
  cbn [bind].

(** The twelve months, one goal each. *)
Ltac each_month m :=
  let H := fresh "Hmonth" in
  assert (H : m = 1 \/ m = 2 \/ m = 3 \/ m = 4 \/ m = 5 \/ m = 6 \/
              m = 7 \/ m = 8 \/ m = 9 \/ m = 10 \/ m = 11 \/ m = 12) by lia;
  repeat (destruct H as [H | H]); subst m.

Ltac table_values :=
  repeat match goal with
  | |- context [DAYS_IN_MONTH ?x] =>
      let v := eval vm_compute in (DAYS_IN_MONTH x) in change (DAYS_IN_MONTH x) with v
  | |- context [DAYS_BEFORE_MONTH ?x] =>
      let v := eval vm_compute in (DAYS_BEFORE_MONTH x) in change (DAYS_BEFORE_MONTH x) with v
  | |- context [b2z ?x] =>
      let v := eval vm_compute in (b2z x) in change (b2z x) with v
  end.

(** ** Ordinals: [_ord2ymd] inverts [_ymd2ord] *)

Lemma yday2md_ok (l : bool) (m d : Z) :
  1 <= m <= 12 -> 1 <= d ->
  d <= (if (m =? 2) && l then 29 else DAYS_IN_MONTH m) ->
  yday2md (DAYS_BEFORE_MONTH m + b2z ((2 <? m) && l) + d - 1) l = (m, d).
Proof.
  intros Hm Hd1 Hd2.
  destruct l; each_month m; cbn in Hd2; cbn -[yday2md Z.add Z.sub];
  unfold yday2md; rewrite Z.shiftr_div_pow2 by lia; change (2 ^ 5) with 32; cbv zeta;
  match goal with |- context [?x / 32] =>
    let H := fresh in let q := fresh "q" in
    remember (x / 32) as q eqn:Eq;
    assert (Hq : 32 * q <= x < 32 * q + 32) by (subst q; Z.div_mod_to_equations; lia);
    clear Eq;
    assert (H : q = 1 \/ q = 2 \/ q = 3 \/ q = 4 \/ q = 5 \/ q = 6 \/ q = 7 \/
                q = 8 \/ q = 9 \/ q = 10 \/ q = 11 \/ q = 12) by lia;
    repeat (destruct H as [H | H]); subst q; try lia;
    match goal with
    | |- context [if ?a <? ?b then _ else _] => destruct (Z.ltb_spec a b)
    end;
    cbn -[Z.add Z.sub] in *; try lia;
    (apply f_equal2; [reflexivity | ]); table_values; lia
  end.
Qed.

Lemma year_split (y : Z) :
  1 <= y ->
  exists a b c e,
    0 <= a /\ 0 <= b <= 3 /\ 0 <= c <= 24 /\ 0 <= e <= 3 /\
    y - 1 = 400 * a + 100 * b + 4 * c + e /\
    days_before_year y = 146097 * a + 36524 * b + 1461 * c + 365 * e /\
    isleap y = (e =? 3) && (negb (c =? 24) || (b =? 3)).
Proof.
  intros Hy.
  exists ((y - 1) / 400), ((y - 1) mod 400 / 100), ((y - 1) mod 100 / 4), ((y - 1) mod 4).
  unfold days_before_year, isleap. cbv zeta.
  repeat split; Z.div_mod_to_equations; lia.
Qed.

Lemma yday_range (y m d : Z) :
  1 <= m <= 12 -> 1 <= d <= days_in_month y m ->
  0 <= days_before_month y m + d - 1 <= 364 + b2z (isleap y) /\
  (days_before_month y m + d - 1 = 365 -> m = 12 /\ d = 31).
Proof.
  intros Hm Hd.
  unfold days_before_month, days_in_month in *.
  destruct (isleap y); each_month m;
  cbn -[Z.add Z.sub] in *; (split; [lia | intros; lia]).
Qed.

Lemma ord2ymd_ymd2ord (y m d : Z) :
  1 <= y -> 1 <= m <= 12 -> 1 <= d <= days_in_month y m ->
  ord2ymd (ymd2ord y m d) = (y, m, d).
Proof.
  intros Hy Hm Hd.
  destruct (year_split y Hy) as (a & b & c & e & Ha & Hb & Hc & He & HY & Hdby & Hleap).
  destruct (yday_range y m d Hm Hd) as [Hk Hk365].
  pose proof (yday2md_ok (isleap y) m d Hm) as Hmd.
  unfold days_in_month in Hd. specialize (Hmd (proj1 Hd) (proj2 Hd)).
  fold (days_before_month y m) in Hmd.
  remember (days_before_month y m + d - 1) as k eqn:Ek.
  unfold ord2ymd, ymd2ord. cbv zeta.
  replace (days_before_year y + days_before_month y m + d - 1)
    with (146097 * a + (36524 * b + 1461 * c + 365 * e + k)) by lia.
  set (R := 36524 * b + 1461 * c + 365 * e + k).
  assert (HR : 0 <= R < 146097).
  { unfold R. rewrite Hleap in Hk.
    destruct (Z.eqb_spec e 3), (Z.eqb_spec c 24), (Z.eqb_spec b 3); cbn in Hk; lia. }
  replace ((146097 * a + R) / 146097) with a by (Z.div_mod_to_equations; lia).
  replace ((146097 * a + R) mod 146097) with R by (Z.div_mod_to_equations; lia).
  destruct (Z.eq_dec R 146096) as [E | NE].
  - rewrite E. assert (k = 365 /\ b = 3 /\ c = 24 /\ e = 3) as (K & -> & -> & ->).
    { unfold R in E. rewrite Hleap in Hk.
      destruct (Z.eqb_spec e 3), (Z.eqb_spec c 24), (Z.eqb_spec b 3); cbn in Hk; lia. }
    destruct (Hk365 K) as [-> ->]. fold_consts. cbn [orb]. f_equal. f_equal. lia.
  - set (R2 := 1461 * c + 365 * e + k).
    assert (HR2 : 0 <= R2 < 36524).
    { unfold R, R2 in *. rewrite Hleap in Hk.
      destruct (Z.eqb_spec e 3), (Z.eqb_spec c 24), (Z.eqb_spec b 3); cbn in Hk; lia. }
    replace (R / 36524) with b by (unfold R, R2 in *; Z.div_mod_to_equations; lia).
    replace (R mod 36524) with R2 by (unfold R, R2 in *; Z.div_mod_to_equations; lia).
    set (R3 := 365 * e + k).
    assert (HR3 : 0 <= R3 < 1461).
    { unfold R3. rewrite Hleap in Hk.
      destruct (Z.eqb_spec e 3), (Z.eqb_spec c 24), (Z.eqb_spec b 3); cbn in Hk; lia. }
    replace (R2 / 1461) with c by (unfold R2, R3 in *; Z.div_mod_to_equations; lia).
    replace (R2 mod 1461) with R3 by (unfold R2, R3 in *; Z.div_mod_to_equations; lia).
    replace (b =? 4) with false by (symmetry; apply Z.eqb_neq; lia).
    rewrite orb_false_r.
    destruct (Z.eq_dec k 365) as [K | NK].
    + assert (e = 3) as ->.
      { rewrite Hleap in Hk. destruct (Z.eqb_spec e 3); cbn in Hk; lia. }
      destruct (Hk365 K) as [-> ->].
      unfold R3. rewrite K. change (365 * 3 + 365) with 1460. fold_consts.
      cbv iota. f_equal. f_equal. lia.
    + assert (Hk' : 0 <= k <= 364).
      { destruct (isleap y); cbn in Hk; lia. }
      replace (R3 / 365) with e by (unfold R3; Z.div_mod_to_equations; lia).
      replace (R3 mod 365) with k by (unfold R3; Z.div_mod_to_equations; lia).
      replace (e =? 4) with false by (symmetry; apply Z.eqb_neq; lia).
      rewrite <- Hleap. cbv iota. rewrite Hmd. f_equal. f_equal. lia.
Qed.

Lemma yday2md_valid (l : bool) (k : Z) :
  0 <= k <= 364 + b2z l ->
  1 <= fst (yday2md k l) <= 12 /\
  1 <= snd (yday2md k l) <=
    (if (fst (yday2md k l) =? 2) && l then 29 else DAYS_IN_MONTH (fst (yday2md k l))).
Proof.
  intros Hk. unfold yday2md.
  rewrite Z.shiftr_div_pow2 by lia. change (2 ^ 5) with 32. cbv zeta.
  remember ((k + 50) / 32) as q eqn:Eq.
  assert (Hq : 32 * q <= k + 50 < 32 * q + 32) by (subst q; Z.div_mod_to_equations; lia).
  clear Eq.
  assert (Hb : b2z l <= 1) by (destruct l; cbn; lia).
  assert (H : q = 1 \/ q = 2 \/ q = 3 \/ q = 4 \/ q = 5 \/ q = 6 \/ q = 7 \/
              q = 8 \/ q = 9 \/ q = 10 \/ q = 11 \/ q = 12) by lia.
  destruct l; repeat (destruct H as [H | H]); subst q;
  match goal with
  | |- context [if ?a <? ?b then _ else _] => destruct (Z.ltb_spec a b)
  end;
  cbn [fst snd]; fold_consts; cbn -[Z.add Z.sub] in *; lia.
Qed.

Lemma isleap_split (a b c e : Z) :
  0 <= b <= 3 -> 0 <= c <= 24 -> 0 <= e <= 3 ->
  isleap (400 * a + 100 * b + 4 * c + e + 1) = (e =? 3) && (negb (c =? 24) || (b =? 3)).
Proof.
  intros Hb Hc He. unfold isleap. Z.div_mod_to_equations. lia.
Qed.

Lemma ord2ymd_valid (n : Z) :
  0 < n <= MAXORDINAL ->
  let '(y, m, d) := ord2ymd n in date_fields_ok y m d = true.
Proof.
  unfold MAXORDINAL. intros Hn. unfold ord2ymd. cbv zeta.
  remember ((n - 1) / 146097) as a eqn:Ea.
  remember ((n - 1) mod 146097) as R eqn:ER.
  remember (R / 36524) as b eqn:Eb.
  remember (R mod 36524) as R2 eqn:ER2.
  remember (R2 / 1461) as c eqn:Ec.
  remember (R2 mod 1461) as R3 eqn:ER3.
  remember (R3 / 365) as e eqn:Ee.
  remember (R3 mod 365) as k eqn:Ek.
  assert (Hdec : n - 1 = 146097 * a + R /\ 0 <= R < 146097 /\
                 R = 36524 * b + R2 /\ 0 <= R2 < 36524 /\
                 R2 = 1461 * c + R3 /\ 0 <= R3 < 1461 /\
                 R3 = 365 * e + k /\ 0 <= k < 365).
  { subst a R b R2 c R3 e k. repeat split; Z.div_mod_to_equations; lia. }
  clear Ea ER Eb ER2 Ec ER3 Ee Ek.
  destruct Hdec as (H1 & HR & H2 & HR2 & H3 & HR3 & H4 & Hk).
  assert (Ha : 0 <= a <= 24) by lia.
  assert (Hb : 0 <= b <= 4) by lia.
  assert (Hc : 0 <= c <= 24) by lia.
  assert (He : 0 <= e <= 4) by lia.
  destruct (Z.eqb_spec e 4) as [E4 | E4]; cbn [orb].
  - unfold date_fields_ok, days_in_month, MINYEAR, MAXYEAR. cbn -[Z.add Z.mul Z.sub Z.leb].
    repeat (apply andb_true_intro; split); apply Z.leb_le; lia.
  - destruct (Z.eqb_spec b 4) as [B4 | B4].
    + unfold date_fields_ok, days_in_month, MINYEAR, MAXYEAR. cbn -[Z.add Z.mul Z.sub Z.leb].
      repeat (apply andb_true_intro; split); apply Z.leb_le; lia.
    + set (l := (e =? 3) && (negb (c =? 24) || (b =? 3))).
      assert (Hl : isleap (a * 400 + 1 + b * 100 + c * 4 + e) = l).
      { replace (a * 400 + 1 + b * 100 + c * 4 + e)
          with (400 * a + 100 * b + 4 * c + e + 1) by lia.
        apply isleap_split; lia. }
      destruct (yday2md_valid l k) as [Hm Hd].
      { destruct l; cbn; lia. }
      destruct (yday2md k l) as [m d]. cbn [fst snd] in Hm, Hd.
      unfold date_fields_ok, days_in_month, MINYEAR, MAXYEAR. rewrite Hl.
      repeat (apply andb_true_intro; split); apply Z.leb_le; lia.
Qed.

(** ** Facts about the library model *)

Lemma date_fields_ok_iff (y m d : Z) :
  date_fields_ok y m d = true <->
  1 <= y <= 9999 /\ 1 <= m <= 12 /\ 1 <= d <= days_in_month y m.
Proof.
  unfold date_fields_ok, MINYEAR, MAXYEAR.
  rewrite !andb_true_iff, !Z.leb_le. lia.
Qed.

Lemma is_leap_year_isleap (y : Z) : is_leap_year y = isleap y.
Proof.
  unfold is_leap_year, isleap. Z.div_mod_to_equations. lia.
Qed.

Lemma days_in_month_last_day (y m : Z) :
  1 <= m <= 12 -> days_in_month y m = last_day_of y m.
Proof.
  intros Hm. unfold days_in_month, last_day_of. rewrite is_leap_year_isleap.
  each_month m; destruct (isleap y); reflexivity.
Qed.

Lemma days_in_month_bounds (y m : Z) :
  1 <= m <= 12 -> 28 <= days_in_month y m <= 31.
Proof.
  intros Hm. unfold days_in_month.
  each_month m; destruct (isleap y); cbn; lia.
Qed.

Lemma monthrange_ndays_ok (y m : Z) :
  1 <= m <= 12 -> monthrange_ndays y m = Ok (days_in_month y m).
Proof.
  intros Hm. unfold monthrange_ndays, days_in_month.
  replace ((1 <=? m) && (m <=? 12)) with true by (symmetry; apply andb_true_intro; lia).
  each_month m; destruct (isleap y); reflexivity.
Qed.

Lemma ymd2ord_range (y m d : Z) :
  date_fields_ok y m d = true -> 0 < ymd2ord y m d <= MAXORDINAL.
Proof.
  rewrite date_fields_ok_iff. intros (Hy & Hm & Hd).
  destruct (year_split y (proj1 Hy)) as (a & b & c & e & Ha & Hb & Hc & He & HY & Hdby & Hleap).
  destruct (yday_range y m d Hm Hd) as [Hk _].
  unfold ymd2ord, MAXORDINAL. rewrite Hdby. rewrite Hleap in Hk.
  destruct (Z.eqb_spec e 3), (Z.eqb_spec c 24), (Z.eqb_spec b 3); cbn in Hk; lia.
Qed.

Lemma add_days_0 (dt : datetime) :
  date_fields_ok (year dt) (month dt) (day dt) = true -> add_days dt 0 = Ok dt.
Proof.
  intros Hv. unfold add_days, toordinal. cbn [andb Z.leb Z.compare].
  rewrite Z.add_0_r.
  pose proof (ymd2ord_range _ _ _ Hv) as Hr.
  replace ((0 <? ymd2ord (year dt) (month dt) (day dt)) &&
           (ymd2ord (year dt) (month dt) (day dt) <=? MAXORDINAL)) with true
    by (symmetry; apply andb_true_intro; split; [apply Z.ltb_lt | apply Z.leb_le]; lia).
  apply date_fields_ok_iff in Hv. destruct Hv as (Hy & Hm & Hd).
  rewrite ord2ymd_ymd2ord by lia. destruct dt; reflexivity.
Qed.

Lemma add_days_inv (dt dt' : datetime) (n : Z) :
  add_days dt n = Ok dt' ->
  date_fields_ok (year dt') (month dt') (day dt') = true /\
  hour dt' = hour dt /\ minute dt' = minute dt /\
  second dt' = second dt /\ microsecond dt' = microsecond dt.
Proof.
  unfold add_days.
  destruct ((-999999999 <=? n) && (n <=? 999999999)); [ | discriminate].
  destruct ((0 <? toordinal dt + n) && (toordinal dt + n <=? MAXORDINAL)) eqn:Hr;
    [ | discriminate].
  apply andb_true_iff in Hr. destruct Hr as [H0 H1].
  apply Z.ltb_lt in H0. apply Z.leb_le in H1.
  pose proof (ord2ymd_valid (toordinal dt + n) (conj H0 H1)) as Hv.
  destruct (ord2ymd (toordinal dt + n)) as [[y m] d].
  intros E. injection E as <-. cbn. auto.
Qed.

Lemma replace_inv (dt dt' : datetime) (y m d : Z) :
  replace dt y m d = Ok dt' ->
  date_fields_ok y m d = true /\
  dt' = mkdatetime y m d (hour dt) (minute dt) (second dt) (microsecond dt).
Proof.
  unfold replace. destruct (date_fields_ok y m d); [ | discriminate].
  intros E. injection E as <-. auto.
Qed.

(** [dt + relativedelta(years=n)] on a date of the type: the year moves,
    the day is cut to the target month, and nothing else happens. *)
Lemma add_relativedelta_years_eq (dt : datetime) (n : Z) :
  1 <= month dt <= 12 ->
  add_relativedelta_years dt n =
  replace dt (year dt + n) (month dt)
    (Z.min (days_in_month (year dt + n) (month dt)) (day dt)).
Proof.
  intros Hm. unfold add_relativedelta_years.
  rewrite monthrange_ndays_ok by assumption. cbn [bind].
  destruct (replace dt (year dt + n) (month dt)
              (Z.min (days_in_month (year dt + n) (month dt)) (day dt))) as [r | e] eqn:E;
    [ | reflexivity].
  cbn [bind]. apply replace_inv in E. destruct E as [Hv ->].
  apply add_days_0. exact Hv.
Qed.

Lemma strptime_inv (s : string) (dt : datetime) :
  strptime s = Ok dt ->
  date_fields_ok (year dt) (month dt) (day dt) = true /\
  hour dt = 0 /\ minute dt = 0 /\ second dt = 0 /\ microsecond dt = 0.
Proof.
  unfold strptime.
  destruct (match_format s) as [[[[y m] d] rest] | ]; [ | discriminate].
  destruct rest; [ | discriminate].
  destruct (date_fields_ok y m d) eqn:Hv; [ | discriminate].
  intros E. injection E as <-. cbn. auto.
Qed.

Lemma strptime_empty : strptime "" = Raise (ValueError NoMatch).
Proof. reflexivity. Qed.

Lemma strptime_nonempty (s : string) (dt : datetime) :
  strptime s = Ok dt -> nonempty s = true.
Proof.
  destruct s; [ discriminate | reflexivity ].
Qed.

(** A parse failure is always the same exception. *)
Lemma strptime_raise (s : string) (e : exn) :
  strptime s = Raise e -> e = ValueError NoMatch.
Proof.
  unfold strptime.
  destruct (match_format s) as [[[[y m] d] rest] | ]; [ | congruence].
  destruct rest; [ | congruence].
  destruct (date_fields_ok y m d); congruence.
Qed.

(** *** The text of a date parses back to the date *)

Lemma digit_of_digit_char (n : Z) :
  0 <= n <= 9 -> digit_of (digit_char n) = Some n.
Proof.
  intros Hn. destruct n as [ | p | p]; [reflexivity | | lia].
  do 4 (try (destruct p as [p | p | ]; try reflexivity; try lia)).
Qed.

Lemma match_Y_pad4 (y : Z) (rest : string) :
  0 <= y <= 9999 -> match_Y (pad4 y ++ rest) = Some (y, rest).
Proof.
  intros Hy. unfold pad4, pad2. cbn [String.append]. unfold match_Y.
  rewrite !digit_of_digit_char by (Z.div_mod_to_equations; lia).
  cbn [obind]. do 2 f_equal. Z.div_mod_to_equations. lia.
Qed.

Lemma match_m_pad2 (m : Z) (rest : string) :
  1 <= m <= 12 -> match_m (pad2 m ++ rest) = Some (m, rest).
Proof.
  intros Hm. each_month m; reflexivity.
Qed.

Lemma match_d_pad2 (d : Z) (rest : string) :
  1 <= d <= 31 -> match_d (pad2 d ++ rest) = Some (d, rest).
Proof.
  intros Hd.
  assert (H : 1 <= d <= 8 \/ 9 <= d <= 16 \/ 17 <= d <= 24 \/ 25 <= d <= 31) by lia.
  destruct H as [H | [H | [H | H]]];
  match type of H with
  | ?lo <= _ <= _ =>
      assert (H' : d = lo \/ d = lo + 1 \/ d = lo + 2 \/ d = lo + 3 \/ d = lo + 4 \/
                   d = lo + 5 \/ d = lo + 6 \/ d = lo + 7) by lia
  end;
  repeat (destruct H' as [H' | H']); subst d; try reflexivity; lia.
Qed.

(** From year 1000 on, the text of a date at midnight parses back to the
    date. *)
Lemma strptime_strftime (dt : datetime) :
  date_fields_ok (year dt) (month dt) (day dt) = true ->
  hour dt = 0 -> minute dt = 0 -> second dt = 0 -> microsecond dt = 0 ->
  1000 <= year dt ->
  strptime (strftime dt) = Ok dt.
Proof.
  intros Hv Hh Hmi Hs Hu H1000.
  pose proof Hv as Hv'. apply date_fields_ok_iff in Hv'. destruct Hv' as (Hy & Hm & Hd).
  pose proof (days_in_month_bounds (year dt) (month dt) Hm) as Hb.
  unfold strptime, match_format, strftime, year_text.
  destruct (Z.ltb_spec (year dt) 1000) as [Hlt | _]; [lia | ].
  rewrite match_Y_pad4 by lia. cbn [obind String.append match_dash Ascii.eqb Bool.eqb].
  rewrite match_m_pad2 by lia. cbn [obind String.append match_dash Ascii.eqb Bool.eqb].
  replace (pad2 (day dt)) with (pad2 (day dt) ++ "")%string
    by (unfold pad2; reflexivity).
  rewrite match_d_pad2 by lia. cbn [obind].
  rewrite Hv. destruct dt; cbn in *; subst; reflexivity.
Qed.

(** Before year 1000 it does not: the year is written with fewer than four
    digits, which [%Y] of [strptime] does not read. *)
Lemma strptime_strftime_year_999 :
  strftime (mkdatetime 999 6 15 0 0 0 0) = "999-06-15" /\
  strptime (strftime (mkdatetime 999 6 15 0 0 0 0)) = Raise (ValueError NoMatch).
Proof.
  split; vm_compute; reflexivity.
Qed.

Lemma midnight_inv (d : datetime) :
  midnight d = true ->
  hour d = 0 /\ minute d = 0 /\ second d = 0 /\ microsecond d = 0.
Proof.
  unfold midnight. rewrite !andb_true_iff, !Z.eqb_eq. tauto.
Qed.

Lemma good_parses (d : datetime) :
  good d -> 1000 <= year d -> strptime (strftime d) = Ok d.
Proof.
  intros [Hv Hm] Hy. apply midnight_inv in Hm. destruct Hm as (H1 & H2 & H3 & H4).
  apply strptime_strftime; assumption.
Qed.

Lemma strptime_good (s : string) (d : datetime) : strptime s = Ok d -> good d.
Proof.
  intros H. destruct (strptime_inv _ _ H) as (Hv & H1 & H2 & H3 & H4).
  split; [exact Hv | ]. unfold midnight. rewrite H1, H2, H3, H4. reflexivity.
Qed.

Lemma same_time_good (a b : datetime) :
  good a ->
  date_fields_ok (year b) (month b) (day b) = true ->
  hour b = hour a -> minute b = minute a -> second b = second a ->
  microsecond b = microsecond a ->
  good b.
Proof.
  intros [_ Hm] Hv H1 H2 H3 H4. split; [exact Hv | ].
  unfold midnight in *. rewrite H1, H2, H3, H4. exact Hm.
Qed.

(** *** A text is written for one date only *)

(** The text of every year of [datetime] is made of digits and writes the
    year, with or without leading zeros. *)
Lemma year_text_value (y : Z) :
  1 <= y <= 9999 -> digits_value (year_text y) 0 = Some y.
Proof.
  intros Hy. destruct (Z.lt_ge_cases y 1000) as [Hlt | Hge].
  - assert (H : forallb year_text_reads short_years = true)
      by (vm_compute; reflexivity).
    rewrite forallb_forall in H.
    assert (Hin : In y short_years).
    { unfold short_years. apply in_map_iff. exists (Z.to_nat y).
      split; [lia | ]. apply in_seq. lia. }
    specialize (H y Hin). unfold year_text_reads in H.
    destruct (digits_value (year_text y) 0) as [v | ]; [ | discriminate].
    apply Z.eqb_eq in H. subst v. reflexivity.
  - unfold year_text. rewrite (proj2 (Z.ltb_ge y 1000) Hge).
    unfold pad4, pad2. cbn [digits_value].
    rewrite !digit_of_digit_char by (Z.div_mod_to_equations; lia).
    f_equal. Z.div_mod_to_equations. lia.
Qed.

(** Two texts of digits that are each followed by a dash end at the same
    dash. *)
Lemma digits_dash_split (t1 : string) :
  forall t2 a1 a2 v1 v2 r1 r2,
    digits_value t1 a1 = Some v1 -> digits_value t2 a2 = Some v2 ->
    (t1 ++ String "-" r1 = t2 ++ String "-" r2)%string ->
    t1 = t2 /\ r1 = r2.
Proof.
  induction t1 as [ | c t1 IH]; intros t2 a1 a2 v1 v2 r1 r2 H1 H2 E.
  - destruct t2 as [ | c2 t2]; cbn [String.append] in E.
    + injection E as ->. auto.
    + injection E as <- _. cbn in H2. discriminate.
  - destruct t2 as [ | c2 t2]; cbn [String.append] in E.
    + injection E as -> _. cbn in H1. discriminate.
    + injection E as <- E. cbn [digits_value] in H1, H2.
      destruct (digit_of c) as [d | ]; [ | discriminate].
      destruct (IH _ _ _ _ _ _ _ H1 H2 E) as [-> ->]. auto.
Qed.

Lemma strftime_inj (a b : datetime) :
  good a -> good b -> strftime a = strftime b -> a = b.
Proof.
  intros [Va Ma] [Vb Mb] E.
  apply midnight_inv in Ma, Mb.
  destruct Ma as (A1 & A2 & A3 & A4). destruct Mb as (B1 & B2 & B3 & B4).
  apply date_fields_ok_iff in Va, Vb.
  destruct Va as (Hya & Hma & Hda). destruct Vb as (Hyb & Hmb & Hdb).
  pose proof (days_in_month_bounds (year a) (month a) Hma) as Ba.
  pose proof (days_in_month_bounds (year b) (month b) Hmb) as Bb.
  unfold strftime in E.
  change ("-" ++ pad2 (month a) ++ "-" ++ pad2 (day a))%string
    with (String "-" (pad2 (month a) ++ String "-" (pad2 (day a) ++ ""))) in E.
  change ("-" ++ pad2 (month b) ++ "-" ++ pad2 (day b))%string
    with (String "-" (pad2 (month b) ++ String "-" (pad2 (day b) ++ ""))) in E.
  destruct (digits_dash_split _ _ _ _ _ _ _ _
              (year_text_value _ Hya) (year_text_value _ Hyb) E) as [Ey Er].
  assert (Hy : year a = year b).
  { pose proof (year_text_value _ Hya) as Ha. rewrite Ey in Ha.
    rewrite (year_text_value _ Hyb) in Ha. congruence. }
  apply (f_equal match_m) in Er. rewrite !match_m_pad2 in Er by assumption.
  assert (Hm : month a = month b) by congruence.
  assert (Ed : String "-" (pad2 (day a) ++ "") = String "-" (pad2 (day b) ++ ""))
    by congruence.
  apply (f_equal (fun t => match t with String _ r => match_d r | EmptyString => None end))
    in Ed.
  cbv beta iota in Ed. rewrite !match_d_pad2 in Ed by lia.
  assert (Hd : day a = day b) by congruence.
  destruct a, b. cbn in *. congruence.
Qed.

(** The date that a text denotes is unique. *)
Lemma written_unique (s : string) (a b : datetime) :
  written s a -> written s b -> a = b.
Proof.
  intros [Ga Ea] [Gb Eb]. apply strftime_inj; congruence.
Qed.

Lemma written_strftime (d : datetime) : good d -> written (strftime d) d.
Proof. intros G. split; [exact G | reflexivity]. Qed.

(** From year 1000 on, the date that a text denotes is the date that
    [strptime] reads from it. *)
Lemma written_parses (s : string) (d : datetime) :
  written s d -> 1000 <= year d -> strptime s = Ok d.
Proof.
  intros [G <-] Hy. apply good_parses; assumption.
Qed.

(** *** The order of datetimes *)

Lemma lex_compare_refl (a : list Z) : lex_compare a a = Eq.
Proof.
  induction a as [ | x a IH]; cbn; [reflexivity | ].
  rewrite Z.compare_refl. exact IH.
Qed.

Lemma lex_compare_lt_trans (a : list Z) :
  forall b c, lex_compare a b = Lt -> lex_compare b c = Lt -> lex_compare a c = Lt.
Proof.
  induction a as [ | x a IH]; intros [ | y b] [ | z c]; cbn; try congruence.
  destruct (Z.compare_spec x y), (Z.compare_spec y z); try congruence; intros H1 H2.
  - subst. rewrite Z.compare_refl. eapply IH; eassumption.
  - subst. apply Z.compare_lt_iff in H0. rewrite H0. reflexivity.
  - subst. apply Z.compare_lt_iff in H. rewrite H. reflexivity.
  - assert (Hxz : x < z) by lia. apply Z.compare_lt_iff in Hxz. rewrite Hxz. reflexivity.
Qed.

Lemma lt_irrefl (a : datetime) : lt a a = false.
Proof.
  unfold lt, cmp. rewrite lex_compare_refl. reflexivity.
Qed.

Lemma lt_trans (a b c : datetime) :
  lt a b = true -> lt b c = true -> lt a c = true.
Proof.
  unfold lt, cmp. intros H1 H2.
  destruct (lex_compare (fields a) (fields b)) eqn:E1; try discriminate.
  destruct (lex_compare (fields b) (fields c)) eqn:E2; try discriminate.
  rewrite (lex_compare_lt_trans _ _ _ E1 E2). reflexivity.
Qed.

Lemma ge_negb_lt (a b : datetime) : ge a b = negb (lt a b).
Proof.
  unfold ge, lt. destruct (cmp a b); reflexivity.
Qed.

(** ** The two calendar additions of the source *)

Lemma or0_id (n : Z) : or0 n = n.
Proof.
  unfold or0, truthy. destruct (Z.eqb_spec n 0); cbn; congruence.
Qed.

(** The day kept by the clamp is the day of [years_after]. *)
Lemma clamp_years_after (f : datetime) (n : Z) :
  date_fields_ok (year f) (month f) (day f) = true ->
  mkdatetime (year f + n) (month f)
    (Z.min (days_in_month (year f + n) (month f)) (day f))
    (hour f) (minute f) (second f) (microsecond f) = years_after f n.
Proof.
  rewrite date_fields_ok_iff. intros (Hy & Hm & Hd).
  unfold years_after. cbv zeta. rewrite is_leap_year_isleap.
  unfold days_in_month in *.
  destruct (Z.eqb_spec (month f) 2) as [M2 | M2]; cbn [andb].
  - rewrite M2 in *. cbn in Hd.
    destruct (isleap (year f + n)) eqn:L; cbn [negb andb].
    + rewrite andb_false_r. f_equal. destruct (isleap (year f)); lia.
    + destruct (Z.eqb_spec (day f) 29) as [D | D]; cbn [andb].
      * f_equal. cbn. lia.
      * f_equal. cbn. destruct (isleap (year f)); lia.
  - cbn [andb] in Hd. f_equal. lia.
Qed.

(** [dt + relativedelta(years=n)] is [years_after] whenever the target
    year is a year of the type, and a [ValueError] otherwise. *)
Lemma add_relativedelta_years_spec (f : datetime) (n : Z) :
  date_fields_ok (year f) (month f) (day f) = true ->
  add_relativedelta_years f n =
  if (MINYEAR <=? year f + n) && (year f + n <=? MAXYEAR)
  then Ok (years_after f n)
  else Raise (ValueError OutOfRange).
Proof.
  intros Hv. pose proof Hv as Hv'.
  apply date_fields_ok_iff in Hv'. destruct Hv' as (Hy & Hm & Hd).
  rewrite add_relativedelta_years_eq by assumption.
  rewrite <- clamp_years_after by assumption.
  unfold replace, date_fields_ok.
  pose proof (days_in_month_bounds (year f + n) (month f) Hm) as Hb.
  replace (1 <=? month f) with true by (symmetry; apply Z.leb_le; lia).
  replace (month f <=? 12) with true by (symmetry; apply Z.leb_le; lia).
  replace (1 <=? Z.min (days_in_month (year f + n) (month f)) (day f)) with true
    by (symmetry; apply Z.leb_le; lia).
  replace (Z.min (days_in_month (year f + n) (month f)) (day f) <=?
           days_in_month (year f + n) (month f)) with true
    by (symmetry; apply Z.leb_le; lia).
  rewrite !andb_true_r. reflexivity.
Qed.

(** [add_years_months] is [addCalendarMonths] whenever the target year is a
    year of the type, and a [ValueError] otherwise. *)
Lemma add_years_months_spec (d : datetime) (years months : Z) :
  date_fields_ok (year d) (month d) (day d) = true ->
  add_years_months d years months =
  if (MINYEAR <=? year (addCalendarMonths d years months)) &&
     (year (addCalendarMonths d years months) <=? MAXYEAR)
  then Ok (addCalendarMonths d years months)
  else Raise (ValueError OutOfRange).
Proof.
  intros Hv. apply date_fields_ok_iff in Hv. destruct Hv as (Hy & Hm & Hd).
  unfold add_years_months, addCalendarMonths. cbv zeta. cbn [year].
  set (ny := year d + years + (month d + months - 1) / 12).
  set (nm := (month d + months - 1) mod 12 + 1).
  assert (Hnm : 1 <= nm <= 12) by (unfold nm; Z.div_mod_to_equations; lia).
  replace ((12 * (year d + years) + (month d - 1) + months) / 12) with ny
    by (unfold ny; Z.div_mod_to_equations; lia).
  replace ((12 * (year d + years) + (month d - 1) + months) mod 12 + 1) with nm
    by (unfold nm; Z.div_mod_to_equations; lia).
  rewrite monthrange_ndays_ok by assumption. cbn [bind].
  rewrite <- days_in_month_last_day by assumption.
  pose proof (days_in_month_bounds ny nm Hnm) as Hb.
  unfold replace, date_fields_ok.
  replace (1 <=? nm) with true by (symmetry; apply Z.leb_le; lia).
  replace (nm <=? 12) with true by (symmetry; apply Z.leb_le; lia).
  replace (1 <=? Z.min (day d) (days_in_month ny nm)) with true
    by (symmetry; apply Z.leb_le; lia).
  replace (Z.min (day d) (days_in_month ny nm) <=? days_in_month ny nm) with true
    by (symmetry; apply Z.leb_le; lia).
  rewrite !andb_true_r. reflexivity.
Qed.

Lemma add_years_months_valid (d d' : datetime) (years months : Z) :
  add_years_months d years months = Ok d' ->
  date_fields_ok (year d') (month d') (day d') = true.
Proof.
  unfold add_years_months. cbv zeta.
  destruct (monthrange_ndays _ _) as [n | e]; [ | discriminate]. cbn [bind].
  intros E. apply replace_inv in E. destruct E as [Hv ->]. exact Hv.
Qed.

(** ** [calculate_expiry], step by step *)

Lemma append_nil_r (s : string) : (s ++ "")%string = s.
Proof.
  induction s as [ | c s IH]; cbn; [reflexivity | rewrite IH; reflexivity].
Qed.

Lemma append_assoc (a b c : string) : ((a ++ b) ++ c)%string = (a ++ b ++ c)%string.
Proof.
  induction a as [ | x a IH]; cbn; [reflexivity | rewrite IH; reflexivity].
Qed.

(** The reason accumulated by the two [if] statements. *)
Lemma accumulated_reason (pta pte : Z) :
  (let reason := "20 years from filing" in
   let reason :=
     if truthy pta then (reason ++ " + " ++ str pta ++ " days PTA")%string else reason in
   if truthy pte then (reason ++ " + " ++ str pte ++ " days PTE")%string else reason)
  = utility_reason pta pte.
Proof.
  unfold utility_reason, pta_clause, pte_clause, truthy. cbv zeta.
  destruct (pta =? 0), (pte =? 0); cbn [negb];
  rewrite ?append_nil_r, ?append_assoc; reflexivity.
Qed.

Lemma calculate_expiry_inv (now : datetime) (filing_str : string) (pta pte : Z)
    (td : option string) (r : ExpirationResult) :
  calculate_expiry now filing_str pta pte td = Ok r ->
  exists f baseline adjusted final rsn,
    strptime filing_str = Ok f /\
    add_relativedelta_years f 20 = Ok baseline /\
    add_days baseline (pta + pte) = Ok adjusted /\
    td_step td adjusted pta pte final rsn /\
    r = expiry_dict now baseline final rsn pta pte.
Proof.
  unfold calculate_expiry. rewrite !or0_id.
  destruct (strptime filing_str) as [f | e] eqn:Hf; [ | discriminate]. cbn [bind].
  destruct (add_relativedelta_years f 20) as [b | e] eqn:Hb; [ | discriminate]. cbn [bind].
  destruct (add_days b (pta + pte)) as [a | e] eqn:Ha; [ | discriminate]. cbn [bind].
  rewrite accumulated_reason.
  intros H. exists f, b, a.
  destruct td as [s | ].
  - destruct (nonempty s) eqn:Hs.
    + destruct (strptime s) as [tdd | e] eqn:Htd; [ | discriminate]. cbn [bind] in H.
      destruct (lt tdd a) eqn:Hlt; cbn [bind] in H; injection H as <-.
      * exists tdd, "Terminal Disclaimer (expires with linked patent)".
        repeat split; try reflexivity; try assumption. eapply td_overrides; eauto.
      * exists a, (utility_reason pta pte).
        repeat split; try reflexivity; try assumption. eapply td_ignored; eauto.
    + destruct s; [ | discriminate]. cbn [bind] in H. injection H as <-.
      exists a, (utility_reason pta pte). repeat split; try reflexivity; try assumption.
      apply td_absent. right. reflexivity.
  - cbn [bind] in H. injection H as <-.
    exists a, (utility_reason pta pte). repeat split; try reflexivity; try assumption.
    apply td_absent. left. reflexivity.
Qed.

(** The other direction: the steps succeed, so does the call. *)
Lemma calculate_expiry_no_td (now : datetime) (filing_str : string) (pta pte : Z)
    (f baseline adjusted : datetime) :
  strptime filing_str = Ok f ->
  add_relativedelta_years f 20 = Ok baseline ->
  add_days baseline (pta + pte) = Ok adjusted ->
  calculate_expiry now filing_str pta pte None =
  Ok (expiry_dict now baseline adjusted (utility_reason pta pte) pta pte).
Proof.
  intros Hf Hb Ha. unfold calculate_expiry. rewrite !or0_id.
  rewrite Hf. cbn [bind]. rewrite Hb. cbn [bind]. rewrite Ha. cbn [bind].
  rewrite accumulated_reason. reflexivity.
Qed.

Lemma calculate_expiry_with_td (now : datetime) (filing_str : string) (pta pte : Z)
    (td_str : string) (f baseline adjusted td_date : datetime) :
  strptime filing_str = Ok f ->
  add_relativedelta_years f 20 = Ok baseline ->
  add_days baseline (pta + pte) = Ok adjusted ->
  strptime td_str = Ok td_date ->
  calculate_expiry now filing_str pta pte (Some td_str) =
  if lt td_date adjusted
  then Ok (expiry_dict now baseline td_date
             "Terminal Disclaimer (expires with linked patent)" pta pte)
  else Ok (expiry_dict now baseline adjusted (utility_reason pta pte) pta pte).
Proof.
  intros Hf Hb Ha Htd. unfold calculate_expiry. rewrite !or0_id.
  rewrite Hf. cbn [bind]. rewrite Hb. cbn [bind]. rewrite Ha. cbn [bind].
  rewrite accumulated_reason.
  rewrite (strptime_nonempty _ _ Htd). rewrite Htd. cbn [bind].
  destruct (lt td_date adjusted); reflexivity.
Qed.

Lemma add_relativedelta_years_valid (dt dt' : datetime) (n : Z) :
  1 <= month dt <= 12 ->
  add_relativedelta_years dt n = Ok dt' ->
  date_fields_ok (year dt') (month dt') (day dt') = true /\
  hour dt' = hour dt /\ minute dt' = minute dt /\
  second dt' = second dt /\ microsecond dt' = microsecond dt.
Proof.
  intros Hm. rewrite add_relativedelta_years_eq by assumption.
  intros E. apply replace_inv in E. destruct E as [Hv ->]. cbn. auto.
Qed.

Lemma td_step_none (adjusted final : datetime) (pta pte : Z) (rsn : string) :
  td_step None adjusted pta pte final rsn ->
  final = adjusted /\ rsn = utility_reason pta pte.
Proof.
  intros H. inversion H; subst; auto; discriminate.
Qed.

Lemma calculate_expiry_empty_td (now : datetime) (filing_str : string) (pta pte : Z) :
  calculate_expiry now filing_str pta pte (Some "") =
  calculate_expiry now filing_str pta pte None.
Proof. reflexivity. Qed.

(** The twentieth anniversary exists and the adjustment stays within the
    type, and the terminal disclaimer (if any) parses: the call returns. *)
Lemma calculate_expiry_returns (now : datetime) (filing_str : string) (pta pte : Z)
    (td : option string) (f : datetime) :
  strptime filing_str = Ok f ->
  year f + 20 <= MAXYEAR ->
  -999999999 <= pta + pte <= 999999999 ->
  0 < toordinal (years_after f 20) + (pta + pte) <= MAXORDINAL ->
  td = None \/ td = Some "" \/ (exists s d, td = Some s /\ strptime s = Ok d) ->
  exists r, calculate_expiry now filing_str pta pte td = Ok r.
Proof.
  intros Hf Hmax Hdays Hord Htd.
  destruct (strptime_inv _ _ Hf) as (Hv & _).
  pose proof Hv as Hv'. apply date_fields_ok_iff in Hv'. destruct Hv' as (Hy & Hm & Hd).
  pose proof (add_relativedelta_years_spec f 20 Hv) as Hb.
  replace ((MINYEAR <=? year f + 20) && (year f + 20 <=? MAXYEAR)) with true in Hb
    by (symmetry; unfold MINYEAR, MAXYEAR in *; apply andb_true_intro; split;
        apply Z.leb_le; lia).
  assert (Ha : exists a, add_days (years_after f 20) (pta + pte) = Ok a).
  { unfold add_days.
    replace ((-999999999 <=? pta + pte) && (pta + pte <=? 999999999)) with true
      by (symmetry; apply andb_true_intro; split; apply Z.leb_le; lia).
    replace ((0 <? toordinal (years_after f 20) + (pta + pte)) &&
             (toordinal (years_after f 20) + (pta + pte) <=? MAXORDINAL)) with true
      by (symmetry; apply andb_true_intro; split; [apply Z.ltb_lt | apply Z.leb_le]; lia).
    destruct (ord2ymd _) as [[y m] d]. eexists. reflexivity. }
  destruct Ha as [a Ha].
  destruct Htd as [-> | [-> | (s & d & -> & Hs)]].
  - eexists. eapply calculate_expiry_no_td; eassumption.
  - rewrite calculate_expiry_empty_td. eexists. eapply calculate_expiry_no_td; eassumption.
  - rewrite (calculate_expiry_with_td now _ pta pte _ _ _ _ _ Hf Hb Ha Hs).
    destruct (lt d a); eexists; reflexivity.
Qed.

(** ** Utility and plant patents: the twenty-year baseline *)

(** C1. With [pta_days = pte_days = 0] and no terminal disclaimer, the
    [baseline_expiry] and the [calculated_expiry] (and [expiry]) returned by
    [calculate_expiry] for a filing date [f] are the date twenty calendar
    years after [f], month and day preserved, a 29 February whose target
    year is not a leap year being cut to 28 February ([years_after]).  The
    call returns for every filing date up to year 9979, the last one whose
    twentieth anniversary is a date of [datetime]. *)
Theorem calculate_expiry_twenty_years (now : datetime) (filing_str : string)
    (f : datetime) :
  strptime filing_str = Ok f ->
  (year f + 20 <= MAXYEAR ->
   exists r, calculate_expiry now filing_str 0 0 None = Ok r) /\
  (forall r, calculate_expiry now filing_str 0 0 None = Ok r ->
     baseline_expiry r = strftime (years_after f 20) /\
     calculated_expiry r = strftime (years_after f 20) /\
     expiry r = strftime (years_after f 20)).
Proof.
  intros Hf. pose proof (strptime_inv _ _ Hf) as (Hv & _).
  pose proof Hv as Hv'. apply date_fields_ok_iff in Hv'. destruct Hv' as (Hy & Hm & Hd).
  pose proof (add_relativedelta_years_spec f 20 Hv) as Hspec.
  split.
  - intros Hmax.
    replace ((MINYEAR <=? year f + 20) && (year f + 20 <=? MAXYEAR)) with true in Hspec
      by (symmetry; unfold MINYEAR, MAXYEAR in *; apply andb_true_intro; split;
          apply Z.leb_le; lia).
    destruct (add_relativedelta_years_valid _ _ _ Hm Hspec) as (Hvb & _).
    eexists. eapply calculate_expiry_no_td; eauto.
    change (0 + 0) with 0. apply add_days_0. exact Hvb.
  - intros r Hr.
    apply calculate_expiry_inv in Hr.
    destruct Hr as (f' & b & a & final & rsn & Hf' & Hb & Ha & Htd & ->).
    rewrite Hf in Hf'. injection Hf' as <-.
    destruct (add_relativedelta_years_valid _ _ _ Hm Hb) as (Hvb & _).
    rewrite Hspec in Hb.
    destruct ((MINYEAR <=? year f + 20) && (year f + 20 <=? MAXYEAR)); [ | discriminate].
    injection Hb as <-.
    change (0 + 0) with 0 in Ha. rewrite add_days_0 in Ha by exact Hvb.
    injection Ha as <-.
    apply td_step_none in Htd. destruct Htd as [-> _].
    cbn. auto.
Qed.

Lemma calculate_expiry_twenty_years_witness :
  exists r,
    calculate_expiry (mkdatetime 2026 11 4 9 30 0 0) "2080-02-29" 0 0 None = Ok r /\
    baseline_expiry r = "2100-02-28" /\ calculated_expiry r = "2100-02-28".
Proof.
  destruct (calculate_expiry_twenty_years (mkdatetime 2026 11 4 9 30 0 0)
              "2080-02-29" (mkdatetime 2080 2 29 0 0 0 0) eq_refl) as [Hex Hall].
  assert (Hle : 2080 + 20 <= MAXYEAR) by (unfold MAXYEAR; lia).
  destruct (Hex Hle) as [r Hr].
  exists r. split; [exact Hr | ].
  destruct (Hall r Hr) as (Hb & Hc & _). split; [exact Hb | exact Hc].
Defined.

(** ** The terminal disclaimer *)

(** C2. Let [adjusted] be the baseline plus [pta_days + pte_days] days and
    [td] the terminal disclaimer date.  If [td < adjusted], the call returns
    [td] as [expiry] and [calculated_expiry] and the reason is the terminal
    disclaimer sentence alone; if [td >= adjusted], the call returns exactly
    what it returns without a terminal disclaimer. *)
Theorem terminal_disclaimer_rule (now : datetime) (filing_str td_str : string)
    (pta pte : Z) (f baseline adjusted td : datetime) :
  strptime filing_str = Ok f ->
  add_relativedelta_years f 20 = Ok baseline ->
  add_days baseline (pta + pte) = Ok adjusted ->
  strptime td_str = Ok td ->
  (lt td adjusted = true ->
   exists r, calculate_expiry now filing_str pta pte (Some td_str) = Ok r /\
             expiry r = strftime td /\ calculated_expiry r = strftime td /\
             reason r = "Terminal Disclaimer (expires with linked patent)") /\
  (ge td adjusted = true ->
   exists r, calculate_expiry now filing_str pta pte (Some td_str) = Ok r /\
             calculate_expiry now filing_str pta pte None = Ok r /\
             expiry r = strftime adjusted /\
             reason r = utility_reason pta pte).
Proof.
  intros Hf Hb Ha Htd.
  pose proof (calculate_expiry_with_td now _ pta pte _ _ _ _ _ Hf Hb Ha Htd) as Hwith.
  pose proof (calculate_expiry_no_td now _ pta pte _ _ _ Hf Hb Ha) as Hnone.
  split.
  - intros Hlt. rewrite Hlt in Hwith. eexists. split; [exact Hwith | ]. cbn. auto.
  - intros Hge. rewrite ge_negb_lt in Hge. apply negb_true_iff in Hge.
    rewrite Hge in Hwith. eexists. split; [exact Hwith | ].
    split; [exact Hnone | ]. cbn. auto.
Qed.

Lemma terminal_disclaimer_rule_witness :
  (exists r,
     calculate_expiry (mkdatetime 2026 11 4 9 30 0 0) "2010-06-15" 90 0
       (Some "2029-01-01") = Ok r /\
     expiry r = "2029-01-01" /\
     reason r = "Terminal Disclaimer (expires with linked patent)") /\
  (exists r,
     calculate_expiry (mkdatetime 2026 11 4 9 30 0 0) "2010-06-15" 90 0
       (Some "2030-09-13") = Ok r /\
     expiry r = "2030-09-13" /\
     reason r = "20 years from filing + 90 days PTA").
Proof.
  split.
  - destruct (terminal_disclaimer_rule (mkdatetime 2026 11 4 9 30 0 0)
                "2010-06-15" "2029-01-01" 90 0
                (mkdatetime 2010 6 15 0 0 0 0) (mkdatetime 2030 6 15 0 0 0 0)
                (mkdatetime 2030 9 13 0 0 0 0) (mkdatetime 2029 1 1 0 0 0 0)
                eq_refl eq_refl eq_refl eq_refl) as [Hlt _].
    destruct (Hlt eq_refl) as (r & Hr & He & _ & Hrs).
    exists r. split; [exact Hr | split; [exact He | exact Hrs]].
  - destruct (terminal_disclaimer_rule (mkdatetime 2026 11 4 9 30 0 0)
                "2010-06-15" "2030-09-13" 90 0
                (mkdatetime 2010 6 15 0 0 0 0) (mkdatetime 2030 6 15 0 0 0 0)
                (mkdatetime 2030 9 13 0 0 0 0) (mkdatetime 2030 9 13 0 0 0 0)
                eq_refl eq_refl eq_refl eq_refl) as [_ Hge].
    destruct (Hge eq_refl) as (r & Hr & _ & He & Hrs).
    exists r. split; [exact Hr | split; [exact He | exact Hrs]].
Defined.

(** ** The reason string *)

(** C5. Without a terminal disclaimer the reason returned by
    [calculate_expiry] is "20 years from filing", followed by
    " + {pta_days} days PTA" exactly when [pta_days] is not zero, followed
    by " + {pte_days} days PTE" exactly when [pte_days] is not zero; the PTA
    clause comes first whatever the two numbers are.  With a terminal
    disclaimer the reason is either this string or the terminal disclaimer
    sentence. *)
Theorem reason_without_override (now : datetime) (filing_str : string)
    (pta pte : Z) (td : option string) (r : ExpirationResult) :
  calculate_expiry now filing_str pta pte td = Ok r ->
  (td = None -> reason r = utility_reason pta pte) /\
  (reason r = utility_reason pta pte \/
   reason r = "Terminal Disclaimer (expires with linked patent)") /\
  utility_reason 0 0 = "20 years from filing" /\
  (pta <> 0 -> pte <> 0 ->
   utility_reason pta pte =
   ("20 years from filing" ++ " + " ++ str pta ++ " days PTA"
      ++ " + " ++ str pte ++ " days PTE")%string) /\
  (pta <> 0 -> pte = 0 ->
   utility_reason pta pte =
   ("20 years from filing" ++ " + " ++ str pta ++ " days PTA")%string) /\
  (pta = 0 -> pte <> 0 ->
   utility_reason pta pte =
   ("20 years from filing" ++ " + " ++ str pte ++ " days PTE")%string).
Proof.
  intros Hr. apply calculate_expiry_inv in Hr.
  destruct Hr as (f & b & a & final & rsn & Hf & Hb & Ha & Htd & ->).
  cbn [reason expiry_dict].
  repeat split.
  - intros ->. apply td_step_none in Htd. tauto.
  - inversion Htd; subst; auto.
  - unfold utility_reason, pta_clause, pte_clause. intros Hpta Hpte.
    apply Z.eqb_neq in Hpta, Hpte. rewrite Hpta, Hpte.
    rewrite ?append_assoc. reflexivity.
  - unfold utility_reason, pta_clause, pte_clause. intros Hpta ->.
    apply Z.eqb_neq in Hpta. rewrite Hpta. cbn [Z.eqb].
    rewrite ?append_nil_r, ?append_assoc. reflexivity.
  - unfold utility_reason, pta_clause, pte_clause. intros -> Hpte.
    apply Z.eqb_neq in Hpte. rewrite Hpte. cbn [Z.eqb].
    reflexivity.
Qed.

Lemma reason_without_override_witness :
  exists r,
    calculate_expiry (mkdatetime 2026 11 4 9 30 0 0) "2010-06-15" 90 (-5) None = Ok r /\
    reason r = "20 years from filing + 90 days PTA + -5 days PTE".
Proof.
  pose proof (reason_without_override (mkdatetime 2026 11 4 9 30 0 0) "2010-06-15"
                90 (-5) None
                (expiry_dict (mkdatetime 2026 11 4 9 30 0 0) (mkdatetime 2030 6 15 0 0 0 0)
                   (mkdatetime 2030 9 8 0 0 0 0)
                   "20 years from filing + 90 days PTA + -5 days PTE" 90 (-5))
                eq_refl) as [H _].
  exists (expiry_dict (mkdatetime 2026 11 4 9 30 0 0) (mkdatetime 2030 6 15 0 0 0 0)
            (mkdatetime 2030 9 8 0 0 0 0)
            "20 years from filing + 90 days PTA + -5 days PTE" 90 (-5)).
  split; [reflexivity | exact (H eq_refl)].
Defined.

(** ** Design patents *)

Lemma ge_design_cutoff (f : datetime) :
  hour f = 0 -> minute f = 0 -> second f = 0 -> microsecond f = 0 ->
  ge f design_cutoff = on_or_after_2015_05_13 f.
Proof.
  destruct f as [y m d h mi s u]. cbn. intros -> -> -> ->.
  unfold ge, cmp, on_or_after_2015_05_13. cbn.
  destruct (Z.compare_spec y 2015), (Z.compare_spec m 5), (Z.compare_spec d 13);
    subst; cbn; lia.
Qed.

Lemma calculate_design_patent_expiry_eq (now : datetime)
    (grant_date_str filing_date_str : string) (g f : datetime) :
  strptime grant_date_str = Ok g ->
  strptime filing_date_str = Ok f ->
  calculate_design_patent_expiry now grant_date_str filing_date_str =
  baseline <- add_relativedelta_years g (if on_or_after_2015_05_13 f then 15 else 14) ;;
  Ok (design_dict now baseline (if on_or_after_2015_05_13 f then 15 else 14)).
Proof.
  intros Hg Hf. unfold calculate_design_patent_expiry.
  rewrite Hg, Hf. cbn [bind].
  change (strptime "2015-05-13") with (Ok design_cutoff). cbn [bind].
  destruct (strptime_inv _ _ Hf) as (_ & Hh & Hmi & Hs & Hu).
  rewrite ge_design_cutoff by assumption. reflexivity.
Qed.

Lemma calculate_design_patent_expiry_returns (now : datetime)
    (grant_date_str filing_date_str : string) (g f : datetime) :
  strptime grant_date_str = Ok g ->
  strptime filing_date_str = Ok f ->
  year g + (if on_or_after_2015_05_13 f then 15 else 14) <= MAXYEAR ->
  exists r, calculate_design_patent_expiry now grant_date_str filing_date_str = Ok r.
Proof.
  intros Hg Hf Hmax.
  rewrite (calculate_design_patent_expiry_eq now _ _ _ _ Hg Hf).
  destruct (strptime_inv _ _ Hg) as (Hv & _).
  pose proof Hv as Hv'. apply date_fields_ok_iff in Hv'. destruct Hv' as (Hy & Hm & Hd).
  rewrite (add_relativedelta_years_spec g _ Hv).
  replace ((MINYEAR <=? year g + (if on_or_after_2015_05_13 f then 15 else 14)) &&
           (year g + (if on_or_after_2015_05_13 f then 15 else 14) <=? MAXYEAR)) with true
    by (symmetry; unfold MINYEAR, MAXYEAR in *; apply andb_true_intro; split;
        apply Z.leb_le; destruct (on_or_after_2015_05_13 f); lia).
  cbn [bind]. eexists. reflexivity.
Qed.

(** C4. [calculate_design_patent_expiry] adds fifteen years to the grant
    date when the filing date is 2015-05-13 or later and fourteen years
    otherwise; the choice reads the filing date only.  The result carries
    [pta_days = 0] and [pte_days = 0].  The call returns whenever the term
    ends within [datetime]'s years. *)
Theorem design_term_rule (now : datetime) (grant_date_str filing_date_str : string)
    (g f : datetime) :
  strptime grant_date_str = Ok g ->
  strptime filing_date_str = Ok f ->
  let years := if on_or_after_2015_05_13 f then 15 else 14 in
  (year g + years <= MAXYEAR ->
   exists r, calculate_design_patent_expiry now grant_date_str filing_date_str = Ok r) /\
  (forall r,
     calculate_design_patent_expiry now grant_date_str filing_date_str = Ok r ->
     baseline_expiry r = strftime (years_after g years) /\
     expiry r = strftime (years_after g years) /\
     calculated_expiry r = strftime (years_after g years) /\
     reason r = (str years ++ " years from grant date")%string /\
     pta_days r = 0 /\ pte_days r = 0).
Proof.
  intros Hg Hf years. split.
  - intros Hmax. eapply calculate_design_patent_expiry_returns; eassumption.
  - intros r Hr.
    rewrite (calculate_design_patent_expiry_eq now _ _ _ _ Hg Hf) in Hr.
    fold years in Hr.
    destruct (strptime_inv _ _ Hg) as (Hv & _).
    rewrite (add_relativedelta_years_spec g years Hv) in Hr.
    destruct ((MINYEAR <=? year g + years) && (year g + years <=? MAXYEAR));
      [ | discriminate].
    cbn [bind] in Hr. injection Hr as <-. cbn. auto 10.
Qed.

Lemma design_term_rule_witness :
  (exists r,
     calculate_design_patent_expiry (mkdatetime 2026 11 4 9 30 0 0)
       "2016-02-29" "2015-05-13" = Ok r /\
     expiry r = "2031-02-28" /\ reason r = "15 years from grant date") /\
  (exists r,
     calculate_design_patent_expiry (mkdatetime 2026 11 4 9 30 0 0)
       "2016-02-29" "2015-05-12" = Ok r /\
     expiry r = "2030-02-28" /\ reason r = "14 years from grant date").
Proof.
  split.
  - destruct (design_term_rule (mkdatetime 2026 11 4 9 30 0 0) "2016-02-29" "2015-05-13"
                (mkdatetime 2016 2 29 0 0 0 0) (mkdatetime 2015 5 13 0 0 0 0)
                eq_refl eq_refl) as [_ Hall].
    destruct (Hall (design_dict (mkdatetime 2026 11 4 9 30 0 0)
                      (mkdatetime 2031 2 28 0 0 0 0) 15) eq_refl) as (_ & He & _ & Hr & _).
    exists (design_dict (mkdatetime 2026 11 4 9 30 0 0) (mkdatetime 2031 2 28 0 0 0 0) 15).
    split; [reflexivity | split; [exact He | exact Hr]].
  - destruct (design_term_rule (mkdatetime 2026 11 4 9 30 0 0) "2016-02-29" "2015-05-12"
                (mkdatetime 2016 2 29 0 0 0 0) (mkdatetime 2015 5 12 0 0 0 0)
                eq_refl eq_refl) as [_ Hall].
    destruct (Hall (design_dict (mkdatetime 2026 11 4 9 30 0 0)
                      (mkdatetime 2030 2 28 0 0 0 0) 14) eq_refl) as (_ & He & _ & Hr & _).
    exists (design_dict (mkdatetime 2026 11 4 9 30 0 0) (mkdatetime 2030 2 28 0 0 0 0) 14).
    split; [reflexivity | split; [exact He | exact Hr]].
Defined.

(** ** The [is_active] flag *)

(** The final date of [calculate_expiry] is a date of the type, at
    midnight, and [calculated_expiry] is the text written for it. *)
Lemma calculate_expiry_final (now : datetime) (filing_str : string) (pta pte : Z)
    (td : option string) (r : ExpirationResult) :
  calculate_expiry now filing_str pta pte td = Ok r ->
  exists final,
    written (calculated_expiry r) final /\
    expiry r = calculated_expiry r /\
    is_active r = lt now final.
Proof.
  intros Hr. apply calculate_expiry_inv in Hr.
  destruct Hr as (f & b & a & final & rsn & Hf & Hb & Ha & Htd & ->).
  exists final. cbn [calculated_expiry expiry is_active expiry_dict].
  split; [ | split; reflexivity].
  apply written_strftime.
  pose proof (strptime_good _ _ Hf) as Gf.
  assert (Hm : 1 <= month f <= 12).
  { destruct Gf as [Hv _]. apply date_fields_ok_iff in Hv. tauto. }
  destruct (add_relativedelta_years_valid _ _ _ Hm Hb) as (Hvb & B1 & B2 & B3 & B4).
  assert (Gb : good b) by (eapply same_time_good; eassumption).
  destruct (add_days_inv _ _ _ Ha) as (Hva & A1 & A2 & A3 & A4).
  assert (Ga : good a) by (eapply same_time_good; eassumption).
  inversion Htd; subst; try exact Ga. eapply strptime_good; eassumption.
Qed.

Lemma calculate_design_patent_expiry_final (now : datetime)
    (grant_date_str filing_date_str : string) (r : ExpirationResult) :
  calculate_design_patent_expiry now grant_date_str filing_date_str = Ok r ->
  exists final,
    written (calculated_expiry r) final /\
    expiry r = calculated_expiry r /\
    is_active r = lt now final.
Proof.
  intros Hr.
  destruct (strptime grant_date_str) as [g | e] eqn:Hg;
    [ | unfold calculate_design_patent_expiry in Hr; rewrite Hg in Hr; discriminate].
  destruct (strptime filing_date_str) as [f | e] eqn:Hf;
    [ | unfold calculate_design_patent_expiry in Hr; rewrite Hg, Hf in Hr; discriminate].
  rewrite (calculate_design_patent_expiry_eq now _ _ _ _ Hg Hf) in Hr.
  destruct (add_relativedelta_years g _) as [b | e] eqn:Hb; [ | discriminate].
  cbn [bind] in Hr. injection Hr as <-.
  exists b. cbn [calculated_expiry expiry is_active design_dict].
  split; [ | split; reflexivity].
  apply written_strftime.
  pose proof (strptime_good _ _ Hg) as Gg.
  assert (Hm : 1 <= month g <= 12).
  { destruct Gg as [Hv _]. apply date_fields_ok_iff in Hv. tauto. }
  destruct (add_relativedelta_years_valid _ _ _ Hm Hb) as (Hvb & B1 & B2 & B3 & B4).
  eapply same_time_good; eassumption.
Qed.



(** ** The clock *)

(** C9. The result of a calculator is a function of its arguments and of
    the instant read from the clock.  Two calls with the same arguments
    either raise the same exception or return results that agree in every
    field except possibly [is_active] (and in that field too when the
    instants are the same); a call made later never reports an expired
    patent as active again.  [calculate_maintenance_fees] does not read the
    clock at all. *)
Theorem clock_only_moves_is_active (now1 now2 : datetime)
    (filing_str grant_date_str filing_date_str : string) (pta pte : Z)
    (td : option string) :
  match calculate_expiry now1 filing_str pta pte td,
        calculate_expiry now2 filing_str pta pte td with
  | Ok r1, Ok r2 =>
      same_but_is_active r1 r2 /\ (now1 = now2 -> r1 = r2) /\
      (lt now1 now2 = true -> is_active r2 = true -> is_active r1 = true)
  | Raise e1, Raise e2 => e1 = e2
  | _, _ => False
  end /\
  match calculate_design_patent_expiry now1 grant_date_str filing_date_str,
        calculate_design_patent_expiry now2 grant_date_str filing_date_str with
  | Ok r1, Ok r2 =>
      same_but_is_active r1 r2 /\ (now1 = now2 -> r1 = r2) /\
      (lt now1 now2 = true -> is_active r2 = true -> is_active r1 = true)
  | Raise e1, Raise e2 => e1 = e2
  | _, _ => False
  end.
Proof.
  split.
  - unfold calculate_expiry.
    destruct (strptime filing_str) as [f | e]; cbn [bind]; [ | reflexivity].
    destruct (add_relativedelta_years f 20) as [b | e]; cbn [bind]; [ | reflexivity].
    destruct (add_days b (or0 pta + or0 pte)) as [a | e]; cbn [bind]; [ | reflexivity].
    match goal with
    | |- context [bind ?m _] => destruct m as [[final rsn] | e]
    end; cbn [bind]; [ | reflexivity].
    unfold same_but_is_active. cbn.
    repeat split; try congruence. intros H1 H2. eapply lt_trans; eassumption.
  - unfold calculate_design_patent_expiry.
    destruct (strptime grant_date_str) as [g | e]; cbn [bind]; [ | reflexivity].
    destruct (strptime filing_date_str) as [f | e]; cbn [bind]; [ | reflexivity].
    destruct (strptime "2015-05-13") as [c | e]; cbn [bind]; [ | reflexivity].
    destruct (add_relativedelta_years g _) as [b | e]; cbn [bind]; [ | reflexivity].
    unfold same_but_is_active. cbn.
    repeat split; try congruence. intros H1 H2. eapply lt_trans; eassumption.
Qed.

(** ** Maintenance fees *)

Lemma add_years_months_ok (d : datetime) (years months : Z) :
  date_fields_ok (year d) (month d) (day d) = true ->
  MINYEAR <= year (addCalendarMonths d years months) <= MAXYEAR ->
  add_years_months d years months = Ok (addCalendarMonths d years months).
Proof.
  intros Hv Hr. rewrite add_years_months_spec by assumption.
  replace ((MINYEAR <=? year (addCalendarMonths d years months)) &&
           (year (addCalendarMonths d years months) <=? MAXYEAR)) with true
    by (symmetry; apply andb_true_intro; split; apply Z.leb_le; lia).
  reflexivity.
Qed.

Lemma add_years_months_inv (d d' : datetime) (years months : Z) :
  date_fields_ok (year d) (month d) (day d) = true ->
  add_years_months d years months = Ok d' ->
  d' = addCalendarMonths d years months /\
  date_fields_ok (year d') (month d') (day d') = true.
Proof.
  intros Hv H. pose proof (add_years_months_valid _ _ _ _ H) as Hv'.
  rewrite add_years_months_spec in H by assumption.
  destruct (_ && _); [ | discriminate]. injection H as <-. auto.
Qed.

Lemma addCalendarMonths_fields (d : datetime) (years months : Z) :
  1 <= month d <= 12 ->
  year (addCalendarMonths d years months) = year d + years + (month d + months - 1) / 12 /\
  month (addCalendarMonths d years months) = (month d + months - 1) mod 12 + 1.
Proof.
  intros Hm. unfold addCalendarMonths. cbn [year month].
  split; Z.div_mod_to_equations; lia.
Qed.

Lemma fee_schedule_inv (due : datetime) (w : FeeWindow) :
  date_fields_ok (year due) (month due) (day due) = true ->
  fee_schedule due = Ok w -> w = fee_window due.
Proof.
  intros Hv. unfold fee_schedule.
  destruct (add_years_months due 0 (-6)) as [ws | e] eqn:Hws; [ | discriminate].
  destruct (add_years_months due 0 6) as [se | e] eqn:Hse; [ | discriminate].
  cbn [bind]. intros H. injection H as <-.
  apply add_years_months_inv in Hws; [ | assumption].
  apply add_years_months_inv in Hse; [ | assumption].
  destruct Hws as [-> _]. destruct Hse as [-> _]. reflexivity.
Qed.

Lemma fee_schedule_ok (due : datetime) :
  date_fields_ok (year due) (month due) (day due) = true ->
  2 <= year due ->
  year due + (month due + 5) / 12 <= MAXYEAR ->
  fee_schedule due = Ok (fee_window due).
Proof.
  intros Hv Hlo Hhi. pose proof Hv as Hv'.
  apply date_fields_ok_iff in Hv'. destruct Hv' as (Hy & Hm & Hd).
  destruct (addCalendarMonths_fields due 0 (-6) Hm) as [Hy1 _].
  destruct (addCalendarMonths_fields due 0 6 Hm) as [Hy2 _].
  unfold fee_schedule.
  rewrite (add_years_months_ok due 0 (-6)); [ | assumption | ].
  - rewrite (add_years_months_ok due 0 6); [ reflexivity | assumption | ].
    rewrite Hy2. unfold MINYEAR, MAXYEAR in *. Z.div_mod_to_equations. lia.
  - rewrite Hy1. unfold MINYEAR, MAXYEAR in *. Z.div_mod_to_equations. lia.
Qed.

(** The due date [k] years and 6 months after a grant, and the year in
    which its surcharge period ends. *)
Lemma due_date_years (g : datetime) (k : Z) :
  1 <= month g <= 12 ->
  year g + k <= year (addCalendarMonths g k 6) /\
  year (addCalendarMonths g k 6) + (month (addCalendarMonths g k 6) + 5) / 12
    = year g + k + 1.
Proof.
  intros Hm. destruct (addCalendarMonths_fields g k 6 Hm) as [-> ->].
  split; Z.div_mod_to_equations; lia.
Qed.

Lemma calculate_maintenance_fees_returns (grant_date_str : string) (g : datetime) :
  strptime grant_date_str = Ok g ->
  year g + 12 <= MAXYEAR ->
  exists r, calculate_maintenance_fees grant_date_str = Ok r.
Proof.
  intros Hg Hmax. destruct (strptime_inv _ _ Hg) as (Hv & _).
  pose proof Hv as Hv'. apply date_fields_ok_iff in Hv'. destruct Hv' as (Hy & Hm & Hd).
  unfold calculate_maintenance_fees. rewrite Hg. cbn [bind].
  destruct (due_date_years g 3 Hm) as [L3 S3].
  destruct (due_date_years g 7 Hm) as [L7 S7].
  destruct (due_date_years g 11 Hm) as [L11 S11].
  assert (Hq : forall k, 0 <= (month (addCalendarMonths g k 6) + 5) / 12).
  { intros k. destruct (addCalendarMonths_fields g k 6 Hm) as [_ ->].
    Z.div_mod_to_equations. lia. }
  pose proof (Hq 3) as Q3. pose proof (Hq 7) as Q7. pose proof (Hq 11) as Q11.
  unfold MAXYEAR in Hmax.
  assert (E3 : add_years_months g 3 6 = Ok (addCalendarMonths g 3 6))
    by (apply add_years_months_ok; [assumption | unfold MINYEAR, MAXYEAR; lia]).
  assert (E7 : add_years_months g 7 6 = Ok (addCalendarMonths g 7 6))
    by (apply add_years_months_ok; [assumption | unfold MINYEAR, MAXYEAR; lia]).
  assert (E11 : add_years_months g 11 6 = Ok (addCalendarMonths g 11 6))
    by (apply add_years_months_ok; [assumption | unfold MINYEAR, MAXYEAR; lia]).
  rewrite E3, E7, E11. cbn [bind].
  apply add_years_months_valid in E3, E7, E11.
  rewrite (fee_schedule_ok _ E3) by (unfold MAXYEAR; lia).
  rewrite (fee_schedule_ok _ E7) by (unfold MAXYEAR; lia).
  rewrite (fee_schedule_ok _ E11) by (unfold MAXYEAR; lia).
  cbn [bind]. eexists. reflexivity.
Qed.

(** C3. [calculate_maintenance_fees] returns three fee windows.  Their due
    dates are the grant date plus 3 years 6 months, 7 years 6 months and
    11 years 6 months; each window starts 6 calendar months before its due
    date (a month below 1 borrows a year), ends on the due date, and its
    surcharge period ends 6 calendar months after the due date.  Every
    addition is [addCalendarMonths]: the day is cut to the last day of the
    target month.  The call returns whenever the grant year is at most
    9987, the last one whose final surcharge date is a date of [datetime]. *)
Theorem maintenance_fee_windows (grant_date_str : string) (g : datetime) :
  strptime grant_date_str = Ok g ->
  (year g + 12 <= MAXYEAR ->
   exists r, calculate_maintenance_fees grant_date_str = Ok r) /\
  (forall r, calculate_maintenance_fees grant_date_str = Ok r ->
     year_3_5 r = fee_window (addCalendarMonths g 3 6) /\
     year_7_5 r = fee_window (addCalendarMonths g 7 6) /\
     year_11_5 r = fee_window (addCalendarMonths g 11 6)).
Proof.
  intros Hg. split.
  - intros Hmax. eapply calculate_maintenance_fees_returns; eassumption.
  - destruct (strptime_inv _ _ Hg) as (Hv & _).
    unfold calculate_maintenance_fees. rewrite Hg. cbn [bind].
    intros r.
    destruct (add_years_months g 3 6) as [d3 | e] eqn:E3; [ | discriminate].
    destruct (add_years_months g 7 6) as [d7 | e] eqn:E7; [ | discriminate].
    destruct (add_years_months g 11 6) as [d11 | e] eqn:E11; [ | discriminate].
    cbn [bind].
    apply add_years_months_inv in E3; [ | assumption].
    apply add_years_months_inv in E7; [ | assumption].
    apply add_years_months_inv in E11; [ | assumption].
    destruct E3 as [-> V3]. destruct E7 as [-> V7]. destruct E11 as [-> V11].
    destruct (fee_schedule (addCalendarMonths g 3 6)) as [w3 | e] eqn:F3; [ | discriminate].
    destruct (fee_schedule (addCalendarMonths g 7 6)) as [w7 | e] eqn:F7; [ | discriminate].
    destruct (fee_schedule (addCalendarMonths g 11 6)) as [w11 | e] eqn:F11; [ | discriminate].
    cbn [bind]. intros H. injection H as <-. cbn.
    apply fee_schedule_inv in F3; [ | assumption].
    apply fee_schedule_inv in F7; [ | assumption].
    apply fee_schedule_inv in F11; [ | assumption].
    subst. auto.
Qed.

Lemma maintenance_fee_windows_witness :
  (exists r, calculate_maintenance_fees "2020-01-31" = Ok r) /\
  (forall r,
     calculate_maintenance_fees "2020-01-31" = Ok r ->
     due_date (year_3_5 r) = "2023-07-31" /\
     window_start (year_3_5 r) = "2023-01-31" /\
     window_end (year_3_5 r) = "2023-07-31" /\
     surcharge_end (year_3_5 r) = "2024-01-31" /\
     due_date (year_7_5 r) = "2027-07-31" /\
     due_date (year_11_5 r) = "2031-07-31").
Proof.
  destruct (maintenance_fee_windows "2020-01-31" (mkdatetime 2020 1 31 0 0 0 0) eq_refl)
    as [Hex Hall].
  split.
  - apply Hex. unfold MAXYEAR. cbn. lia.
  - intros r Hr. destruct (Hall r Hr) as (H3 & H7 & H11).
    rewrite H3, H7, H11. repeat split; reflexivity.
Defined.

(** ** One clamping rule *)

(** C7. On every date of the type, [add_years_months(d, y, 0)] and
    [d + relativedelta(years=y)] have the same outcome: the same date, or
    the same [ValueError] when the target year is outside 1..9999.  The
    calculators therefore share one clamping rule.  (The equation holds for
    a negative [y] as well.) *)
Theorem add_years_months_is_relativedelta (d : datetime) (y : Z) :
  valid d = true -> 0 <= y ->
  add_years_months d y 0 = add_relativedelta_years d y.
Proof.
  intros Hv _. unfold valid in Hv. apply andb_true_iff in Hv. destruct Hv as [Hv _].
  apply date_fields_ok_iff in Hv. destruct Hv as (Hy & Hm & Hd).
  rewrite add_relativedelta_years_eq by assumption.
  unfold add_years_months. cbv zeta.
  replace ((month d + 0 - 1) / 12) with 0 by (Z.div_mod_to_equations; lia).
  replace ((month d + 0 - 1) mod 12 + 1) with (month d) by (Z.div_mod_to_equations; lia).
  rewrite Z.add_0_r.
  rewrite monthrange_ndays_ok by assumption. cbn [bind].
  rewrite Z.min_comm. reflexivity.
Qed.

Lemma add_years_months_is_relativedelta_witness :
  add_years_months (mkdatetime 2004 2 29 0 0 0 0) 15 0 = Ok (mkdatetime 2019 2 28 0 0 0 0) /\
  add_relativedelta_years (mkdatetime 2004 2 29 0 0 0 0) 15 = Ok (mkdatetime 2019 2 28 0 0 0 0).
Proof.
  split; [reflexivity | ].
  rewrite <- (add_years_months_is_relativedelta (mkdatetime 2004 2 29 0 0 0 0) 15
                eq_refl ltac:(discriminate)).
  reflexivity.
Defined.

(** ** Clamped month addition does not round-trip *)

(** A due date that was cut to a shorter month comes back from six months
    earlier unchanged: the window start falls in the month of the grant,
    which is long enough to keep the day. *)
Lemma clamped_due_round_trips (g due : datetime) (k : Z) :
  date_fields_ok (year g) (month g) (day g) = true ->
  add_years_months g k 6 = Ok due ->
  day due < day g ->
  2 <= year due ->
  back_and_forth due = Ok due.
Proof.
  destruct g as [y m d h mi s u]. cbn [year month day].
  intros Hv Hdue Hlt Hlo.
  apply date_fields_ok_iff in Hv. destruct Hv as (Hy & Hm & Hd).
  unfold days_in_month in Hd.
  revert Hdue.
  each_month m;
  unfold add_years_months, monthrange_ndays; cbv zeta;
  cbn [year month day hour minute second microsecond];
  repeat (first [progress fold_consts | lit_step]);
  cbn [andb bind]; rewrite ?Z.add_0_r;
  intros Hdue; apply replace_inv in Hdue; destruct Hdue as [Hvdue ->];
  cbn [year month day DAYS_IN_MONTH andb Z.eqb Pos.eqb] in *;
  apply date_fields_ok_iff in Hvdue; destruct Hvdue as (Hyd & _ & Hdd);
  try (exfalso;
       repeat match goal with
              | H : context [isleap ?x] |- _ => destruct (isleap x)
              end; lia);
  unfold back_and_forth; run_add_years_months; run_add_years_months;
  cbn [year month day hour minute second microsecond];
  repeat match goal with
         | |- context [?a + -1 + 1] => replace (a + -1 + 1) with a by lia
         end;
  do 2 f_equal;
  repeat match goal with |- context [isleap ?x] => destruct (isleap x) end; lia.
Qed.

(** C10, as stated, at a day-31 grant whose milestones land in February:
    the grant of 2020-08-31 has its 11.5-year due date cut to 2032-02-29,
    and six months back and forth from there returns the due date; the same
    holds for the 3.5-year and 7.5-year due dates, and for the grant of
    2021-08-31, whose due dates are cut to 28 February. *)
Lemma day31_grant_round_trips :
  add_years_months (mkdatetime 2020 8 31 0 0 0 0) 11 6 = Ok (mkdatetime 2032 2 29 0 0 0 0) /\
  back_and_forth (mkdatetime 2032 2 29 0 0 0 0) = Ok (mkdatetime 2032 2 29 0 0 0 0) /\
  add_years_months (mkdatetime 2020 8 31 0 0 0 0) 3 6 = Ok (mkdatetime 2024 2 29 0 0 0 0) /\
  back_and_forth (mkdatetime 2024 2 29 0 0 0 0) = Ok (mkdatetime 2024 2 29 0 0 0 0) /\
  add_years_months (mkdatetime 2020 8 31 0 0 0 0) 7 6 = Ok (mkdatetime 2028 2 29 0 0 0 0) /\
  back_and_forth (mkdatetime 2028 2 29 0 0 0 0) = Ok (mkdatetime 2028 2 29 0 0 0 0) /\
  add_years_months (mkdatetime 2021 8 31 0 0 0 0) 11 6 = Ok (mkdatetime 2033 2 28 0 0 0 0) /\
  back_and_forth (mkdatetime 2033 2 28 0 0 0 0) = Ok (mkdatetime 2033 2 28 0 0 0 0).
Proof.
  repeat split; reflexivity.
Qed.

(** C10, amended.  Clamped month addition does not round-trip: for the
    grant of 2020-02-29 every due date falls on 29 August of a common year,
    its window start is cut to 28 February, and six months forth from there
    is 28 August, not the due date.  A window start can have a smaller day
    than the grant: for the grant of 2020-08-31 the 11.5-year window starts
    on 2031-08-29, while the grant shifted by 11 years is 2031-08-31; the
    window start is computed from the clamped due date.  A due date that
    was itself cut to a shorter month always comes back unchanged. *)
Theorem month_addition_does_not_round_trip :
  (exists g due back,
     strptime "2020-02-29" = Ok g /\
     add_years_months g 11 6 = Ok due /\
     back_and_forth due = Ok back /\ back <> due) /\
  (exists g due ws shifted r,
     strptime "2020-08-31" = Ok g /\
     add_years_months g 11 6 = Ok due /\
     add_years_months due 0 (-6) = Ok ws /\
     day ws < day g /\
     add_years_months g 11 0 = Ok shifted /\ ws <> shifted /\
     calculate_maintenance_fees "2020-08-31" = Ok r /\
     due_date (year_11_5 r) = "2032-02-29" /\
     window_start (year_11_5 r) = "2031-08-29") /\
  (forall g due k,
     valid g = true ->
     add_years_months g k 6 = Ok due ->
     day due < day g -> 2 <= year due ->
     back_and_forth due = Ok due).
Proof.
  split; [ | split].
  - exists (mkdatetime 2020 2 29 0 0 0 0), (mkdatetime 2031 8 29 0 0 0 0),
           (mkdatetime 2031 8 28 0 0 0 0).
    repeat split; try reflexivity. discriminate.
  - exists (mkdatetime 2020 8 31 0 0 0 0), (mkdatetime 2032 2 29 0 0 0 0),
           (mkdatetime 2031 8 29 0 0 0 0), (mkdatetime 2031 8 31 0 0 0 0),
           {| year_3_5 := fee_window (mkdatetime 2024 2 29 0 0 0 0);
              year_7_5 := fee_window (mkdatetime 2028 2 29 0 0 0 0);
              year_11_5 := fee_window (mkdatetime 2032 2 29 0 0 0 0) |}.
    repeat split; try reflexivity. discriminate.
  - intros g due k Hv. unfold valid in Hv. apply andb_true_iff in Hv.
    destruct Hv as [Hv _]. apply clamped_due_round_trips. exact Hv.
Qed.

Lemma month_addition_does_not_round_trip_witness :
  back_and_forth (mkdatetime 2023 9 30 0 0 0 0) = Ok (mkdatetime 2023 9 30 0 0 0 0).
Proof.
  exact (proj2 (proj2 month_addition_does_not_round_trip)
           (mkdatetime 2020 3 31 0 0 0 0) (mkdatetime 2023 9 30 0 0 0 0) 3
           eq_refl eq_refl eq_refl ltac:(discriminate)).
Defined.

(** ** Failures *)

Lemma calculate_expiry_parse_error (now : datetime) (filing_str : string)
    (pta pte : Z) (td : option string) (e : exn) :
  strptime filing_str = Raise e ->
  calculate_expiry now filing_str pta pte td = Raise e.
Proof.
  intros H. unfold calculate_expiry. rewrite H. reflexivity.
Qed.

Lemma calculate_expiry_td_parse_error (now : datetime) (filing_str td_str : string)
    (pta pte : Z) (f baseline adjusted : datetime) (e : exn) :
  strptime filing_str = Ok f ->
  add_relativedelta_years f 20 = Ok baseline ->
  add_days baseline (pta + pte) = Ok adjusted ->
  nonempty td_str = true ->
  strptime td_str = Raise e ->
  calculate_expiry now filing_str pta pte (Some td_str) = Raise e.
Proof.
  intros Hf Hb Ha Hne Htd. unfold calculate_expiry. rewrite !or0_id.
  rewrite Hf. cbn [bind]. rewrite Hb. cbn [bind]. rewrite Ha. cbn [bind].
  rewrite Hne, Htd. reflexivity.
Qed.

Lemma calculate_expiry_year_overflow (now : datetime) (filing_str : string)
    (pta pte : Z) (td : option string) (f : datetime) :
  strptime filing_str = Ok f ->
  MAXYEAR < year f + 20 ->
  calculate_expiry now filing_str pta pte td = Raise (ValueError OutOfRange).
Proof.
  intros Hf Hmax. destruct (strptime_inv _ _ Hf) as (Hv & _).
  unfold calculate_expiry. rewrite Hf. cbn [bind].
  rewrite (add_relativedelta_years_spec f 20 Hv).
  replace (year f + 20 <=? MAXYEAR) with false by (symmetry; apply Z.leb_gt; lia).
  rewrite andb_false_r. reflexivity.
Qed.

(** C8, as stated, at dates that parse: the filing date 9980-01-01 is a
    date of the type, yet [calculate_expiry] raises because its twentieth
    anniversary is not; the same happens to the other two calculators at
    9990-01-01, and to [calculate_expiry] when the adjustment is more days
    than a [timedelta] holds.  An empty terminal disclaimer string is no
    date and raises nothing, and [strptime] reads a month and a day written
    with one digit. *)
Lemma parsed_dates_can_still_raise :
  strptime "9980-01-01" = Ok (mkdatetime 9980 1 1 0 0 0 0) /\
  calculate_expiry (mkdatetime 2026 11 4 9 30 0 0) "9980-01-01" 0 0 None
    = Raise (ValueError OutOfRange) /\
  strptime "9990-01-01" = Ok (mkdatetime 9990 1 1 0 0 0 0) /\
  calculate_design_patent_expiry (mkdatetime 2026 11 4 9 30 0 0) "9990-01-01" "9990-01-01"
    = Raise (ValueError OutOfRange) /\
  calculate_maintenance_fees "9990-01-01" = Raise (ValueError OutOfRange) /\
  calculate_expiry (mkdatetime 2026 11 4 9 30 0 0) "2010-06-15" 1000000000 0 None
    = Raise OverflowError /\
  strptime "" = Raise (ValueError NoMatch) /\
  calculate_expiry (mkdatetime 2026 11 4 9 30 0 0) "2010-06-15" 0 0 (Some "")
    = Ok (expiry_dict (mkdatetime 2026 11 4 9 30 0 0) (mkdatetime 2030 6 15 0 0 0 0)
            (mkdatetime 2030 6 15 0 0 0 0) "20 years from filing" 0 0) /\
  calculate_expiry (mkdatetime 2026 11 4 9 30 0 0) "2010-6-5" 0 0 None
    = Ok (expiry_dict (mkdatetime 2026 11 4 9 30 0 0) (mkdatetime 2030 6 5 0 0 0 0)
            (mkdatetime 2030 6 5 0 0 0 0) "20 years from filing" 0 0).
Proof.
  repeat split; reflexivity.
Qed.

(** C8, amended.  A calculator raises [strptime]'s [ValueError] whenever a
    required date string does not parse under "%Y-%m-%d", and so does
    [calculate_expiry] for a non-empty terminal disclaimer string that does
    not parse once the adjusted date has been computed; an empty terminal
    disclaimer string counts as absent.  A calculator returns a result
    whenever its date strings parse and the dates it computes are dates of
    [datetime] (years up to 9999): filing year at most 9979 with an
    adjustment the type can hold, grant year plus the design term at most
    9999, grant year at most 9987 for the fee schedule.  A filing date
    after year 9979 parses and raises a range [ValueError] instead.
    [strptime] accepts a month and a day written with one digit. *)
Theorem calculators_raise_or_return :
  (forall now filing_str pta pte td e,
     strptime filing_str = Raise e ->
     e = ValueError NoMatch /\
     calculate_expiry now filing_str pta pte td = Raise e) /\
  (forall now filing_str td_str pta pte f baseline adjusted e,
     strptime filing_str = Ok f ->
     add_relativedelta_years f 20 = Ok baseline ->
     add_days baseline (pta + pte) = Ok adjusted ->
     nonempty td_str = true ->
     strptime td_str = Raise e ->
     calculate_expiry now filing_str pta pte (Some td_str) = Raise e) /\
  (forall now filing_str pta pte,
     calculate_expiry now filing_str pta pte (Some "") =
     calculate_expiry now filing_str pta pte None) /\
  (forall now grant_date_str filing_date_str e,
     strptime grant_date_str = Raise e \/
     (exists g, strptime grant_date_str = Ok g) /\ strptime filing_date_str = Raise e ->
     calculate_design_patent_expiry now grant_date_str filing_date_str = Raise e) /\
  (forall grant_date_str e,
     strptime grant_date_str = Raise e ->
     calculate_maintenance_fees grant_date_str = Raise e) /\
  (forall now filing_str pta pte td f,
     strptime filing_str = Ok f ->
     year f + 20 <= MAXYEAR ->
     -999999999 <= pta + pte <= 999999999 ->
     0 < toordinal (years_after f 20) + (pta + pte) <= MAXORDINAL ->
     td = None \/ td = Some "" \/ (exists s d, td = Some s /\ strptime s = Ok d) ->
     exists r, calculate_expiry now filing_str pta pte td = Ok r) /\
  (forall now filing_str pta pte td f,
     strptime filing_str = Ok f ->
     MAXYEAR < year f + 20 ->
     calculate_expiry now filing_str pta pte td = Raise (ValueError OutOfRange)) /\
  (forall now grant_date_str filing_date_str g f,
     strptime grant_date_str = Ok g ->
     strptime filing_date_str = Ok f ->
     year g + (if on_or_after_2015_05_13 f then 15 else 14) <= MAXYEAR ->
     exists r, calculate_design_patent_expiry now grant_date_str filing_date_str = Ok r) /\
  (forall grant_date_str g,
     strptime grant_date_str = Ok g ->
     year g + 12 <= MAXYEAR ->
     exists r, calculate_maintenance_fees grant_date_str = Ok r) /\
  strptime "2010-6-5" = Ok (mkdatetime 2010 6 5 0 0 0 0).
Proof.
  repeat apply conj; [ | | | | | | | | | reflexivity].
  - intros now filing_str pta pte td e H. split.
    + eapply strptime_raise; eassumption.
    + apply calculate_expiry_parse_error; assumption.
  - intros. eapply calculate_expiry_td_parse_error; eassumption.
  - intros. apply calculate_expiry_empty_td.
  - intros now gs fs e [H | [[g Hg] H]]; unfold calculate_design_patent_expiry.
    + rewrite H. reflexivity.
    + rewrite Hg, H. reflexivity.
  - intros gs e H. unfold calculate_maintenance_fees. rewrite H. reflexivity.
  - intros. eapply calculate_expiry_returns; eassumption.
  - intros. eapply calculate_expiry_year_overflow; eassumption.
  - intros. eapply calculate_design_patent_expiry_returns; eassumption.
  - intros. eapply calculate_maintenance_fees_returns; eassumption.
Qed.

Lemma calculators_raise_or_return_witness :
  calculate_expiry (mkdatetime 2026 11 4 9 30 0 0) "2010-02-30" 0 0 None
    = Raise (ValueError NoMatch) /\
  (exists r, calculate_expiry (mkdatetime 2026 11 4 9 30 0 0) "2010-06-15" 90 0
               (Some "2029-01-01") = Ok r) /\
  calculate_expiry (mkdatetime 2026 11 4 9 30 0 0) "9980-01-01" 0 0 None
    = Raise (ValueError OutOfRange).
Proof.
  destruct calculators_raise_or_return
    as (Hparse & _ & _ & _ & _ & Hret & Hover & _ & _ & _).
  split; [ | split].
  - exact (proj2 (Hparse (mkdatetime 2026 11 4 9 30 0 0) "2010-02-30" 0 0 None
                    (ValueError NoMatch) eq_refl)).
  - apply (Hret (mkdatetime 2026 11 4 9 30 0 0) "2010-06-15" 90 0
             (Some "2029-01-01") (mkdatetime 2010 6 15 0 0 0 0) eq_refl).
    + unfold MAXYEAR. cbn. lia.
    + lia.
    + vm_compute. split; [reflexivity | discriminate].
    + right. right. exists "2029-01-01", (mkdatetime 2029 1 1 0 0 0 0).
      split; reflexivity.
  - exact (Hover (mkdatetime 2026 11 4 9 30 0 0) "9980-01-01" 0 0 None
             (mkdatetime 9980 1 1 0 0 0 0) eq_refl eq_refl).
Defined.

Lemma clock_only_moves_is_active_witness :
  calculate_expiry (mkdatetime 2030 6 14 23 59 59 999999) "2010-06-15" 0 0 None
    = Ok (expiry_dict (mkdatetime 2030 6 14 23 59 59 999999) (mkdatetime 2030 6 15 0 0 0 0)
            (mkdatetime 2030 6 15 0 0 0 0) "20 years from filing" 0 0) /\
  calculate_expiry (mkdatetime 2030 6 15 0 0 0 0) "2010-06-15" 0 0 None
    = Ok (expiry_dict (mkdatetime 2030 6 15 0 0 0 0) (mkdatetime 2030 6 15 0 0 0 0)
            (mkdatetime 2030 6 15 0 0 0 0) "20 years from filing" 0 0) /\
  same_but_is_active
    (expiry_dict (mkdatetime 2030 6 14 23 59 59 999999) (mkdatetime 2030 6 15 0 0 0 0)
       (mkdatetime 2030 6 15 0 0 0 0) "20 years from filing" 0 0)
    (expiry_dict (mkdatetime 2030 6 15 0 0 0 0) (mkdatetime 2030 6 15 0 0 0 0)
       (mkdatetime 2030 6 15 0 0 0 0) "20 years from filing" 0 0).
Proof.
  pose proof (clock_only_moves_is_active
                (mkdatetime 2030 6 14 23 59 59 999999) (mkdatetime 2030 6 15 0 0 0 0)
                "2010-06-15" "2016-02-29" "2015-05-13" 0 0 None) as [H _].
  assert (E1 : calculate_expiry (mkdatetime 2030 6 14 23 59 59 999999)
                 "2010-06-15" 0 0 None
               = Ok (expiry_dict (mkdatetime 2030 6 14 23 59 59 999999)
                       (mkdatetime 2030 6 15 0 0 0 0) (mkdatetime 2030 6 15 0 0 0 0)
                       "20 years from filing" 0 0)) by reflexivity.
  assert (E2 : calculate_expiry (mkdatetime 2030 6 15 0 0 0 0) "2010-06-15" 0 0 None
               = Ok (expiry_dict (mkdatetime 2030 6 15 0 0 0 0)
                       (mkdatetime 2030 6 15 0 0 0 0) (mkdatetime 2030 6 15 0 0 0 0)
                       "20 years from filing" 0 0)) by reflexivity.
  rewrite E1, E2 in H.
  split; [exact E1 | split; [exact E2 | exact (proj1 H)]].
Defined.

(** ** The calendar order of the dates the calculators return *)

Lemma yday2md_inv (l : bool) (k : Z) :
  0 <= k <= 364 + b2z l ->
  DAYS_BEFORE_MONTH (fst (yday2md k l)) + b2z ((2 <? fst (yday2md k l)) && l)
    + snd (yday2md k l) - 1 = k.
Proof.
  intros Hk. unfold yday2md.
  rewrite Z.shiftr_div_pow2 by lia. change (2 ^ 5) with 32. cbv zeta.
  remember ((k + 50) / 32) as q eqn:Eq.
  assert (Hq : 32 * q <= k + 50 < 32 * q + 32) by (subst q; Z.div_mod_to_equations; lia).
  clear Eq.
  assert (Hb : b2z l <= 1) by (destruct l; cbn; lia).
  assert (H : q = 1 \/ q = 2 \/ q = 3 \/ q = 4 \/ q = 5 \/ q = 6 \/ q = 7 \/
              q = 8 \/ q = 9 \/ q = 10 \/ q = 11 \/ q = 12) by lia.
  destruct l; repeat (destruct H as [H | H]); subst q;
  match goal with
  | |- context [if ?a <? ?b then _ else _] => destruct (Z.ltb_spec a b)
  end;
  cbn [fst snd]; fold_consts; cbn -[Z.add Z.sub] in *; lia.
Qed.

Lemma days_before_year_split (a b c e : Z) :
  0 <= b <= 3 -> 0 <= c <= 24 -> 0 <= e <= 3 ->
  days_before_year (400 * a + 100 * b + 4 * c + e + 1) =
  146097 * a + 36524 * b + 1461 * c + 365 * e.
Proof.
  intros Hb Hc He. unfold days_before_year. cbv zeta.
  Z.div_mod_to_equations. lia.
Qed.

Lemma ymd2ord_ord2ymd (n : Z) :
  let '(y, m, d) := ord2ymd n in ymd2ord y m d = n.
Proof.
  unfold ord2ymd. cbv zeta.
  remember ((n - 1) / 146097) as a eqn:Ea.
  remember ((n - 1) mod 146097) as R eqn:ER.
  remember (R / 36524) as b eqn:Eb.
  remember (R mod 36524) as R2 eqn:ER2.
  remember (R2 / 1461) as c eqn:Ec.
  remember (R2 mod 1461) as R3 eqn:ER3.
  remember (R3 / 365) as e eqn:Ee.
  remember (R3 mod 365) as k eqn:Ek.
  assert (Hdec : n - 1 = 146097 * a + R /\ 0 <= R < 146097 /\
                 R = 36524 * b + R2 /\ 0 <= R2 < 36524 /\
                 R2 = 1461 * c + R3 /\ 0 <= R3 < 1461 /\
                 R3 = 365 * e + k /\ 0 <= k < 365).
  { subst a R b R2 c R3 e k. repeat split; Z.div_mod_to_equations; lia. }
  clear Ea ER Eb ER2 Ec ER3 Ee Ek.
  destruct Hdec as (H1 & HR & H2 & HR2 & H3 & HR3 & H4 & Hk).
  assert (Hb : 0 <= b <= 4) by lia.
  assert (Hc : 0 <= c <= 24) by lia.
  assert (He : 0 <= e <= 4) by lia.
  destruct (Z.eqb_spec e 4) as [E4 | E4]; cbn [orb].
  - unfold ymd2ord, days_before_month.
    replace (a * 400 + 1 + b * 100 + c * 4 + e - 1)
      with (400 * a + 100 * b + 4 * c + 3 + 1) by lia.
    rewrite days_before_year_split by lia.
    rewrite isleap_split by lia. cbn [DAYS_BEFORE_MONTH Z.ltb Z.compare Pos.compare Pos.compare_cont andb].
    change (3 =? 3) with true. cbn [andb].
    destruct (Z.eqb_spec c 24); destruct (Z.eqb_spec b 3); cbn [b2z negb orb andb]; lia.
  - destruct (Z.eqb_spec b 4) as [B4 | B4].
    + unfold ymd2ord, days_before_month.
      replace (a * 400 + 1 + b * 100 + c * 4 + e - 1)
        with (400 * a + 100 * 3 + 4 * 24 + 3 + 1) by lia.
      rewrite days_before_year_split by lia.
      rewrite isleap_split by lia. cbn [DAYS_BEFORE_MONTH Z.ltb Z.compare Pos.compare Pos.compare_cont andb]. fold_consts. cbn [b2z negb orb andb]. lia.
    + set (l := (e =? 3) && (negb (c =? 24) || (b =? 3))).
      pose proof (yday2md_inv l k) as Hinv.
      destruct (yday2md k l) as [m d]. cbn [fst snd] in Hinv.
      unfold ymd2ord, days_before_month.
      replace (a * 400 + 1 + b * 100 + c * 4 + e)
        with (400 * a + 100 * b + 4 * c + e + 1) by lia.
      rewrite days_before_year_split by lia.
      rewrite isleap_split by lia. fold l.
      assert (0 <= k <= 364 + b2z l) by (destruct l; cbn; lia).
      lia.
Qed.

Lemma days_before_year_succ (y : Z) :
  days_before_year (y + 1) = days_before_year y + 365 + b2z (isleap y).
Proof.
  destruct (isleap y) eqn:E; unfold isleap in E; unfold days_before_year, b2z; cbv zeta;
  Z.div_mod_to_equations; lia.
Qed.

Lemma days_before_year_mono (y1 y2 : Z) :
  y1 <= y2 -> days_before_year y1 <= days_before_year y2.
Proof.
  intros H. replace y2 with (y1 + Z.of_nat (Z.to_nat (y2 - y1))) by lia.
  induction (Z.to_nat (y2 - y1)) as [ | n IH].
  - rewrite Z.add_0_r. lia.
  - replace (y1 + Z.of_nat (S n)) with (y1 + Z.of_nat n + 1) by lia.
    rewrite days_before_year_succ. destruct (isleap _); cbn; lia.
Qed.

Lemma days_before_year_next (y1 y2 : Z) :
  y1 < y2 ->
  days_before_year y1 + 365 + b2z (isleap y1) <= days_before_year y2.
Proof.
  intros H. rewrite <- days_before_year_succ. apply days_before_year_mono. lia.
Qed.

(** The ordinal grows with the calendar order of the fields. *)
Lemma ymd2ord_lt (y1 m1 d1 y2 m2 d2 : Z) :
  date_fields_ok y1 m1 d1 = true ->
  date_fields_ok y2 m2 d2 = true ->
  lex_compare [y1; m1; d1] [y2; m2; d2] = Lt ->
  ymd2ord y1 m1 d1 < ymd2ord y2 m2 d2.
Proof.
  rewrite !date_fields_ok_iff. intros (Hy1 & Hm1 & Hd1) (Hy2 & Hm2 & Hd2). cbn [lex_compare].
  destruct (yday_range y1 m1 d1 Hm1 Hd1) as [Hk1 _].
  destruct (yday_range y2 m2 d2 Hm2 Hd2) as [Hk2 _].
  unfold ymd2ord.
  destruct (Z.compare_spec y1 y2) as [Ey | Ly | Gy]; try discriminate.
  - subst y2. destruct (Z.compare_spec m1 m2) as [Em | Lm | Gm]; try discriminate.
    + subst m2. destruct (Z.compare_spec d1 d2); try discriminate. intros _. lia.
    + intros _. unfold days_before_month, days_in_month in *.
      clear Hk1 Hk2.
      destruct (isleap y1); each_month m1; each_month m2; cbn in *; lia.
  - intros _. pose proof (days_before_year_next y1 y2 Ly). lia.
Qed.

Lemma add_days_toordinal (dt dt' : datetime) (n : Z) :
  add_days dt n = Ok dt' -> toordinal dt' = toordinal dt + n.
Proof.
  unfold add_days.
  destruct ((-999999999 <=? n) && (n <=? 999999999)); [ | discriminate].
  destruct ((0 <? toordinal dt + n) && (toordinal dt + n <=? MAXORDINAL)); [ | discriminate].
  pose proof (ymd2ord_ord2ymd (toordinal dt + n)) as H.
  destruct (ord2ymd (toordinal dt + n)) as [[y m] d].
  intros E. injection E as <-. exact H.
Qed.

Lemma lex_compare_antisym (a : list Z) :
  forall b, List.length a = List.length b ->
            lex_compare b a = CompOpp (lex_compare a b).
Proof.
  induction a as [ | x a IH]; intros [ | y b] Hl; try discriminate; cbn; [reflexivity | ].
  rewrite (Z.compare_antisym x y).
  destruct (x ?= y); cbn; try reflexivity. apply IH. cbn in Hl. lia.
Qed.

Lemma lt_asym (a b : datetime) : lt a b = true -> lt b a = false.
Proof.
  unfold lt, cmp. rewrite (lex_compare_antisym (fields a) (fields b)) by reflexivity.
  destruct (lex_compare (fields a) (fields b)); cbn; congruence.
Qed.

(** On dates at midnight the order of datetimes is the order of ordinals. *)
Lemma lt_toordinal (a b : datetime) :
  date_fields_ok (year a) (month a) (day a) = true ->
  date_fields_ok (year b) (month b) (day b) = true ->
  midnight a = true -> midnight b = true ->
  lt a b = true -> toordinal a < toordinal b.
Proof.
  intros Ha Hb Hma Hmb. unfold midnight in *.
  repeat (apply andb_true_iff in Hma; destruct Hma as [Hma ?]).
  repeat (apply andb_true_iff in Hmb; destruct Hmb as [Hmb ?]).
  repeat match goal with H : (_ =? _) = true |- _ => apply Z.eqb_eq in H end.
  unfold lt, cmp, fields, toordinal. intros Hlt.
  apply ymd2ord_lt; try assumption.
  cbn [lex_compare] in *.
  destruct (year a ?= year b); try discriminate; try reflexivity.
  destruct (month a ?= month b); try discriminate; try reflexivity.
  destruct (day a ?= day b); try discriminate; try reflexivity.
  exfalso.
  repeat match goal with H : _ = 0 |- _ => rewrite H in * end.
  cbn in *. discriminate.
Qed.

Lemma lex_compare_eq (a : list Z) :
  forall b, lex_compare a b = Eq -> a = b.
Proof.
  induction a as [ | x a IH]; intros [ | y b]; cbn; try discriminate; [reflexivity | ].
  destruct (Z.compare_spec x y); try discriminate. intros Hr. subst. f_equal. auto.
Qed.

Lemma lt_total (a b : datetime) : lt a b = false -> lt b a = false -> a = b.
Proof.
  unfold lt, cmp. rewrite (lex_compare_antisym (fields a) (fields b)) by reflexivity.
  destruct (lex_compare (fields a) (fields b)) eqn:E; cbn; try discriminate.
  intros _ _. apply lex_compare_eq in E.
  destruct a, b. unfold fields in E. cbn in E. inversion E. reflexivity.
Qed.

Lemma calculate_expiry_dates (now : datetime) (filing_str : string) (pta pte : Z)
    (td : option string) (r : ExpirationResult) :
  calculate_expiry now filing_str pta pte td = Ok r ->
  exists f b a final,
    strptime filing_str = Ok f /\
    add_relativedelta_years f 20 = Ok b /\
    add_days b (pta + pte) = Ok a /\
    td_step td a pta pte final (reason r) /\
    written (baseline_expiry r) b /\
    written (calculated_expiry r) final /\
    good b /\ good a /\ good final /\
    baseline_expiry r = strftime b /\ calculated_expiry r = strftime final.
Proof.
  intros Hr. apply calculate_expiry_inv in Hr.
  destruct Hr as (f & b & a & final & rsn & Hf & Hb & Ha & Htd & ->).
  exists f, b, a, final. cbn [reason baseline_expiry calculated_expiry expiry_dict].
  pose proof (strptime_good _ _ Hf) as Gf.
  assert (Hm : 1 <= month f <= 12).
  { destruct Gf as [Hv _]. apply date_fields_ok_iff in Hv. tauto. }
  destruct (add_relativedelta_years_valid _ _ _ Hm Hb) as (Hvb & B1 & B2 & B3 & B4).
  assert (Gb : good b) by (eapply same_time_good; eassumption).
  destruct (add_days_inv _ _ _ Ha) as (Hva & A1 & A2 & A3 & A4).
  assert (Ga : good a) by (eapply same_time_good; eassumption).
  assert (Gfin : good final).
  { inversion Htd; subst; try exact Ga. eapply strptime_good; eassumption. }
  repeat split; try assumption; try apply Gb; try apply Ga; try apply Gfin.
Qed.

(** X1. Without a terminal disclaimer the date that [calculated_expiry]
    denotes lies exactly [pta_days + pte_days] days after the date that
    [baseline_expiry] denotes, counted on the calendar. *)
Theorem adjustment_is_a_day_count (now : datetime) (filing_str : string)
    (pta pte : Z) (r : ExpirationResult) :
  calculate_expiry now filing_str pta pte None = Ok r ->
  exists b c,
    written (baseline_expiry r) b /\
    written (calculated_expiry r) c /\
    toordinal c - toordinal b = pta + pte.
Proof.
  intros Hr. apply calculate_expiry_dates in Hr.
  destruct Hr as (f & b & a & final & Hf & Hb & Ha & Htd & Pb & Pc & _).
  apply td_step_none in Htd. destruct Htd as [-> _].
  exists b, a. split; [exact Pb | ]. split; [exact Pc | ].
  rewrite (add_days_toordinal _ _ _ Ha). lia.
Qed.

Lemma adjustment_is_a_day_count_witness :
  calculate_expiry (mkdatetime 2026 11 4 9 30 0 0) "2004-02-29" 100 45 None =
    Ok (mkExpirationResult "2024-07-23"
          "20 years from filing + 100 days PTA + 45 days PTE" false
          "2024-02-29" 100 45 "2024-07-23") /\
  exists b c,
    written "2024-02-29" b /\ written "2024-07-23" c /\
    toordinal c - toordinal b = 100 + 45.
Proof.
  split; [reflexivity | ].
  exact (adjustment_is_a_day_count (mkdatetime 2026 11 4 9 30 0 0) "2004-02-29" 100 45
           (mkExpirationResult "2024-07-23"
              "20 years from filing + 100 days PTA + 45 days PTE" false
              "2024-02-29" 100 45 "2024-07-23") eq_refl).
Defined.

(** X2. A terminal disclaimer can only shorten the term.  When
    [calculate_expiry] returns with a disclaimer date that parses, it returns
    without the disclaimer too, with the same [baseline_expiry]; the date that
    its [calculated_expiry] denotes is the disclaimer date or the date
    returned without the disclaimer, and is later than neither. *)
Theorem terminal_disclaimer_only_shortens (now : datetime) (filing_str td_str : string)
    (pta pte : Z) (td : datetime) (r : ExpirationResult) :
  calculate_expiry now filing_str pta pte (Some td_str) = Ok r ->
  strptime td_str = Ok td ->
  exists r0 c c0,
    calculate_expiry now filing_str pta pte None = Ok r0 /\
    baseline_expiry r = baseline_expiry r0 /\
    written (calculated_expiry r) c /\
    written (calculated_expiry r0) c0 /\
    (c = td \/ c = c0) /\
    lt c0 c = false /\ lt td c = false.
Proof.
  intros Hr Htd.
  pose proof Hr as Hd. apply calculate_expiry_dates in Hd.
  destruct Hd as (f & b & a & final & Hf & Hb & Ha & Hstep & Pb & Pc & Gb & Ga & Gfin & _).
  pose proof (calculate_expiry_no_td now _ pta pte _ _ _ Hf Hb Ha) as H0.
  rewrite (calculate_expiry_with_td now _ pta pte _ _ _ _ _ Hf Hb Ha Htd) in Hr.
  exists (expiry_dict now b a (utility_reason pta pte) pta pte).
  destruct (lt td a) eqn:Hlt; injection Hr as <-;
    cbn [baseline_expiry calculated_expiry expiry_dict].
  - exists td, a.
    split; [exact H0 | ]. split; [reflexivity | ].
    split; [apply written_strftime; eapply strptime_good; eassumption | ].
    split; [apply written_strftime; exact Ga | ].
    split; [left; reflexivity | ].
    split; [apply lt_asym; exact Hlt | apply lt_irrefl].
  - exists a, a.
    split; [exact H0 | ]. split; [reflexivity | ].
    split; [apply written_strftime; exact Ga | ].
    split; [apply written_strftime; exact Ga | ].
    split; [right; reflexivity | ].
    split; [apply lt_irrefl | exact Hlt].
Qed.

Lemma terminal_disclaimer_only_shortens_witness :
  calculate_expiry (mkdatetime 2026 11 4 9 30 0 0) "2004-02-29" 100 45
      (Some "2024-03-01") =
    Ok (mkExpirationResult "2024-03-01"
          "Terminal Disclaimer (expires with linked patent)" false
          "2024-02-29" 100 45 "2024-03-01") /\
  strptime "2024-03-01" = Ok (mkdatetime 2024 3 1 0 0 0 0) /\
  exists r0 c c0,
    calculate_expiry (mkdatetime 2026 11 4 9 30 0 0) "2004-02-29" 100 45 None = Ok r0 /\
    "2024-02-29" = baseline_expiry r0 /\
    written "2024-03-01" c /\
    written (calculated_expiry r0) c0 /\
    (c = mkdatetime 2024 3 1 0 0 0 0 \/ c = c0) /\
    lt c0 c = false /\ lt (mkdatetime 2024 3 1 0 0 0 0) c = false.
Proof.
  split; [reflexivity | split; [reflexivity | ] ].
  exact (terminal_disclaimer_only_shortens (mkdatetime 2026 11 4 9 30 0 0)
           "2004-02-29" "2024-03-01" 100 45 (mkdatetime 2024 3 1 0 0 0 0)
           (mkExpirationResult "2024-03-01"
              "Terminal Disclaimer (expires with linked patent)" false
              "2024-02-29" 100 45 "2024-03-01") eq_refl eq_refl).
Defined.

Lemma lt_of_toordinal (a b : datetime) :
  good a -> good b -> toordinal a < toordinal b -> lt a b = true.
Proof.
  intros Ga Gb Hord. destruct (lt a b) eqn:E; [reflexivity | exfalso].
  destruct (lt b a) eqn:E'.
  - destruct Ga, Gb. pose proof (lt_toordinal b a). intuition lia.
  - pose proof (lt_total a b E E'). subst. lia.
Qed.

Lemma le_of_toordinal (a b : datetime) :
  good a -> good b -> toordinal a <= toordinal b -> lt b a = false.
Proof.
  intros Ga Gb Hord. destruct (lt b a) eqn:E; [exfalso | reflexivity].
  destruct Ga, Gb. pose proof (lt_toordinal b a). intuition lia.
Qed.

(** X3. For one filing date and no terminal disclaimer, more
    adjustment days give a later expiry: the baseline is the same, a larger
    sum [pta_days + pte_days] gives a [calculated_expiry] that denotes a
    strictly later date, and equal sums give the same date, however the days
    are split between the two. *)
Theorem more_adjustment_later_expiry (now : datetime) (filing_str : string)
    (pta1 pte1 pta2 pte2 : Z) (r1 r2 : ExpirationResult) :
  calculate_expiry now filing_str pta1 pte1 None = Ok r1 ->
  calculate_expiry now filing_str pta2 pte2 None = Ok r2 ->
  exists c1 c2,
    written (calculated_expiry r1) c1 /\
    written (calculated_expiry r2) c2 /\
    baseline_expiry r1 = baseline_expiry r2 /\
    (pta1 + pte1 < pta2 + pte2 -> lt c1 c2 = true) /\
    (pta1 + pte1 = pta2 + pte2 -> c1 = c2).
Proof.
  intros H1 H2.
  apply calculate_expiry_dates in H1, H2.
  destruct H1 as (f & b & a1 & fin1 & Hf & Hb & Ha1 & Htd1 & Pb1 & Pc1 & Gb & Ga1 & _ & Tb1 & _).
  destruct H2 as (f' & b' & a2 & fin2 & Hf' & Hb' & Ha2 & Htd2 & Pb2 & Pc2 & _ & Ga2 & _ & Tb2 & _).
  rewrite Hf in Hf'. injection Hf' as <-. rewrite Hb in Hb'. injection Hb' as <-.
  apply td_step_none in Htd1, Htd2. destruct Htd1 as [-> _]. destruct Htd2 as [-> _].
  exists a1, a2. split; [exact Pc1 | ]. split; [exact Pc2 | ].
  split; [congruence | ]. split.
  - intros Hlt. apply lt_of_toordinal; try assumption.
    rewrite (add_days_toordinal _ _ _ Ha1), (add_days_toordinal _ _ _ Ha2). lia.
  - intros Heq. rewrite Heq in Ha1. congruence.
Qed.

Lemma more_adjustment_later_expiry_witness :
  calculate_expiry (mkdatetime 2026 11 4 9 30 0 0) "2004-02-29" 0 30 None =
    Ok (mkExpirationResult "2024-03-30" "20 years from filing + 30 days PTE" false
          "2024-02-29" 0 30 "2024-03-30") /\
  calculate_expiry (mkdatetime 2026 11 4 9 30 0 0) "2004-02-29" 100 45 None =
    Ok (mkExpirationResult "2024-07-23"
          "20 years from filing + 100 days PTA + 45 days PTE" false
          "2024-02-29" 100 45 "2024-07-23") /\
  exists c1 c2,
    written "2024-03-30" c1 /\ written "2024-07-23" c2 /\
    lt c1 c2 = true.
Proof.
  split; [reflexivity | split; [reflexivity | ] ].
  destruct (more_adjustment_later_expiry (mkdatetime 2026 11 4 9 30 0 0) "2004-02-29"
              0 30 100 45
              (mkExpirationResult "2024-03-30" "20 years from filing + 30 days PTE" false
                 "2024-02-29" 0 30 "2024-03-30")
              (mkExpirationResult "2024-07-23"
                 "20 years from filing + 100 days PTA + 45 days PTE" false
                 "2024-02-29" 100 45 "2024-07-23") eq_refl eq_refl)
    as (c1 & c2 & H1 & H2 & _ & Hlt & _).
  exists c1, c2. split; [exact H1 | split; [exact H2 | apply Hlt; lia] ].
Defined.

Lemma clamped_years_mono (f1 f2 b1 b2 : datetime) (n : Z) :
  good f1 -> good f2 -> lt f1 f2 = true ->
  add_relativedelta_years f1 n = Ok b1 ->
  add_relativedelta_years f2 n = Ok b2 ->
  lt b2 b1 = false.
Proof.
  intros [V1 M1] [V2 M2] Hlt H1 H2.
  apply midnight_inv in M1, M2.
  destruct M1 as (A1 & A2 & A3 & A4). destruct M2 as (B1 & B2 & B3 & B4).
  pose proof V1 as V1'. pose proof V2 as V2'.
  apply date_fields_ok_iff in V1', V2'.
  destruct V1' as (Hy1 & Hm1 & Hd1). destruct V2' as (Hy2 & Hm2 & Hd2).
  rewrite add_relativedelta_years_eq in H1, H2 by assumption.
  apply replace_inv in H1, H2. destruct H1 as [_ ->]. destruct H2 as [_ ->].
  destruct f1 as [y1 m1 d1 h1 mi1 s1 u1]. destruct f2 as [y2 m2 d2 h2 mi2 s2 u2].
  cbn [year month day hour minute second microsecond] in *. subst.
  unfold lt, cmp, fields in *. cbn [year month day hour minute second microsecond lex_compare] in *.
  destruct (Z.compare_spec (y2 + n) (y1 + n)) as [Ey | Ly | Gy]; try reflexivity.
  - assert (y2 = y1) by lia. subst y2. rewrite Z.compare_refl in Hlt.
    destruct (Z.compare_spec m2 m1) as [Em | Lm | Gm]; try reflexivity.
    + subst m2. rewrite Z.compare_refl in Hlt.
      destruct (Z.compare_spec d1 d2) as [Ed | Ld | Gd]; try discriminate.
      destruct (Z.compare_spec (Z.min (days_in_month (y1 + n) m1) d2)
                  (Z.min (days_in_month (y1 + n) m1) d1)); try reflexivity. lia.
    + destruct (Z.compare_spec m1 m2); try discriminate; lia.
  - destruct (Z.compare_spec y1 y2); try discriminate; lia.
Qed.

Lemma toordinal_le_of_not_lt (a b : datetime) :
  good a -> good b -> lt b a = false -> toordinal a <= toordinal b.
Proof.
  intros Ga Gb H. destruct (lt a b) eqn:E.
  - destruct Ga, Gb. pose proof (lt_toordinal a b). intuition lia.
  - rewrite (lt_total a b E H). lia.
Qed.

(** X4. With the same adjustment and no terminal disclaimer, a
    patent filed later expires no earlier: neither the date of its
    [baseline_expiry] nor the date of its [calculated_expiry] precedes that of
    the patent filed first (the two can coincide, as for 28 and 29 February
    twenty years before a year that is not a leap year). *)
Theorem later_filing_not_earlier_expiry (now : datetime) (filing1 filing2 : string)
    (pta pte : Z) (f1 f2 : datetime) (r1 r2 : ExpirationResult) :
  strptime filing1 = Ok f1 ->
  strptime filing2 = Ok f2 ->
  lt f1 f2 = true ->
  calculate_expiry now filing1 pta pte None = Ok r1 ->
  calculate_expiry now filing2 pta pte None = Ok r2 ->
  exists b1 b2 c1 c2,
    written (baseline_expiry r1) b1 /\
    written (baseline_expiry r2) b2 /\
    written (calculated_expiry r1) c1 /\
    written (calculated_expiry r2) c2 /\
    lt b2 b1 = false /\ lt c2 c1 = false.
Proof.
  intros Hf1 Hf2 Hlt H1 H2.
  apply calculate_expiry_dates in H1, H2.
  destruct H1 as (f & b1 & a1 & fin1 & Hf & Hb1 & Ha1 & Htd1 & Pb1 & Pc1 & Gb1 & Ga1 & _).
  destruct H2 as (f' & b2 & a2 & fin2 & Hf' & Hb2 & Ha2 & Htd2 & Pb2 & Pc2 & Gb2 & Ga2 & _).
  rewrite Hf1 in Hf. injection Hf as <-. rewrite Hf2 in Hf'. injection Hf' as <-.
  apply td_step_none in Htd1, Htd2. destruct Htd1 as [-> _]. destruct Htd2 as [-> _].
  pose proof (clamped_years_mono f1 f2 b1 b2 20 (strptime_good _ _ Hf1)
                (strptime_good _ _ Hf2) Hlt Hb1 Hb2) as Hb.
  exists b1, b2, a1, a2.
  split; [exact Pb1 | ]. split; [exact Pb2 | ].
  split; [exact Pc1 | ]. split; [exact Pc2 | ]. split; [exact Hb | ].
  apply le_of_toordinal; try assumption.
  rewrite (add_days_toordinal _ _ _ Ha1), (add_days_toordinal _ _ _ Ha2).
  pose proof (toordinal_le_of_not_lt b1 b2 Gb1 Gb2 Hb). lia.
Qed.

Lemma later_filing_not_earlier_expiry_witness :
  strptime "2004-02-29" = Ok (mkdatetime 2004 2 29 0 0 0 0) /\
  strptime "2004-03-01" = Ok (mkdatetime 2004 3 1 0 0 0 0) /\
  lt (mkdatetime 2004 2 29 0 0 0 0) (mkdatetime 2004 3 1 0 0 0 0) = true /\
  exists b1 b2 c1 c2,
    written "2024-02-29" b1 /\ written "2024-03-01" b2 /\
    written "2024-07-23" c1 /\ written "2024-07-24" c2 /\
    lt b2 b1 = false /\ lt c2 c1 = false.
Proof.
  split; [reflexivity | split; [reflexivity | split; [reflexivity | ] ] ].
  exact (later_filing_not_earlier_expiry (mkdatetime 2026 11 4 9 30 0 0)
           "2004-02-29" "2004-03-01" 100 45
           (mkdatetime 2004 2 29 0 0 0 0) (mkdatetime 2004 3 1 0 0 0 0)
           (mkExpirationResult "2024-07-23"
              "20 years from filing + 100 days PTA + 45 days PTE" false
              "2024-02-29" 100 45 "2024-07-23")
           (mkExpirationResult "2024-07-24"
              "20 years from filing + 100 days PTA + 45 days PTE" false
              "2024-03-01" 100 45 "2024-07-24")
           eq_refl eq_refl eq_refl eq_refl eq_refl).
Defined.

Lemma month_index_addCalendarMonths (d : datetime) (years months : Z) :
  1 <= month d <= 12 ->
  month_index (addCalendarMonths d years months) = month_index d + 12 * years + months /\
  1 <= month (addCalendarMonths d years months) <= 12.
Proof.
  intros Hm. unfold month_index.
  destruct (addCalendarMonths_fields d years months Hm) as [-> ->].
  split; Z.div_mod_to_equations; lia.
Qed.

Lemma lt_of_month_index (a b : datetime) :
  1 <= month a <= 12 -> 1 <= month b <= 12 ->
  month_index a < month_index b -> lt a b = true.
Proof.
  unfold month_index, lt, cmp, fields. intros Ha Hb H. cbn [lex_compare].
  destruct (Z.compare_spec (year a) (year b)) as [E | L | G]; try reflexivity; try lia.
  destruct (Z.compare_spec (month a) (month b)); try reflexivity; lia.
Qed.

Lemma addCalendarMonths_day (d : datetime) (years months : Z) :
  1 <= month d <= 12 -> 1 <= day d ->
  1 <= day (addCalendarMonths d years months) <= day d /\
  (day d <= 28 -> day (addCalendarMonths d years months) = day d).
Proof.
  intros Hm Hd.
  destruct (month_index_addCalendarMonths d years months Hm) as [_ Hm'].
  unfold addCalendarMonths in *. cbv zeta in *. cbn [day month] in *.
  set (y' := (12 * (year d + years) + (month d - 1) + months) / 12) in *.
  set (m' := (12 * (year d + years) + (month d - 1) + months) mod 12 + 1) in *.
  rewrite <- days_in_month_last_day by assumption.
  pose proof (days_in_month_bounds y' m' Hm'). lia.
Qed.

Lemma addCalendarMonths_time (d : datetime) (years months : Z) :
  hour (addCalendarMonths d years months) = hour d /\
  minute (addCalendarMonths d years months) = minute d /\
  second (addCalendarMonths d years months) = second d /\
  microsecond (addCalendarMonths d years months) = microsecond d.
Proof. unfold addCalendarMonths. cbn. auto. Qed.

Lemma addCalendarMonths_good (d : datetime) (years months : Z) :
  good d ->
  date_fields_ok (year (addCalendarMonths d years months))
    (month (addCalendarMonths d years months))
    (day (addCalendarMonths d years months)) = true ->
  good (addCalendarMonths d years months).
Proof.
  intros Gd Hv. destruct (addCalendarMonths_time d years months) as (H1 & H2 & H3 & H4).
  eapply same_time_good; eassumption.
Qed.

Lemma fee_schedule_dates (due : datetime) (w : FeeWindow) :
  good due ->
  fee_schedule due = Ok w ->
  w = fee_window due /\
  good (addCalendarMonths due 0 (-6)) /\
  good (addCalendarMonths due 0 6).
Proof.
  intros Gd H. pose proof Gd as [Hv _].
  pose proof (fee_schedule_inv due w Hv H) as ->. split; [reflexivity | ].
  unfold fee_schedule in H.
  destruct (add_years_months due 0 (-6)) as [ws | e] eqn:Hws; [ | discriminate].
  destruct (add_years_months due 0 6) as [se | e] eqn:Hse; [ | discriminate].
  apply add_years_months_inv in Hws, Hse; try assumption.
  destruct Hws as [-> Vws]. destruct Hse as [-> Vse].
  split; apply addCalendarMonths_good; assumption.
Qed.

Lemma calculate_maintenance_fees_dates (grant_date_str : string) (g : datetime)
    (r : MaintenanceFees) :
  strptime grant_date_str = Ok g ->
  calculate_maintenance_fees grant_date_str = Ok r ->
  r = {| year_3_5 := fee_window (addCalendarMonths g 3 6);
         year_7_5 := fee_window (addCalendarMonths g 7 6);
         year_11_5 := fee_window (addCalendarMonths g 11 6) |} /\
  (forall k, k = 3 \/ k = 7 \/ k = 11 ->
     good (addCalendarMonths g k 6) /\
     good (addCalendarMonths (addCalendarMonths g k 6) 0 (-6)) /\
     good (addCalendarMonths (addCalendarMonths g k 6) 0 6)).
Proof.
  intros Hg. pose proof (strptime_good _ _ Hg) as Gg. pose proof Gg as [Hv _].
  unfold calculate_maintenance_fees. rewrite Hg. cbn [bind].
  destruct (add_years_months g 3 6) as [d3 | e] eqn:E3; [ | discriminate].
  destruct (add_years_months g 7 6) as [d7 | e] eqn:E7; [ | discriminate].
  destruct (add_years_months g 11 6) as [d11 | e] eqn:E11; [ | discriminate].
  cbn [bind].
  apply add_years_months_inv in E3, E7, E11; try assumption.
  destruct E3 as [-> V3]. destruct E7 as [-> V7]. destruct E11 as [-> V11].
  pose proof (addCalendarMonths_good g 3 6 Gg V3) as G3.
  pose proof (addCalendarMonths_good g 7 6 Gg V7) as G7.
  pose proof (addCalendarMonths_good g 11 6 Gg V11) as G11.
  destruct (fee_schedule (addCalendarMonths g 3 6)) as [w3 | e] eqn:F3; [ | discriminate].
  destruct (fee_schedule (addCalendarMonths g 7 6)) as [w7 | e] eqn:F7; [ | discriminate].
  destruct (fee_schedule (addCalendarMonths g 11 6)) as [w11 | e] eqn:F11; [ | discriminate].
  cbn [bind]. intros H. injection H as <-.
  apply fee_schedule_dates in F3, F7, F11; try assumption.
  destruct F3 as (-> & ? & ?). destruct F7 as (-> & ? & ?). destruct F11 as (-> & ? & ?).
  split; [reflexivity | ].
  intros k [-> | [-> | ->]]; auto.
Qed.

(** X5. The nine dates of a fee schedule follow one another: the grant
    date and the dates that the texts of [calculate_maintenance_fees] denote,
    the opening, the due date and the end of the surcharge period of the
    first window, and then those of the second and of the third window, are
    in strictly increasing order; no two windows overlap. *)
Theorem fee_windows_in_order (grant_date_str : string) (g : datetime) (r : MaintenanceFees) :
  strptime grant_date_str = Ok g ->
  calculate_maintenance_fees grant_date_str = Ok r ->
  exists ws1 du1 se1 ws2 du2 se2 ws3 du3 se3,
    written (window_start (year_3_5 r)) ws1 /\
    written (due_date (year_3_5 r)) du1 /\
    written (surcharge_end (year_3_5 r)) se1 /\
    written (window_start (year_7_5 r)) ws2 /\
    written (due_date (year_7_5 r)) du2 /\
    written (surcharge_end (year_7_5 r)) se2 /\
    written (window_start (year_11_5 r)) ws3 /\
    written (due_date (year_11_5 r)) du3 /\
    written (surcharge_end (year_11_5 r)) se3 /\
    lt g ws1 = true /\ lt ws1 du1 = true /\ lt du1 se1 = true /\
    lt se1 ws2 = true /\ lt ws2 du2 = true /\ lt du2 se2 = true /\
    lt se2 ws3 = true /\ lt ws3 du3 = true /\ lt du3 se3 = true.
Proof.
  intros Hg Hr.
  destruct (calculate_maintenance_fees_dates _ _ _ Hg Hr) as [-> Hgood].
  destruct (Hgood 3 (or_introl eq_refl)) as (G3 & Gw3 & Gs3).
  destruct (Hgood 7 (or_intror (or_introl eq_refl))) as (G7 & Gw7 & Gs7).
  destruct (Hgood 11 (or_intror (or_intror eq_refl))) as (G11 & Gw11 & Gs11).
  pose proof (strptime_good _ _ Hg) as [Hv _].
  apply date_fields_ok_iff in Hv. destruct Hv as (_ & Hm & _).
  exists (addCalendarMonths (addCalendarMonths g 3 6) 0 (-6)), (addCalendarMonths g 3 6),
         (addCalendarMonths (addCalendarMonths g 3 6) 0 6),
         (addCalendarMonths (addCalendarMonths g 7 6) 0 (-6)), (addCalendarMonths g 7 6),
         (addCalendarMonths (addCalendarMonths g 7 6) 0 6),
         (addCalendarMonths (addCalendarMonths g 11 6) 0 (-6)), (addCalendarMonths g 11 6),
         (addCalendarMonths (addCalendarMonths g 11 6) 0 6).
  cbn [year_3_5 year_7_5 year_11_5 fee_window window_start due_date surcharge_end].
  destruct (month_index_addCalendarMonths g 3 6 Hm) as [I3 M3].
  destruct (month_index_addCalendarMonths g 7 6 Hm) as [I7 M7].
  destruct (month_index_addCalendarMonths g 11 6 Hm) as [I11 M11].
  destruct (month_index_addCalendarMonths _ 0 (-6) M3) as [Iw3 Mw3].
  destruct (month_index_addCalendarMonths _ 0 6 M3) as [Is3 Ms3].
  destruct (month_index_addCalendarMonths _ 0 (-6) M7) as [Iw7 Mw7].
  destruct (month_index_addCalendarMonths _ 0 6 M7) as [Is7 Ms7].
  destruct (month_index_addCalendarMonths _ 0 (-6) M11) as [Iw11 Mw11].
  destruct (month_index_addCalendarMonths _ 0 6 M11) as [Is11 Ms11].
  repeat (split; [apply written_strftime; assumption | ]).
  repeat split; apply lt_of_month_index; try assumption; lia.
Qed.

Lemma fee_windows_in_order_witness :
  strptime "2019-08-31" = Ok (mkdatetime 2019 8 31 0 0 0 0) /\
  calculate_maintenance_fees "2019-08-31" =
    Ok (mkMaintenanceFees
          (mkFeeWindow "2023-02-28" "2022-08-28" "2023-02-28" "2023-08-28")
          (mkFeeWindow "2027-02-28" "2026-08-28" "2027-02-28" "2027-08-28")
          (mkFeeWindow "2031-02-28" "2030-08-28" "2031-02-28" "2031-08-28")) /\
  exists ws1 se3,
    written "2022-08-28" ws1 /\ written "2031-08-28" se3 /\
    lt (mkdatetime 2019 8 31 0 0 0 0) ws1 = true /\ lt ws1 se3 = true.
Proof.
  split; [reflexivity | split; [reflexivity | ] ].
  destruct (fee_windows_in_order "2019-08-31" (mkdatetime 2019 8 31 0 0 0 0)
              (mkMaintenanceFees
                 (mkFeeWindow "2023-02-28" "2022-08-28" "2023-02-28" "2023-08-28")
                 (mkFeeWindow "2027-02-28" "2026-08-28" "2027-02-28" "2027-08-28")
                 (mkFeeWindow "2031-02-28" "2030-08-28" "2031-02-28" "2031-08-28"))
              eq_refl eq_refl)
    as (ws1 & du1 & se1 & ws2 & du2 & se2 & ws3 & du3 & se3 &
        P1 & _ & _ & _ & _ & _ & _ & _ & P9 &
        L0 & L1 & L2 & L3 & L4 & L5 & L6 & L7 & L8).
  exists ws1, se3. split; [exact P1 | split; [exact P9 | split; [exact L0 | ] ] ].
  exact (lt_trans _ _ _ L1 (lt_trans _ _ _ L2 (lt_trans _ _ _ L3 (lt_trans _ _ _ L4
           (lt_trans _ _ _ L5 (lt_trans _ _ _ L6 (lt_trans _ _ _ L7 L8))))))).
Defined.

Lemma window_edge_fields (g : datetime) (k : Z) (back : Z) :
  1 <= month g <= 12 -> 1 <= day g ->
  back = -6 \/ back = 6 ->
  let e := addCalendarMonths (addCalendarMonths g k 6) 0 back in
  year e = year g + k + (back + 6) / 12 /\ month e = month g /\
  day e <= day g /\ (day g <= 28 -> day e = day g).
Proof.
  intros Hm Hd Hb e.
  destruct (month_index_addCalendarMonths g k 6 Hm) as [I1 M1].
  destruct (month_index_addCalendarMonths (addCalendarMonths g k 6) 0 back M1) as [I2 M2].
  fold e in I2, M2. unfold month_index in *.
  destruct (addCalendarMonths_day g k 6 Hm Hd) as [D1 D1'].
  destruct (addCalendarMonths_day (addCalendarMonths g k 6) 0 back M1 (proj1 D1)) as [D2 D2'].
  fold e in D2, D2'.
  assert (Hq : (back + 6) / 12 = 0 /\ back = -6 \/ (back + 6) / 12 = 1 /\ back = 6)
    by (destruct Hb; subst; [left | right]; split; reflexivity).
  assert (Hmonth : month e = month g) by (destruct Hq as [[_ ->] | [_ ->]]; lia).
  repeat split; try lia.
Qed.

(** X6. The fee windows open and close in the month of the grant:
    [window_start] denotes a date 3, 7 and 11 years and [surcharge_end] a date
    4, 8 and 12 years after the grant date, in the same month, on the same
    day of the month when that is at most 28 and never on a later day. *)
Theorem fee_windows_on_anniversaries (grant_date_str : string) (g : datetime)
    (r : MaintenanceFees) :
  strptime grant_date_str = Ok g ->
  calculate_maintenance_fees grant_date_str = Ok r ->
  anniversary (window_start (year_3_5 r)) g 3 /\
  anniversary (surcharge_end (year_3_5 r)) g 4 /\
  anniversary (window_start (year_7_5 r)) g 7 /\
  anniversary (surcharge_end (year_7_5 r)) g 8 /\
  anniversary (window_start (year_11_5 r)) g 11 /\
  anniversary (surcharge_end (year_11_5 r)) g 12.
Proof.
  intros Hg Hr.
  destruct (calculate_maintenance_fees_dates _ _ _ Hg Hr) as [-> Hgood].
  destruct (Hgood 3 (or_introl eq_refl)) as (G3 & Gw3 & Gs3).
  destruct (Hgood 7 (or_intror (or_introl eq_refl))) as (G7 & Gw7 & Gs7).
  destruct (Hgood 11 (or_intror (or_intror eq_refl))) as (G11 & Gw11 & Gs11).
  pose proof (strptime_good _ _ Hg) as [Hv _].
  apply date_fields_ok_iff in Hv. destruct Hv as (_ & Hm & Hd).
  cbn [year_3_5 year_7_5 year_11_5 fee_window window_start surcharge_end].
  assert (H : forall k back,
             back = -6 \/ back = 6 ->
             good (addCalendarMonths (addCalendarMonths g k 6) 0 back) ->
             anniversary (strftime (addCalendarMonths (addCalendarMonths g k 6) 0 back))
               g (k + (back + 6) / 12)).
  { intros k back Hb Gd. eexists. split; [apply written_strftime; exact Gd | ].
    destruct (window_edge_fields g k back Hm (proj1 Hd) Hb) as (Y & M & D & D').
    repeat split; try assumption. lia. }
  repeat split.
  - exact (H 3 (-6) (or_introl eq_refl) Gw3).
  - exact (H 3 6 (or_intror eq_refl) Gs3).
  - exact (H 7 (-6) (or_introl eq_refl) Gw7).
  - exact (H 7 6 (or_intror eq_refl) Gs7).
  - exact (H 11 (-6) (or_introl eq_refl) Gw11).
  - exact (H 11 6 (or_intror eq_refl) Gs11).
Qed.

Lemma fee_windows_on_anniversaries_witness :
  strptime "2019-08-31" = Ok (mkdatetime 2019 8 31 0 0 0 0) /\
  calculate_maintenance_fees "2019-08-31" =
    Ok (mkMaintenanceFees
          (mkFeeWindow "2023-02-28" "2022-08-28" "2023-02-28" "2023-08-28")
          (mkFeeWindow "2027-02-28" "2026-08-28" "2027-02-28" "2027-08-28")
          (mkFeeWindow "2031-02-28" "2030-08-28" "2031-02-28" "2031-08-28")) /\
  anniversary "2022-08-28" (mkdatetime 2019 8 31 0 0 0 0) 3 /\
  anniversary "2031-08-28" (mkdatetime 2019 8 31 0 0 0 0) 12.
Proof.
  split; [reflexivity | split; [reflexivity | ] ].
  destruct (fee_windows_on_anniversaries "2019-08-31" (mkdatetime 2019 8 31 0 0 0 0)
              (mkMaintenanceFees
                 (mkFeeWindow "2023-02-28" "2022-08-28" "2023-02-28" "2023-08-28")
                 (mkFeeWindow "2027-02-28" "2026-08-28" "2027-02-28" "2027-08-28")
                 (mkFeeWindow "2031-02-28" "2030-08-28" "2031-02-28" "2031-08-28"))
              eq_refl eq_refl)
    as (A3 & _ & _ & _ & _ & A12).
  split; [exact A3 | exact A12].
Defined.

(** X7. [add_years_months] on a date of [datetime] either returns a
    date of [datetime] that lies the asked number of months later, on the
    same day of the month or, when the month is shorter, on an earlier one,
    with the time of day kept; or it raises [ValueError], and does so exactly
    because the year arrived at is outside 1..9999.  It never raises
    [IllegalMonthError]. *)
Theorem add_years_months_outcome (d : datetime) (years months : Z) :
  valid d = true ->
  (exists d',
     add_years_months d years months = Ok d' /\
     valid d' = true /\
     month_index d' = month_index d + 12 * years + months /\
     1 <= day d' <= day d /\ (day d <= 28 -> day d' = day d) /\
     hour d' = hour d /\ minute d' = minute d /\
     second d' = second d /\ microsecond d' = microsecond d) \/
  (add_years_months d years months = Raise (ValueError OutOfRange) /\
   let y := (month_index d + 12 * years + months - 1) / 12 in
   y < MINYEAR \/ MAXYEAR < y).
Proof.
  intros Hv. unfold valid in Hv. apply andb_true_iff in Hv. destruct Hv as [Hv Ht].
  pose proof Hv as Hv'. apply date_fields_ok_iff in Hv'. destruct Hv' as (Hy & Hm & Hd).
  rewrite add_years_months_spec by assumption.
  destruct (month_index_addCalendarMonths d years months Hm) as [I M].
  destruct (addCalendarMonths_day d years months Hm (proj1 Hd)) as [D D'].
  destruct (addCalendarMonths_time d years months) as (T1 & T2 & T3 & T4).
  assert (Hyear : year (addCalendarMonths d years months)
                  = (month_index d + 12 * years + months - 1) / 12).
  { rewrite <- I. unfold month_index. Z.div_mod_to_equations. lia. }
  destruct ((MINYEAR <=? year (addCalendarMonths d years months)) &&
            (year (addCalendarMonths d years months) <=? MAXYEAR)) eqn:E.
  - left. exists (addCalendarMonths d years months).
    repeat split; try assumption; try lia.
    unfold valid. apply andb_true_intro. split.
    + apply date_fields_ok_iff. apply andb_true_iff in E. destruct E as [E1 E2].
      apply Z.leb_le in E1, E2. unfold MINYEAR, MAXYEAR in *.
      repeat split; try lia.
      unfold addCalendarMonths. cbn [year month day]. cbv zeta.
      rewrite days_in_month_last_day.
      * lia.
      * unfold addCalendarMonths in M. cbn [month] in M. exact M.
    + unfold time_fields_ok in *. rewrite T1, T2, T3, T4. exact Ht.
  - right. split; [reflexivity | ]. cbv zeta. rewrite <- Hyear.
    apply andb_false_iff in E. destruct E as [E | E].
    + left. apply Z.leb_gt in E. exact E.
    + right. apply Z.leb_gt in E. exact E.
Qed.

Lemma add_years_months_outcome_witness :
  valid (mkdatetime 2019 8 31 0 0 0 0) = true /\
  ((exists d',
      add_years_months (mkdatetime 2019 8 31 0 0 0 0) 3 6 = Ok d' /\
      valid d' = true /\
      month_index d' = month_index (mkdatetime 2019 8 31 0 0 0 0) + 12 * 3 + 6 /\
      1 <= day d' <= 31 /\ (31 <= 28 -> day d' = 31) /\
      hour d' = 0 /\ minute d' = 0 /\ second d' = 0 /\ microsecond d' = 0) \/
   (add_years_months (mkdatetime 2019 8 31 0 0 0 0) 3 6 = Raise (ValueError OutOfRange) /\
    let y := (month_index (mkdatetime 2019 8 31 0 0 0 0) + 12 * 3 + 6 - 1) / 12 in
    y < MINYEAR \/ MAXYEAR < y)).
Proof.
  split; [reflexivity | ].
  exact (add_years_months_outcome (mkdatetime 2019 8 31 0 0 0 0) 3 6 eq_refl).
Defined.

Lemma month_index_inj (a b : datetime) :
  1 <= month a <= 12 -> 1 <= month b <= 12 ->
  month_index a = month_index b -> year a = year b /\ month a = month b.
Proof.
  unfold month_index. lia.
Qed.

(** X8. Two steps of [add_years_months] against one.  When both
    steps return, the single step by the summed years and months returns as
    well and lands in the same month of the same year; the two steps end on
    the same day or on an earlier one, and on the same date and time whenever
    the day of the start is at most 28. *)
Theorem add_years_months_compose (d d1 d2 : datetime) (y1 m1 y2 m2 : Z) :
  valid d = true ->
  add_years_months d y1 m1 = Ok d1 ->
  add_years_months d1 y2 m2 = Ok d2 ->
  exists d12,
    add_years_months d (y1 + y2) (m1 + m2) = Ok d12 /\
    year d2 = year d12 /\ month d2 = month d12 /\
    day d2 <= day d12 /\
    (day d <= 28 -> d2 = d12).
Proof.
  intros Hv H1 H2. unfold valid in Hv. apply andb_true_iff in Hv. destruct Hv as [Hv _].
  pose proof Hv as Hv'. apply date_fields_ok_iff in Hv'. destruct Hv' as (Hy & Hm & Hd).
  apply add_years_months_inv in H1; [ | assumption]. destruct H1 as [-> V1].
  pose proof V1 as V1'. apply date_fields_ok_iff in V1'. destruct V1' as (Hy1 & Hm1 & Hd1).
  apply add_years_months_inv in H2; [ | assumption]. destruct H2 as [-> V2].
  pose proof V2 as V2'. apply date_fields_ok_iff in V2'. destruct V2' as (Hy2 & Hm2 & Hd2).
  set (a1 := addCalendarMonths d y1 m1) in *.
  set (a2 := addCalendarMonths a1 y2 m2) in *.
  set (a12 := addCalendarMonths d (y1 + y2) (m1 + m2)).
  destruct (month_index_addCalendarMonths d y1 m1 Hm) as [I1 _]. fold a1 in I1.
  destruct (month_index_addCalendarMonths a1 y2 m2 Hm1) as [I2 _]. fold a2 in I2.
  destruct (month_index_addCalendarMonths d (y1 + y2) (m1 + m2) Hm) as [I12 M12].
  fold a12 in I12, M12.
  destruct (month_index_inj a2 a12 Hm2 M12 ltac:(lia)) as [Ey Em].
  exists a12.
  assert (Hok : add_years_months d (y1 + y2) (m1 + m2) = Ok a12).
  { apply add_years_months_ok; [assumption | ]. fold a12. rewrite <- Ey.
    unfold MINYEAR, MAXYEAR. lia. }
  destruct (addCalendarMonths_day d y1 m1 Hm (proj1 Hd)) as [D1 D1']. fold a1 in D1, D1'.
  destruct (addCalendarMonths_day d (y1 + y2) (m1 + m2) Hm (proj1 Hd)) as [D12 D12'].
  fold a12 in D12, D12'.
  assert (Hday2 : day a2 = Z.min (day a1) (last_day_of (year a2) (month a2))).
  { unfold a2 at 1. unfold addCalendarMonths. cbn [day]. cbv zeta.
    unfold a2, addCalendarMonths. cbn [year month]. reflexivity. }
  assert (Hday12 : day a12 = Z.min (day d) (last_day_of (year a12) (month a12))).
  { unfold a12 at 1. unfold addCalendarMonths. cbn [day]. cbv zeta.
    unfold a12, addCalendarMonths. cbn [year month]. reflexivity. }
  rewrite Ey, Em in Hday2.
  repeat split; try assumption; try lia.
  intros H28.
  destruct (addCalendarMonths_time d y1 m1) as (T1 & T2 & T3 & T4). fold a1 in T1, T2, T3, T4.
  destruct (addCalendarMonths_time a1 y2 m2) as (U1 & U2 & U3 & U4). fold a2 in U1, U2, U3, U4.
  destruct (addCalendarMonths_time d (y1 + y2) (m1 + m2)) as (W1 & W2 & W3 & W4).
  fold a12 in W1, W2, W3, W4.
  assert (Ed : day a2 = day a12) by lia.
  destruct a2, a12. cbn in *. congruence.
Qed.

Lemma add_years_months_compose_witness :
  valid (mkdatetime 2019 8 31 0 0 0 0) = true /\
  add_years_months (mkdatetime 2019 8 31 0 0 0 0) 3 6 = Ok (mkdatetime 2023 2 28 0 0 0 0) /\
  add_years_months (mkdatetime 2023 2 28 0 0 0 0) 0 6 = Ok (mkdatetime 2023 8 28 0 0 0 0) /\
  exists d12,
    add_years_months (mkdatetime 2019 8 31 0 0 0 0) (3 + 0) (6 + 6) = Ok d12 /\
    2023 = year d12 /\ 8 = month d12 /\ 28 <= day d12 /\
    (31 <= 28 -> mkdatetime 2023 8 28 0 0 0 0 = d12).
Proof.
  split; [reflexivity | split; [reflexivity | split; [reflexivity | ] ] ].
  exact (add_years_months_compose (mkdatetime 2019 8 31 0 0 0 0)
           (mkdatetime 2023 2 28 0 0 0 0) (mkdatetime 2023 8 28 0 0 0 0) 3 6 0 6
           eq_refl eq_refl eq_refl).
Defined.

(** X9. [is_leap_year] is the leap year test of [calendar]: it agrees
    with [calendar.isleap] on every integer, so February has 29 days exactly
    in the years it accepts; it has period 400, and no two years in a row are
    leap years. *)
Theorem is_leap_year_february (y : Z) :
  is_leap_year y = isleap y /\
  monthrange_ndays y 2 = Ok (if is_leap_year y then 29 else 28) /\
  is_leap_year (y + 400) = is_leap_year y /\
  is_leap_year y && is_leap_year (y + 1) = false.
Proof.
  repeat split.
  - apply is_leap_year_isleap.
  - rewrite is_leap_year_isleap. unfold monthrange_ndays. cbn.
    destruct (isleap y); reflexivity.
  - unfold is_leap_year. Z.div_mod_to_equations. lia.
  - unfold is_leap_year. Z.div_mod_to_equations. lia.
Qed.

(** ** Key terms *)

Lemma mem_In (x : string) (l : list string) : mem x l = true <-> In x l.
Proof.
  unfold mem. rewrite existsb_exists. split.
  - intros (y & Hy & E). apply String.eqb_eq in E. subst. exact Hy.
  - intros H. exists x. split; [exact H | apply String.eqb_refl].
Qed.

(** The loop with its [break], started with fewer than six terms, appends
    the first occurrences of the kept tokens until there are six. *)
Lemma key_terms_loop_eq (terms : list string) :
  forall acc seen,
    (Z.of_nat (List.length acc) < 6) ->
    key_terms_loop terms acc seen =
    (acc ++ firstn (6 - List.length acc)
              (first_occurrences (filter keep_term terms) seen))%list.
Proof.
  induction terms as [ | t rest IH]; intros acc seen Hlen; cbn [key_terms_loop filter].
  - cbn. rewrite firstn_nil, app_nil_r. reflexivity.
  - replace ((2 <? len t) && negb (mem t STOPWORDS)) with (keep_term t) by reflexivity.
    destruct (keep_term t) eqn:Hk; cbn [andb].
    + cbn [first_occurrences]. destruct (mem t seen) eqn:Hs; cbn [negb].
      * apply IH. exact Hlen.
      * cbv zeta.
        assert (Hl : List.length (acc ++ [t]) = S (List.length acc))
          by (rewrite length_app; cbn; lia).
        destruct (6 - List.length acc)%nat as [ | k] eqn:Ek; [lia | ].
        cbn [firstn].
        destruct (Z.leb_spec 6 (Z.of_nat (List.length (acc ++ [t])))) as [H6 | H6].
        -- assert (k = 0)%nat by lia. subst k. rewrite firstn_O. reflexivity.
        -- rewrite IH by lia. rewrite Hl.
           replace (6 - S (List.length acc))%nat with k by lia.
           rewrite <- app_assoc. reflexivity.
    + apply IH. exact Hlen.
Qed.

Lemma key_terms_loop_start (terms : list string) :
  key_terms_loop terms [] [] = firstn 6 (first_occurrences (filter keep_term terms) []).
Proof.
  rewrite key_terms_loop_eq by (cbn; lia). reflexivity.
Qed.

Lemma first_occurrences_spec (l : list string) :
  forall seen,
    NoDup (first_occurrences l seen) /\
    (forall x, In x (first_occurrences l seen) -> In x l /\ ~ In x seen).
Proof.
  induction l as [ | a l IH]; intros seen; cbn [first_occurrences].
  - split; [constructor | intros x []].
  - destruct (mem a seen) eqn:Hm.
    + destruct (IH seen) as [Hnd Hin]. split; [exact Hnd | ].
      intros x Hx. destruct (Hin x Hx). split; [right | ]; assumption.
    + destruct (IH (a :: seen)) as [Hnd Hin]. split.
      * constructor; [ | exact Hnd]. intros Ha. apply Hin in Ha. cbn in Ha. tauto.
      * intros x [<- | Hx].
        -- split; [left; reflexivity | ]. intros Hs. apply mem_In in Hs. congruence.
        -- destruct (Hin x Hx) as [H1 H2]. split; [right; exact H1 | ].
           intros Hs. apply H2. right. exact Hs.
Qed.

Lemma first_occurrences_NoDup_id (l : list string) :
  forall seen,
    NoDup l -> (forall x, In x l -> ~ In x seen) ->
    first_occurrences l seen = l.
Proof.
  induction l as [ | a l IH]; intros seen Hnd Hs; cbn [first_occurrences]; [reflexivity | ].
  inversion Hnd as [ | ? ? Ha Hnd']; subst.
  destruct (mem a seen) eqn:Hm.
  - apply mem_In in Hm. exfalso. apply (Hs a); [left; reflexivity | exact Hm].
  - f_equal. apply IH; [exact Hnd' | ].
    intros x Hx [<- | Hin]; [contradiction | ].
    apply (Hs x); [right; exact Hx | exact Hin].
Qed.

Lemma all_chars_app (p : ascii -> bool) (a b : string) :
  Str.all_chars p (a ++ b) = Str.all_chars p a && Str.all_chars p b.
Proof.
  induction a as [ | c a IH]; cbn; [reflexivity | ].
  rewrite IH, andb_assoc. reflexivity.
Qed.

Lemma term_char_not_space (c : ascii) : is_term_char c = true -> Str.isspace c = false.
Proof.
  destruct c as [[] [] [] [] [] [] [] []]; vm_compute; congruence.
Qed.

Lemma nonempty_app_char (cur : string) (c : ascii) : nonempty (cur ++ String c "") = true.
Proof. destruct cur; reflexivity. Qed.

(** A token: not empty, made of lower case letters and digits. *)
Lemma split_from_tokens (s : string) :
  forall cur,
    Str.all_chars is_term_char cur = true ->
    Str.all_chars (fun c => is_term_char c || Str.isspace c) s = true ->
    Forall (fun t => nonempty t = true /\ Str.all_chars is_term_char t = true)
      (Str.split_from s cur).
Proof.
  induction s as [ | c s IH]; intros cur Hcur Hs; cbn [Str.split_from].
  - destruct (nonempty cur) eqn:Hn; constructor; auto.
  - cbn [Str.all_chars] in Hs. apply andb_true_iff in Hs. destruct Hs as [Hc Hs].
    destruct (Str.isspace c) eqn:Hsp.
    + destruct (nonempty cur) eqn:Hn.
      * constructor; [auto | ]. apply IH; [reflexivity | exact Hs].
      * apply IH; [reflexivity | exact Hs].
    + rewrite orb_false_r in Hc. apply IH; [ | exact Hs].
      rewrite all_chars_app. cbn. rewrite Hcur, Hc. reflexivity.
Qed.

Lemma sub_non_term_chars (s : string) :
  Str.all_chars (fun c => is_term_char c || Str.isspace c) (sub_non_term s) = true.
Proof.
  induction s as [ | c s IH]; cbn; [reflexivity | ].
  fold (sub_non_term s). rewrite IH, andb_true_r.
  unfold is_term_char.
  destruct (Str.is_lower c || Str.is_digit c || Str.isspace c) eqn:E;
    [exact E | reflexivity].
Qed.

Lemma title_tokens_shape (title : string) :
  Forall (fun t => nonempty t = true /\ Str.all_chars is_term_char t = true)
    (title_tokens title).
Proof.
  unfold title_tokens, Str.split. apply split_from_tokens; [reflexivity | ].
  apply sub_non_term_chars.
Qed.

Lemma In_firstn (A : Type) (n : nat) (l : list A) (x : A) :
  In x (firstn n l) -> In x l.
Proof.
  intros H. rewrite <- (firstn_skipn n l). apply in_or_app. left. exact H.
Qed.

Lemma NoDup_firstn_of (A : Type) (n : nat) (l : list A) :
  NoDup l -> NoDup (firstn n l).
Proof.
  intros H. rewrite <- (firstn_skipn n l) in H.
  eapply NoDup_app_remove_r. exact H.
Qed.

(** What is known of the terms that come out. *)
Lemma key_terms_facts (title : string) :
  let T := extract_key_terms title in
  (List.length T <= 6)%nat /\ NoDup T /\
  Forall (fun t => keep_term t = true /\ In t (title_tokens title) /\
                   nonempty t = true /\ Str.all_chars is_term_char t = true) T.
Proof.
  cbv zeta. unfold extract_key_terms. cbv zeta. rewrite key_terms_loop_start.
  fold (title_tokens title). repeat split.
  - apply firstn_le_length.
  - apply NoDup_firstn_of. apply first_occurrences_spec.
  - apply Forall_forall. intros t H.
    apply In_firstn in H. apply first_occurrences_spec in H. destruct H as [H _].
    apply filter_In in H. destruct H as [Hin Hk].
    pose proof (title_tokens_shape title) as Hf. rewrite Forall_forall in Hf.
    destruct (Hf t Hin) as [Hn Hc]. auto.
Qed.

Lemma map_chars_id (f : ascii -> ascii) (p : ascii -> bool) (s : string) :
  (forall c, p c = true -> f c = c) ->
  Str.all_chars p s = true -> Str.map_chars f s = s.
Proof.
  intros Hf. induction s as [ | c s IH]; cbn; [reflexivity | ].
  intros H. apply andb_true_iff in H. destruct H as [Hc Hs].
  rewrite (Hf c Hc), (IH Hs). reflexivity.
Qed.

Lemma lower_char_fixes (c : ascii) :
  is_term_char c || Str.isspace c = true -> Str.lower_char c = c.
Proof.
  destruct c as [[] [] [] [] [] [] [] []]; vm_compute; congruence.
Qed.

Lemma split_from_app_token (t : string) :
  forall s cur,
    Str.all_chars is_term_char t = true ->
    Str.split_from (t ++ s) cur = Str.split_from s (cur ++ t).
Proof.
  induction t as [ | c t IH]; intros s cur Ht; cbn [String.append].
  - rewrite append_nil_r. reflexivity.
  - cbn [Str.all_chars] in Ht. apply andb_true_iff in Ht. destruct Ht as [Hc Ht].
    cbn [Str.split_from]. rewrite (term_char_not_space c Hc).
    rewrite IH by exact Ht. rewrite append_assoc. reflexivity.
Qed.

(** Tokens joined by blanks split into the same tokens. *)
Lemma split_join (l : list string) :
  Forall (fun t => nonempty t = true /\ Str.all_chars is_term_char t = true) l ->
  Str.split (Str.join " " l) = l.
Proof.
  induction l as [ | t r IH]; intros H; [reflexivity | ].
  inversion H as [ | ? ? [Hn Hc] Hr]; subst.
  unfold Str.split. destruct r as [ | u r'].
  - cbn [Str.join]. rewrite <- (append_nil_r t) at 1.
    rewrite split_from_app_token by exact Hc. cbn [String.append Str.split_from].
    rewrite Hn. reflexivity.
  - change (Str.join " " (t :: u :: r')) with (t ++ " " ++ Str.join " " (u :: r')).
    rewrite split_from_app_token by exact Hc. cbn [String.append Str.split_from].
    change (Str.isspace " ") with true. cbn iota. rewrite Hn.
    f_equal. apply IH. exact Hr.
Qed.

Lemma join_chars (l : list string) :
  Forall (fun t => nonempty t = true /\ Str.all_chars is_term_char t = true) l ->
  Str.all_chars (fun c => is_term_char c || Str.isspace c) (Str.join " " l) = true.
Proof.
  assert (Hw : forall t, Str.all_chars is_term_char t = true ->
                 Str.all_chars (fun c => is_term_char c || Str.isspace c) t = true).
  { induction t as [ | c t IHt]; cbn; [reflexivity | ].
    intros H. apply andb_true_iff in H. destruct H as [-> H]. cbn. apply IHt. exact H. }
  induction l as [ | t r IH]; intros H; [reflexivity | ].
  inversion H as [ | ? ? [Hn Hc] Hr]; subst.
  destruct r as [ | u r'].
  - cbn [Str.join]. apply Hw. exact Hc.
  - change (Str.join " " (t :: u :: r')) with (t ++ " " ++ Str.join " " (u :: r')).
    rewrite !all_chars_app. rewrite (Hw t Hc), (IH Hr). reflexivity.
Qed.

(** The tokens of a text that is already made of tokens and blanks. *)
Lemma title_tokens_join (l : list string) :
  Forall (fun t => nonempty t = true /\ Str.all_chars is_term_char t = true) l ->
  title_tokens (Str.join " " l) = l.
Proof.
  intros H. unfold title_tokens. pose proof (join_chars l H) as Hj.
  unfold Str.lower. rewrite (map_chars_id Str.lower_char _ _ lower_char_fixes Hj).
  unfold sub_non_term.
  rewrite (map_chars_id _ (fun c => is_term_char c || Str.isspace c) (Str.join " " l));
    [ | | exact Hj].
  - apply split_join. exact H.
  - intros c Hc. unfold is_term_char in Hc. rewrite Hc. reflexivity.
Qed.

Lemma lower_upper_char (c : ascii) :
  Str.lower_char (Str.upper_char c) = Str.lower_char c.
Proof.
  destruct c as [[] [] [] [] [] [] [] []]; vm_compute; reflexivity.
Qed.

Lemma lower_upper (s : string) : Str.lower (Str.upper s) = Str.lower s.
Proof.
  unfold Str.lower, Str.upper. induction s as [ | c s IH]; cbn; [reflexivity | ].
  rewrite lower_upper_char, IH. reflexivity.
Qed.

(** X10. [extract_key_terms] computes, with its loop and its [break], the
    first six distinct tokens of the title that are longer than two
    characters and are no stopwords, in the order of their first
    occurrence. *)
Theorem extract_key_terms_pipeline (title : string) :
  extract_key_terms title =
  firstn 6 (first_occurrences (filter keep_term (title_tokens title)) []).
Proof.
  unfold extract_key_terms, title_tokens. cbv zeta. apply key_terms_loop_start.
Qed.

(** X11. [extract_key_terms] returns at most six terms and no term twice. *)
Theorem extract_key_terms_at_most_six_distinct (title : string) :
  (List.length (extract_key_terms title) <= 6)%nat /\
  NoDup (extract_key_terms title).
Proof.
  destruct (key_terms_facts title) as (H1 & H2 & _). split; assumption.
Qed.

(** X12. Every term that [extract_key_terms] returns has at least three
    characters, all of them lower case letters or digits, is no stopword,
    and is a token of the title. *)
Theorem extract_key_terms_term_shape (title t : string) :
  In t (extract_key_terms title) ->
  3 <= len t /\
  Str.all_chars is_term_char t = true /\
  ~ In t STOPWORDS /\
  In t (title_tokens title).
Proof.
  intros H. destruct (key_terms_facts title) as (_ & _ & Hf).
  rewrite Forall_forall in Hf. destruct (Hf t H) as (Hk & Hin & _ & Hc).
  unfold keep_term in Hk. apply andb_true_iff in Hk. destruct Hk as [Hl Hs].
  apply Z.ltb_lt in Hl. apply negb_true_iff in Hs.
  repeat split; try assumption; try lia.
  intros Hst. apply mem_In in Hst. congruence.
Qed.

Lemma extract_key_terms_term_shape_witness :
  In "battery" (extract_key_terms "A Method for Charging a Battery, and a Battery Pack") /\
  3 <= len "battery" /\
  Str.all_chars is_term_char "battery" = true /\
  ~ In "battery" STOPWORDS /\
  In "battery" (title_tokens "A Method for Charging a Battery, and a Battery Pack").
Proof.
  assert (H : In "battery"
                (extract_key_terms "A Method for Charging a Battery, and a Battery Pack")).
  { vm_compute. right. left. reflexivity. }
  split; [exact H | ].
  exact (extract_key_terms_term_shape _ _ H).
Defined.

(** X13. The terms joined by blanks are a title with exactly these key
    terms: extracting again changes nothing. *)
Theorem extract_key_terms_fixpoint (title : string) :
  extract_key_terms (Str.join " " (extract_key_terms title)) = extract_key_terms title.
Proof.
  destruct (key_terms_facts title) as (Hlen & Hnd & Hf). cbv zeta in *.
  set (T := extract_key_terms title) in *.
  assert (Hshape : Forall (fun t => nonempty t = true /\
                                    Str.all_chars is_term_char t = true) T).
  { eapply Forall_impl; [ | exact Hf]. cbn. tauto. }
  unfold extract_key_terms at 1. cbv zeta. rewrite key_terms_loop_start.
  fold (title_tokens (Str.join " " T)). rewrite title_tokens_join by exact Hshape.
  replace (filter keep_term T) with T.
  - rewrite first_occurrences_NoDup_id; [ | exact Hnd | intros x _ []].
    apply firstn_all2. exact Hlen.
  - symmetry. apply forallb_filter_id. apply forallb_forall. intros t Ht.
    rewrite Forall_forall in Hf. apply (Hf t Ht).
Qed.

(** X14. For a title of ASCII characters [extract_key_terms] does not
    depend on the case: the title in capitals has the key terms of the
    title.  (Of other titles this is false: [upper] writes "SS" for the
    sharp s, which [lower] turns into "ss".) *)
Theorem extract_key_terms_ignores_case (title : string) :
  Str.all_chars Str.is_ascii title = true ->
  extract_key_terms (Str.upper title) = extract_key_terms title.
Proof.
  intros _. unfold extract_key_terms. rewrite lower_upper. reflexivity.
Qed.

Lemma extract_key_terms_ignores_case_witness :
  Str.all_chars Str.is_ascii "Battery pack for a Vehicle" = true /\
  extract_key_terms "BATTERY PACK FOR A VEHICLE" = ["battery"; "pack"; "vehicle"] /\
  extract_key_terms "Battery pack for a Vehicle" = ["battery"; "pack"; "vehicle"].
Proof.
  assert (A : Str.all_chars Str.is_ascii "Battery pack for a Vehicle" = true)
    by (vm_compute; reflexivity).
  assert (E : extract_key_terms "Battery pack for a Vehicle" =
              ["battery"; "pack"; "vehicle"]) by (vm_compute; reflexivity).
  split; [exact A | ]. split; [ | exact E].
  rewrite <- E. exact (extract_key_terms_ignores_case "Battery pack for a Vehicle" A).
Defined.

(** ** The handlers *)

(** *** The loop of [handle_assignee_patents] *)

Lemma assignee_loop_eq (exclude_id : option string) (limit : Z) (hits : list Hit.t) :
  forall patents,
    assignee_loop exclude_id limit hits patents =
    (patents ++
     map related
       (firstn (Z.to_nat (limit - Z.of_nat (List.length patents)))
          (filter (fun p => negb (excluded exclude_id p)) hits)))%list.
Proof.
  induction hits as [ | p rest IH]; intros acc; cbn [assignee_loop filter].
  - rewrite firstn_nil. cbn. rewrite app_nil_r. reflexivity.
  - destruct (excluded exclude_id p) eqn:E; cbn [negb].
    + apply IH.
    + destruct (Z.leb_spec limit (Z.of_nat (List.length acc))) as [H | H].
      * replace (Z.to_nat (limit - Z.of_nat (List.length acc))) with 0%nat by lia.
        cbn. rewrite app_nil_r. reflexivity.
      * rewrite IH. rewrite length_app. cbn [List.length].
        destruct (Z.to_nat (limit - Z.of_nat (List.length acc))) as [ | k] eqn:Ek; [lia | ].
        replace (Z.to_nat (limit - Z.of_nat (List.length acc + 1))) with k by lia.
        cbn [firstn map]. rewrite <- app_assoc. reflexivity.
Qed.

Lemma append_inj_l (a b c : string) : (a ++ b = a ++ c)%string -> b = c.
Proof.
  induction a as [ | x a IH]; cbn; intros H; [exact H | ].
  inversion H. auto.
Qed.

Lemma handle_assignee_patents_inv (req : Req.UnifiedRequest)
    (post : string -> json -> http_reply) (r : Assignee.t) :
  handle_assignee_patents req post = Returns r ->
  exists assignee data,
    Req.assignee req = Some assignee /\ nonempty assignee = true /\
    post patent_url (assignee_body assignee (or_int (Req.limit req) 10)) = Json data /\
    r = {| Assignee.assignee := assignee;
           Assignee.patents :=
             assignee_loop (exclude_id req) (or_int (Req.limit req) 10) (patents data) [];
           Assignee.count :=
             Z.of_nat (List.length
               (assignee_loop (exclude_id req) (or_int (Req.limit req) 10)
                  (patents data) [])) |}.
Proof.
  unfold handle_assignee_patents.
  destruct (Req.assignee req) as [assignee | ]; [ | discriminate].
  destruct (nonempty assignee) eqn:Hn; cbn [negb]; [ | discriminate].
  destruct (post patent_url _) as [msg | data] eqn:Hp; [discriminate | ].
  cbv zeta. intros H. inversion H. exists assignee, data. auto.
Qed.

(** X15. For a request whose [patent_id], if it has one, is ASCII text:
    [handle_assignee_patents] asked for [limit + 1] hits of the assignee of
    the request, and answers with the first [limit] hits of the reply that
    are not excluded by the id of the request, [exclude_id req], in the
    order of the reply; [count] is their number, at most [limit]; and the
    patent of the request is not listed. *)
Theorem handle_assignee_patents_lists (req : Req.UnifiedRequest)
    (post : string -> json -> http_reply) (r : Assignee.t) :
  (forall patent_id,
     Req.patent_id req = Some patent_id -> Str.all_chars Str.is_ascii patent_id = true) ->
  handle_assignee_patents req post = Returns r ->
  let limit := or_int (Req.limit req) 10 in
  exists data,
    Req.assignee req = Some (Assignee.assignee r) /\
    post patent_url (assignee_body (Assignee.assignee r) limit) = Json data /\
    Assignee.patents r =
      map related
        (firstn (Z.to_nat limit)
           (filter (fun p => negb (excluded (exclude_id req) p)) (patents data))) /\
    Assignee.count r = Z.of_nat (List.length (Assignee.patents r)) /\
    Assignee.count r <= Z.max 0 limit /\
    limit <> 0 /\
    forall patent_id,
      Req.patent_id req = Some patent_id -> nonempty patent_id = true ->
      nonempty (Str.replace (Str.upper patent_id) "US" "") = true ->
      ~ In ("US" ++ Str.replace (Str.upper patent_id) "US" "")
           (map Related.patent_id (Assignee.patents r)).
Proof.
  intros _ H. cbv zeta. apply handle_assignee_patents_inv in H.
  destruct H as (assignee & data & Ha & Hn & Hp & ->).
  cbn [Assignee.assignee Assignee.patents Assignee.count].
  set (limit := or_int (Req.limit req) 10).
  exists data. rewrite assignee_loop_eq. cbn [app List.length].
  rewrite Z.sub_0_r.
  split; [exact Ha | ]. split; [exact Hp | ]. split; [reflexivity | ].
  split; [reflexivity | ].
  split; [ | split].
  - rewrite length_map. pose proof (firstn_le_length (Z.to_nat limit)
      (filter (fun p => negb (excluded (exclude_id req) p)) (patents data))). lia.
  - unfold limit, or_int. destruct (Req.limit req) as [n | ]; [ | discriminate].
    unfold truthy. destruct (Z.eqb_spec n 0); cbn; [discriminate | assumption].
  - intros patent_id Hid Hne Hne' Hin.
    rewrite map_map in Hin. apply in_map_iff in Hin. destruct Hin as (p & Hp' & Hin).
    assert (Hin' : In p (filter (fun p => negb (excluded (exclude_id req) p))
                           (patents data))).
    { rewrite <- (firstn_skipn (Z.to_nat limit)). apply in_or_app. left. exact Hin. }
    apply filter_In in Hin'. destruct Hin' as [_ Hex].
    cbn [related Related.patent_id] in Hp'. apply append_inj_l in Hp'.
    unfold exclude_id in Hex. rewrite Hid, Hne in Hex. unfold excluded in Hex.
    cbn [truthy_str] in Hex. rewrite Hne' in Hex. rewrite Hp' in Hex.
    rewrite String.eqb_refl in Hex. discriminate.
Qed.

Lemma handle_assignee_patents_lists_witness :
  handle_assignee_patents sample_request (sample_post [sample_hit; odd_hit; sample_hit]) =
    Returns {| Assignee.assignee := "Acme";
               Assignee.patents := [related odd_hit];
               Assignee.count := 1 |} /\
  exclude_id sample_request = Some "7654321" /\
  ~ In "US7654321" (map Related.patent_id [related odd_hit]).
Proof.
  assert (H : handle_assignee_patents sample_request
                (sample_post [sample_hit; odd_hit; sample_hit]) =
              Returns {| Assignee.assignee := "Acme";
                         Assignee.patents := [related odd_hit];
                         Assignee.count := 1 |}) by (vm_compute; reflexivity).
  assert (A : forall patent_id,
            Req.patent_id sample_request = Some patent_id ->
            Str.all_chars Str.is_ascii patent_id = true).
  { intros patent_id E. inversion E. vm_compute. reflexivity. }
  split; [exact H | ]. split; [vm_compute; reflexivity | ].
  destruct (handle_assignee_patents_lists _ _ _ A H) as (data & _ & _ & _ & _ & _ & _ & Hx).
  apply (Hx "us7654321"); vm_compute; reflexivity.
Defined.

(** *** The patent number of a request *)

Lemma map_chars_app (f : ascii -> ascii) (a b : string) :
  Str.map_chars f (a ++ b) = Str.map_chars f a ++ Str.map_chars f b.
Proof.
  induction a as [ | c a IH]; cbn; [reflexivity | ]. rewrite IH. reflexivity.
Qed.

Lemma upper_char_space (c : ascii) : Str.isspace c = true -> Str.upper_char c = c.
Proof.
  destruct c as [[] [] [] [] [] [] [] []]; vm_compute; congruence.
Qed.

Lemma upper_char_number (c : ascii) : number_char c = true -> Str.upper_char c = c.
Proof.
  destruct c as [[] [] [] [] [] [] [] []]; vm_compute; congruence.
Qed.

Lemma space_not_U (c : ascii) : Str.isspace c = true -> Ascii.eqb "U" c = false.
Proof.
  destruct c as [[] [] [] [] [] [] [] []]; vm_compute; congruence.
Qed.

Lemma number_not_U (c : ascii) : number_char c = true -> Ascii.eqb "U" c = false.
Proof.
  destruct c as [[] [] [] [] [] [] [] []]; vm_compute; congruence.
Qed.

Lemma number_not_space (c : ascii) : number_char c = true -> Str.isspace c = false.
Proof.
  destruct c as [[] [] [] [] [] [] [] []]; vm_compute; congruence.
Qed.

(** A run of characters other than U is left alone by [replace("US", "")]. *)
Lemma replace_US_keeps (a : string) :
  forall s,
    Str.all_chars (fun c => negb (Ascii.eqb "U" c)) a = true ->
    Str.replace_from "US" "" (a ++ s) 0 = a ++ Str.replace_from "US" "" s 0.
Proof.
  induction a as [ | c a IH]; intros s H; [reflexivity | ].
  cbn [Str.all_chars] in H. apply andb_true_iff in H. destruct H as [Hc Ha].
  apply negb_true_iff in Hc.
  cbn [String.append Str.replace_from String.prefix].
  destruct (ascii_dec "U" c) as [E | _]; [subst c; discriminate | ].
  rewrite IH by exact Ha. reflexivity.
Qed.

Lemma replace_US_keeps_all (a : string) :
  Str.all_chars (fun c => negb (Ascii.eqb "U" c)) a = true ->
  Str.replace_from "US" "" a 0 = a.
Proof.
  intros H. rewrite <- (append_nil_r a) at 1. rewrite replace_US_keeps by exact H.
  cbn. apply append_nil_r.
Qed.

(** An occurrence of US at the front is dropped. *)
Lemma replace_US_drops (s : string) :
  Str.replace_from "US" "" ("US" ++ s) 0 = Str.replace_from "US" "" s 0.
Proof.
  destruct s; vm_compute; reflexivity.
Qed.

Lemma all_chars_impl (p q : ascii -> bool) (s : string) :
  (forall c, p c = true -> q c = true) ->
  Str.all_chars p s = true -> Str.all_chars q s = true.
Proof.
  intros Hpq. induction s as [ | c s IH]; cbn; [reflexivity | ].
  intros H. apply andb_true_iff in H. destruct H as [Hc Hs].
  rewrite (Hpq c Hc), (IH Hs). reflexivity.
Qed.

Lemma lstrip_spaces (w s : string) :
  Str.all_chars Str.isspace w = true -> Str.lstrip (w ++ s) = Str.lstrip s.
Proof.
  induction w as [ | c w IH]; cbn; [reflexivity | ].
  intros H. apply andb_true_iff in H. destruct H as [Hc Hw].
  rewrite Hc. apply IH. exact Hw.
Qed.

Lemma rstrip_spaces (w : string) :
  Str.all_chars Str.isspace w = true -> Str.rstrip w = "".
Proof.
  induction w as [ | c w IH]; cbn; [reflexivity | ].
  intros H. apply andb_true_iff in H. destruct H as [Hc Hw].
  rewrite (IH Hw), Hc. reflexivity.
Qed.

Lemma rstrip_number (t w : string) :
  Str.all_chars number_char t = true -> Str.all_chars Str.isspace w = true ->
  Str.rstrip (t ++ w) = t.
Proof.
  intros Ht Hw. induction t as [ | c t IH]; cbn [String.append].
  - apply rstrip_spaces. exact Hw.
  - cbn [Str.all_chars] in Ht. apply andb_true_iff in Ht. destruct Ht as [Hc Ht].
    cbn [Str.rstrip]. rewrite (IH Ht), (number_not_space c Hc). reflexivity.
Qed.

Lemma lstrip_number (t : string) :
  Str.all_chars number_char t = true -> Str.lstrip t = t.
Proof.
  destruct t as [ | c t]; [reflexivity | ]. cbn. intros H.
  apply andb_true_iff in H. destruct H as [Hc _].
  rewrite (number_not_space c Hc). reflexivity.
Qed.

Lemma lstrip_number_spaces (t w : string) :
  Str.all_chars number_char t = true -> Str.all_chars Str.isspace w = true ->
  Str.rstrip (Str.lstrip (t ++ w)) = t.
Proof.
  intros Ht Hw. destruct t as [ | c t].
  - cbn [String.append]. rewrite <- (append_nil_r w), lstrip_spaces by exact Hw.
    reflexivity.
  - assert (E : Str.lstrip ((String c t) ++ w) = (String c t) ++ w).
    { cbn. cbn in Ht. apply andb_true_iff in Ht. destruct Ht as [Hc _].
      rewrite (number_not_space c Hc). reflexivity. }
    rewrite E. apply rstrip_number; assumption.
Qed.

(** The patent number of [w1 ++ pre ++ t ++ w2], where [pre] is nothing or
    a spelling of US. *)
Lemma patent_num_of (w1 pre t w2 : string) :
  Str.all_chars Str.isspace w1 = true ->
  Str.all_chars Str.isspace w2 = true ->
  Str.all_chars number_char t = true ->
  pre = "" \/ Str.upper pre = "US" ->
  patent_num (w1 ++ pre ++ t ++ w2) = t.
Proof.
  intros H1 H2 Ht Hpre. unfold patent_num, Str.upper, Str.replace.
  rewrite !map_chars_app.
  rewrite (map_chars_id Str.upper_char _ w1 upper_char_space H1).
  rewrite (map_chars_id Str.upper_char _ w2 upper_char_space H2).
  rewrite (map_chars_id Str.upper_char _ t upper_char_number Ht).
  assert (N1 : Str.all_chars (fun c => negb (Ascii.eqb "U" c)) w1 = true).
  { eapply all_chars_impl; [ | exact H1]. intros c Hc. rewrite (space_not_U c Hc).
    reflexivity. }
  assert (N2 : Str.all_chars (fun c => negb (Ascii.eqb "U" c)) (t ++ w2) = true).
  { rewrite all_chars_app. apply andb_true_intro. split.
    - eapply all_chars_impl; [ | exact Ht]. intros c Hc. rewrite (number_not_U c Hc).
      reflexivity.
    - eapply all_chars_impl; [ | exact H2]. intros c Hc. rewrite (space_not_U c Hc).
      reflexivity. }
  rewrite replace_US_keeps by exact N1.
  assert (E : Str.replace_from "US" "" (Str.map_chars Str.upper_char pre ++ t ++ w2) 0
              = t ++ w2).
  { destruct Hpre as [-> | Hu].
    - cbn [Str.map_chars String.append]. apply replace_US_keeps_all. exact N2.
    - unfold Str.upper in Hu. rewrite Hu.
      rewrite replace_US_drops. apply replace_US_keeps_all. exact N2. }
  rewrite E. unfold Str.strip. rewrite lstrip_spaces by exact H1.
  apply lstrip_number_spaces; assumption.
Qed.

(** X16. The patent number that [handle_analyze] looks up and caches
    under does not depend on how the request spells it: blanks around it, and
    US in front of it in either case, are dropped. *)
Theorem patent_num_spellings (w1 pre t w2 : string) :
  Str.all_chars Str.isspace w1 = true ->
  Str.all_chars Str.isspace w2 = true ->
  Str.all_chars number_char t = true ->
  pre = "" \/ Str.upper pre = "US" ->
  patent_num (w1 ++ pre ++ t ++ w2) = t /\
  patent_num (w1 ++ pre ++ t ++ w2) = patent_num t.
Proof.
  intros H1 H2 Ht Hpre. split.
  - apply patent_num_of; assumption.
  - rewrite (patent_num_of w1 pre t w2 H1 H2 Ht Hpre).
    pose proof (patent_num_of "" "" t "" eq_refl eq_refl Ht (or_introl eq_refl)) as E.
    cbn [String.append] in E. rewrite append_nil_r in E. symmetry. exact E.
Qed.

Lemma patent_num_spellings_witness :
  Str.all_chars Str.isspace " " = true /\
  Str.all_chars Str.isspace "" = true /\
  Str.all_chars number_char "RE38123" = true /\
  ("us" = "" \/ Str.upper "us" = "US") /\
  patent_num " usRE38123" = "RE38123" /\
  patent_num " usRE38123" = patent_num "RE38123".
Proof.
  split; [reflexivity | split; [reflexivity | split; [reflexivity | ] ] ].
  split; [right; reflexivity | ].
  exact (patent_num_spellings " " "us" "RE38123" "" eq_refl eq_refl eq_refl
           (or_intror eq_refl)).
Defined.

(** *** [handle_search] *)

(** With no adjustment and no disclaimer [calculate_expiry] gives the date
    twenty years after the filing date. *)
Lemma calculate_expiry_plain (now : datetime) (filing_str : string) (e : ExpirationResult) :
  calculate_expiry now filing_str 0 0 None = Ok e ->
  exists d,
    strptime filing_str = Ok d /\ year d + 20 <= MAXYEAR /\
    expiry e = strftime (years_after d 20) /\
    is_active e = lt now (years_after d 20).
Proof.
  intros H. apply calculate_expiry_inv in H.
  destruct H as (f & b & a & final & rsn & Hf & Hb & Ha & Htd & ->).
  destruct (strptime_inv _ _ Hf) as (Hv & _).
  rewrite (add_relativedelta_years_spec f 20 Hv) in Hb.
  destruct ((MINYEAR <=? year f + 20) && (year f + 20 <=? MAXYEAR)) eqn:Hr; [ | discriminate].
  inversion Hb; subst b. clear Hb.
  assert (Hvb : date_fields_ok (year (years_after f 20)) (month (years_after f 20))
                  (day (years_after f 20)) = true).
  { pose proof (add_relativedelta_years_spec f 20 Hv) as E. rewrite Hr in E.
    apply date_fields_ok_iff in Hv.
    exact (proj1 (add_relativedelta_years_valid f _ 20 (proj1 (proj2 Hv)) E)). }
  change (0 + 0) with 0 in Ha. rewrite (add_days_0 _ Hvb) in Ha. inversion Ha; subst a.
  assert (final = years_after f 20) as ->.
  { inversion Htd as [ _ | s td_date Hs | s td_date Hs ]; try reflexivity; discriminate. }
  exists f. apply andb_true_iff in Hr. destruct Hr as [_ Hr]. apply Z.leb_le in Hr.
  repeat split; [exact Hf | exact Hr].
Qed.

(** Whatever [calculate_expiry] raises without adjustment and disclaimer
    is a [ValueError]. *)
Lemma calculate_expiry_plain_raise (now : datetime) (filing_str : string) (e : exn) :
  calculate_expiry now filing_str 0 0 None = Raise e -> exists w, e = ValueError w.
Proof.
  unfold calculate_expiry.
  destruct (strptime filing_str) as [f | e0] eqn:Hf; cbn [bind].
  - destruct (strptime_inv _ _ Hf) as (Hv & _).
    pose proof (add_relativedelta_years_spec f 20 Hv) as E.
    destruct (add_relativedelta_years f 20) as [b | e1] eqn:Hb; cbn [bind].
    + apply date_fields_ok_iff in Hv.
      pose proof (proj1 (add_relativedelta_years_valid f b 20 (proj1 (proj2 Hv)) Hb)) as Hvb.
      change (or0 0 + or0 0) with 0. rewrite (add_days_0 _ Hvb). cbn. discriminate.
    + destruct ((MINYEAR <=? year f + 20) && (year f + 20 <=? MAXYEAR)); [discriminate | ].
      inversion E; subst e1. intros H. inversion H. eexists. reflexivity.
  - intros H. inversion H; subst e0. rewrite (strptime_raise _ _ Hf). eexists. reflexivity.
Qed.

Lemma search_expiration_inv (now : datetime) (p : Hit.t) (info : option ExpirationResult) :
  search_expiration now p = Ok info ->
  if needs_expiry p
  then exists filing_str e,
         get (Hit.patent_earliest_application_date p) = Some filing_str /\
         calculate_expiry now filing_str 0 0 None = Ok e /\ info = Some e
  else info = None.
Proof.
  unfold search_expiration, needs_expiry.
  destruct (get (Hit.patent_earliest_application_date p)) as [fs | ]; cbn [truthy_str andb].
  - destruct (nonempty fs && truthy_str (get (Hit.patent_date p)) &&
              negb (match get (Hit.patent_type p) with
                    | Some ty => String.eqb ty "design"
                    | None => false
                    end)).
    + destruct (calculate_expiry now fs 0 0 None) as [e | x] eqn:He; cbn [bind]; [ | discriminate].
      intros H. inversion H. exists fs, e. auto.
    + intros H. inversion H. reflexivity.
  - intros H. inversion H. reflexivity.
Qed.

Lemma search_expiration_raise (now : datetime) (p : Hit.t) (e : exn) :
  search_expiration now p = Raise e -> exists w, e = ValueError w.
Proof.
  unfold search_expiration.
  destruct (get (Hit.patent_earliest_application_date p)) as [fs | ]; [ | discriminate].
  destruct (nonempty fs && _ && _); [ | discriminate].
  destruct (calculate_expiry now fs 0 0 None) as [r | x] eqn:He; cbn [bind]; [discriminate | ].
  intros H. inversion H; subst x. eapply calculate_expiry_plain_raise. exact He.
Qed.

Lemma search_expiration_bad_date (now : datetime) (p : Hit.t) (filing_str : string) (e : exn) :
  needs_expiry p = true ->
  get (Hit.patent_earliest_application_date p) = Some filing_str ->
  strptime filing_str = Raise e ->
  search_expiration now p = Raise e.
Proof.
  unfold search_expiration, needs_expiry. intros Hn Hg Hs. rewrite Hg in *.
  cbn [truthy_str] in Hn. rewrite Hn.
  rewrite (calculate_expiry_parse_error now filing_str 0 0 None e Hs). reflexivity.
Qed.

(** What the hit [p] becomes in the results. *)
Lemma search_loop_inv (clock : nat -> datetime) (hits : list Hit.t) :
  forall k acc l,
    search_loop clock k hits acc = Ok l ->
    exists tail,
      l = (acc ++ tail)%list /\
      Forall2 (fun p f => exists now info,
                 search_expiration now p = Ok info /\ f = found p info) hits tail.
Proof.
  induction hits as [ | p rest IH]; intros k acc l; cbn [search_loop].
  - intros H. inversion H. exists []. rewrite app_nil_r. split; [reflexivity | constructor].
  - destruct (search_expiration (clock k) p) as [info | e] eqn:He; cbn [bind]; [ | discriminate].
    intros H. apply IH in H. destruct H as (tail & -> & Hf).
    exists (found p info :: tail). rewrite <- app_assoc. split; [reflexivity | ].
    constructor; [ | exact Hf]. exists (clock k), info. auto.
Qed.

Lemma search_loop_raise (clock : nat -> datetime) (hits : list Hit.t) (p : Hit.t) :
  In p hits ->
  (forall now, exists e, search_expiration now p = Raise e) ->
  forall k acc, exists w, search_loop clock k hits acc = Raise (ValueError w).
Proof.
  intros Hin Hbad. induction hits as [ | q rest IH]; intros k acc; [destruct Hin | ].
  cbn [search_loop].
  destruct (search_expiration (clock k) q) as [info | e] eqn:He; cbn [bind].
  - destruct Hin as [-> | Hin].
    + destruct (Hbad (clock k)) as (e & E). congruence.
    + apply IH. exact Hin.
  - destruct (search_expiration_raise _ _ _ He) as (w & ->). exists w. reflexivity.
Qed.

Lemma strip_nonempty (s : string) : nonempty (Str.strip s) = true -> nonempty s = true.
Proof. destruct s; [discriminate | reflexivity]. Qed.

Lemma handle_search_inv (req : Req.UnifiedRequest)
    (claude : option (string -> option json))
    (post : string -> json -> http_reply) (clock : nat -> datetime) (r : Search.t) :
  handle_search req claude post clock = Returns r ->
  let page := or_int (Req.page req) 1 in
  let per_page := or_int (Req.per_page req) 25 in
  exists query data,
    Req.query req = Some query /\ nonempty (Str.strip query) = true /\
    post patent_url
      (search_body (search_keywords claude query) per_page ((page - 1) * per_page)
         (Req.sort req)) = Json data /\
    search_loop clock 0 (patents data) [] = Ok (Search.results r) /\
    Search.query r = query /\
    Search.page r = page /\ Search.per_page r = per_page /\
    Search.total_count r =
      match total_hits data with
      | Some n => n
      | None => match count data with Some n => n | None => 0 end
      end /\
    Search.total_pages r =
      Z.max 1 ((Search.total_count r + per_page - 1) / per_page) /\
    Search.has_next r = (page <? Search.total_pages r) /\
    Search.has_prev r = (1 <? page).
Proof.
  unfold handle_search. cbv zeta.
  destruct (Req.query req) as [query | ]; [ | discriminate].
  destruct (negb (nonempty query) || negb (nonempty (Str.strip query))) eqn:Hq; [discriminate | ].
  apply orb_false_iff in Hq. destruct Hq as [_ Hq]. apply negb_false_iff in Hq.
  destruct (post patent_url _) as [msg | data] eqn:Hp; [discriminate | ].
  destruct (search_loop clock 0 (patents data) []) as [l | e] eqn:Hl; cbn [call rbind];
    [ | discriminate].
  intros H. inversion H. cbn. exists query, data. repeat split; assumption.
Qed.

Lemma or_int_nonzero (x : option Z) (d : Z) : d <> 0 -> or_int x d <> 0.
Proof.
  intros Hd. unfold or_int, truthy. destruct x as [n | ]; [ | exact Hd].
  destruct (Z.eqb_spec n 0); cbn; assumption.
Qed.

(** The arithmetic of the page count. *)
Lemma total_pages_bounds (total per_page : Z) :
  1 <= per_page -> 0 <= total ->
  let total_pages := Z.max 1 ((total + per_page - 1) / per_page) in
  total <= total_pages * per_page /\
  (total_pages - 1) * per_page < Z.max 1 total /\
  forall page, page <> 0 -> (page < total_pages <-> page * per_page < total).
Proof.
  intros Hpp Ht. cbv zeta.
  pose proof (Z.div_mod (total + per_page - 1) per_page ltac:(lia)) as Hdm.
  pose proof (Z.mod_pos_bound (total + per_page - 1) per_page ltac:(lia)) as Hm.
  set (q := (total + per_page - 1) / per_page) in *.
  set (m := (total + per_page - 1) mod per_page) in *.
  assert (Hq : 0 <= q) by (apply Z.div_pos; lia).
  destruct (Z.max_spec 1 q) as [[Hlt ->] | [Hge ->]].
  - repeat split; nia.
  - assert (q = 0 \/ q = 1) as [-> | ->] by lia.
    + assert (total = 0) by nia. subst total. repeat split; nia.
    + repeat split; nia.
Qed.

(** X17. The pages of [handle_search]: the page and the page size are never
    0 (a missing or zero value becomes 1 and 25), the window asked for starts
    at [(page - 1) * per_page], and for a positive page size and a count that
    is not negative [total_pages] is the least number of pages, at least one,
    that hold all hits, [has_next] says that hits lie beyond this page and
    [has_prev] that the page is past the first. *)
Theorem handle_search_pages (req : Req.UnifiedRequest)
    (claude : option (string -> option json))
    (post : string -> json -> http_reply) (clock : nat -> datetime) (r : Search.t) :
  handle_search req claude post clock = Returns r ->
  let page := Search.page r in
  let per_page := Search.per_page r in
  let total := Search.total_count r in
  let total_pages := Search.total_pages r in
  page <> 0 /\ per_page <> 0 /\ 1 <= total_pages /\
  (exists data,
     post patent_url
       (search_body (search_keywords claude (Search.query r)) per_page
          ((page - 1) * per_page) (Req.sort req)) = Json data) /\
  (Search.has_prev r = true <-> 1 < page) /\
  (1 <= per_page -> 0 <= total ->
   total <= total_pages * per_page /\
   (total_pages - 1) * per_page < Z.max 1 total /\
   (Search.has_next r = true <-> page * per_page < total)).
Proof.
  intros H. apply handle_search_inv in H. cbv zeta in H.
  destruct H as (query & data & Hq & Hs & Hp & _ & Eq & Epage & Epp & _ & Etp & Hn & Hv).
  cbv zeta. rewrite Epage, Epp, Eq.
  assert (P0 : or_int (Req.page req) 1 <> 0) by (apply or_int_nonzero; discriminate).
  assert (P1 : or_int (Req.per_page req) 25 <> 0) by (apply or_int_nonzero; discriminate).
  split; [exact P0 | ]. split; [exact P1 | ].
  split; [rewrite Etp; lia | ].
  split; [exists data; exact Hp | ].
  split; [rewrite Hv; apply Z.ltb_lt | ].
  intros Hpp Ht.
  destruct (total_pages_bounds (Search.total_count r) (or_int (Req.per_page req) 25) Hpp Ht)
    as (B1 & B2 & B3).
  rewrite <- Etp in B1, B2, B3.
  split; [exact B1 | ]. split; [exact B2 | ].
  rewrite Hn, Z.ltb_lt. apply B3. exact P0.
Qed.

Lemma handle_search_pages_witness :
  handle_search sample_request None (sample_post [sample_hit]) sample_clock =
    Returns sample_search /\
  1 <= Search.per_page sample_search /\ 0 <= Search.total_count sample_search /\
  35 <= 4 * 10 /\ (4 - 1) * 10 < Z.max 1 35 /\
  (Search.has_next sample_search = true <-> 2 * 10 < 35).
Proof.
  assert (H : handle_search sample_request None (sample_post [sample_hit]) sample_clock =
              Returns sample_search) by (vm_compute; reflexivity).
  split; [exact H | ]. split; [cbn; lia | ]. split; [cbn; lia | ].
  destruct (handle_search_pages _ _ _ _ _ H) as (_ & _ & _ & _ & _ & Hb).
  exact (Hb ltac:(cbn; lia) ltac:(cbn; lia)).
Defined.





(** Why [calculate_expiry] raises without adjustment and disclaimer: the
    filing date does not parse, or twenty years later is past year 9999. *)
Lemma calculate_expiry_plain_raise_why (now : datetime) (filing_str : string) (e : exn) :
  calculate_expiry now filing_str 0 0 None = Raise e ->
  forall d, strptime filing_str = Ok d -> MAXYEAR < year d + 20.
Proof.
  unfold calculate_expiry. intros H d Hd. rewrite Hd in H. cbn [bind] in H.
  destruct (strptime_inv _ _ Hd) as (Hv & _).
  pose proof (add_relativedelta_years_spec d 20 Hv) as E.
  destruct (add_relativedelta_years d 20) as [b | e1] eqn:Hb; cbn [bind] in H.
  - pose proof Hv as Hv'. apply date_fields_ok_iff in Hv'.
    pose proof (proj1 (add_relativedelta_years_valid d b 20 (proj1 (proj2 Hv')) Hb)) as Hvb.
    change (or0 0 + or0 0) with 0 in H. rewrite (add_days_0 _ Hvb) in H. cbn in H.
    discriminate.
  - apply date_fields_ok_iff in Hv. unfold MINYEAR, MAXYEAR in *.
    destruct (Z.leb_spec 1 (year d + 20)); destruct (Z.leb_spec (year d + 20) 9999);
      cbn [andb] in E; try discriminate; lia.
Qed.

Lemma search_expiration_raise_why (now : datetime) (p : Hit.t) (e : exn) :
  search_expiration now p = Raise e ->
  needs_expiry p = true /\
  exists filing_str,
    get (Hit.patent_earliest_application_date p) = Some filing_str /\
    forall d, strptime filing_str = Ok d -> MAXYEAR < year d + 20.
Proof.
  unfold search_expiration, needs_expiry.
  destruct (get (Hit.patent_earliest_application_date p)) as [fs | ]; [ | discriminate].
  cbn [truthy_str].
  destruct (nonempty fs && _ && _); [ | discriminate].
  destruct (calculate_expiry now fs 0 0 None) as [r | x] eqn:He; cbn [bind]; [discriminate | ].
  intros _. split; [reflexivity | ]. exists fs. split; [reflexivity | ].
  eapply calculate_expiry_plain_raise_why. exact He.
Qed.

Lemma search_loop_raise_why (clock : nat -> datetime) (hits : list Hit.t) :
  forall k acc e,
    search_loop clock k hits acc = Raise e ->
    (exists w, e = ValueError w) /\
    exists p filing_str,
      In p hits /\ needs_expiry p = true /\
      get (Hit.patent_earliest_application_date p) = Some filing_str /\
      forall d, strptime filing_str = Ok d -> MAXYEAR < year d + 20.
Proof.
  induction hits as [ | q rest IH]; intros k acc e; cbn [search_loop]; [discriminate | ].
  destruct (search_expiration (clock k) q) as [info | x] eqn:He; cbn [bind].
  - intros H. destruct (IH _ _ _ H) as (Hw & p & fs & Hin & Hrest).
    split; [exact Hw | ]. exists p, fs. split; [right; exact Hin | exact Hrest].
  - intros H. inversion H; subst x. split.
    + eapply search_expiration_raise. exact He.
    + destruct (search_expiration_raise_why _ _ _ He) as (Hn & fs & Hg & Hbad).
      exists q, fs. split; [left; reflexivity | auto].
Qed.

Lemma search_loop_returns_iff (clock : nat -> datetime) (hits : list Hit.t)
    (k : nat) (acc : list Found.t) :
  (exists l, search_loop clock k hits acc = Ok l) <-> Forall expiry_computable hits.
Proof.
  split.
  - intros [l H]. apply search_loop_inv in H. destruct H as (tail & _ & F).
    induction F as [ | p f hits tail (now & info & Hs & _) _ IH]; constructor; [ | exact IH].
    intros Hn. apply search_expiration_inv in Hs. rewrite Hn in Hs.
    destruct Hs as (filing_str & e & Hg & Hc & _).
    apply calculate_expiry_plain in Hc. destruct Hc as (d & Hd & Hy & _).
    exists filing_str, d. auto.
  - intros F. destruct (search_loop clock k hits acc) as [l | e] eqn:E; [eauto | ].
    exfalso.
    destruct (search_loop_raise_why _ _ _ _ _ E) as (_ & p & fs & Hin & Hn & Hg & Hw).
    rewrite Forall_forall in F.
    destruct (F p Hin Hn) as (fs' & d & Hg' & Hd & Hy).
    rewrite Hg in Hg'. inversion Hg'; subst fs'. specialize (Hw d Hd). lia.
Qed.



(** *** [handle_analyze] *)

Lemma contains_empty (sub : string) : nonempty sub = true -> Str.contains sub "" = false.
Proof. destruct sub; [discriminate | reflexivity]. Qed.

(** The two branches of [handle_analyze] on a hit. *)
Lemma analyze_hit_inv (now : datetime) (p : Hit.t) (a : Analysis.t) :
  analyze_hit now p = Returns a ->
  exists filing_str,
    get (Hit.patent_earliest_application_date p) = Some filing_str /\
    nonempty filing_str = true /\
    Analysis.is_active a = is_active (Analysis.expiration a) /\
    Analysis.pta_days (Analysis.dates a) = pta_days (Analysis.expiration a) /\
    Analysis.calculated_expiry (Analysis.dates a) =
      calculated_expiry (Analysis.expiration a) /\
    if is_design p
    then exists grant_str,
           get (Hit.patent_date p) = Some grant_str /\
           calculate_design_patent_expiry now grant_str filing_str =
             Ok (Analysis.expiration a) /\
           Analysis.maintenance_fees a = None
    else calculate_expiry now filing_str 0
           (or_int (get (Hit.patent_term_extension p)) 0) None =
           Ok (Analysis.expiration a) /\
         (truthy_str (get (Hit.patent_date p)) = false ->
          Analysis.maintenance_fees a = None) /\
         (forall grant_str, get (Hit.patent_date p) = Some grant_str ->
            nonempty grant_str = true ->
            exists fees, calculate_maintenance_fees grant_str = Ok fees /\
                         Analysis.maintenance_fees a = Some fees).
Proof.
  unfold analyze_hit, is_design. cbv zeta.
  assert (Hc : forall ty,
            (if nonempty ty then Str.contains "design" ty else false) =
            Str.contains "design" ty).
  { intros ty. destruct ty; reflexivity. }
  destruct (Hit.patent_type p) as [ | | ty]; cbn [rbind]; try discriminate;
    try rewrite Hc;
    (destruct (get (Hit.patent_earliest_application_date p)) as [fs | ]; [ | discriminate]);
    (destruct (nonempty fs) eqn:Hn; cbn [negb nonempty]; [ | discriminate]);
    try (destruct (Str.contains "design" (Str.lower ty)) eqn:Hd);
    try (destruct (calculate_expiry now fs 0 _ None) as [e | x] eqn:He; cbn [call rbind];
         [ | discriminate]);
    (destruct (get (Hit.patent_date p)) as [gs | ] eqn:Hg;
     [destruct (nonempty gs) eqn:Hgn | ]);
    try discriminate;
    try (destruct (calculate_design_patent_expiry now gs fs) as [e | x] eqn:He;
         cbn [call rbind]; [ | discriminate]);
    try (destruct (calculate_maintenance_fees gs) as [fees | x] eqn:Hfe; cbn [call rbind];
         [ | discriminate]);
    cbn [rbind]; intros H; inversion H; cbn; exists fs;
    repeat split; try assumption; try discriminate;
    try (intros Hx; congruence);
    try (exists gs; auto);
    try (intros g' Hg'; inversion Hg'; subst g'; intros Hn';
         first [congruence | exists fees; auto]).
Qed.

Lemma td_step_none_final (a final : datetime) (pta pte : Z) (rsn : string) :
  td_step None a pta pte final rsn -> final = a.
Proof.
  intros H. inversion H; try reflexivity; discriminate.
Qed.

(** X21. Search and analysis of the same hit: for a hit that is no design
    patent, the expiry that [handle_analyze] reports denotes the date of the
    [expiration_date] that [handle_search] shows, moved by the days of the
    patent term extension, which the search leaves out; without an extension
    the two texts are the same. *)
Theorem analysis_adds_term_extension (now1 now2 : datetime) (p : Hit.t)
    (a : Analysis.t) (e : ExpirationResult) :
  analyze_hit now1 p = Returns a ->
  search_expiration now2 p = Ok (Some e) ->
  is_design p = false ->
  exists shown analysed,
    written (expiry e) shown /\
    written (expiry (Analysis.expiration a)) analysed /\
    toordinal analysed =
      toordinal shown + or_int (get (Hit.patent_term_extension p)) 0 /\
    (or_int (get (Hit.patent_term_extension p)) 0 = 0 ->
     expiry (Analysis.expiration a) = expiry e) /\
    pta_days (Analysis.expiration a) = 0.
Proof.
  intros Ha Hs Hd. apply analyze_hit_inv in Ha.
  destruct Ha as (fs & Hg & Hn & _ & _ & _ & Hcase). rewrite Hd in Hcase.
  destruct Hcase as (Hcalc & _).
  apply search_expiration_inv in Hs.
  destruct (needs_expiry p); [ | discriminate].
  destruct Hs as (fs' & e' & Hg' & He' & Heq). inversion Heq; subst e'.
  rewrite Hg in Hg'. inversion Hg'; subst fs'.
  set (pte := or_int (get (Hit.patent_term_extension p)) 0) in *.
  destruct (calculate_expiry_final _ _ _ _ _ _ Hcalc) as (fin1' & _ & Ex1 & _).
  destruct (calculate_expiry_final _ _ _ _ _ _ He') as (fin2' & _ & Ex2 & _).
  assert (Hpta : pta_days (Analysis.expiration a) = 0).
  { destruct (calculate_expiry_inv _ _ _ _ _ _ Hcalc)
      as (x1 & x2 & x3 & x4 & x5 & _ & _ & _ & _ & E).
    rewrite E. reflexivity. }
  destruct (calculate_expiry_dates _ _ _ _ _ _ Hcalc)
    as (f1 & b1 & a1 & fin1 & F1 & B1 & A1 & T1 & _ & P1 & _ & _ & _ & _ & S1).
  destruct (calculate_expiry_dates _ _ _ _ _ _ He')
    as (f2 & b2 & a2 & fin2 & F2 & B2 & A2 & T2 & _ & P2 & _ & _ & _ & _ & S2).
  apply td_step_none_final in T1, T2. subst fin1 fin2.
  rewrite F1 in F2. inversion F2; subst f2. rewrite B1 in B2. inversion B2; subst b2.
  apply add_days_toordinal in A1 as O1. apply add_days_toordinal in A2 as O2.
  exists a2, a1. rewrite Ex1, Ex2.
  split; [exact P2 | ]. split; [exact P1 | ]. split; [lia | ]. split; [ | exact Hpta].
  intros H0. rewrite H0 in A1. rewrite A1 in A2. inversion A2; subst a2.
  rewrite S1, S2. reflexivity.
Qed.

Lemma analysis_adds_term_extension_witness :
  analyze_hit (sample_clock 0) sample_hit = Returns sample_analysis /\
  search_expiration (sample_clock 1) sample_hit =
    Ok (Some (mkExpirationResult "2026-03-14" "20 years from filing" false
                "2026-03-14" 0 0 "2026-03-14")) /\
  is_design sample_hit = false /\
  exists shown analysed,
    written "2026-03-14" shown /\ written "2026-07-12" analysed /\
    toordinal analysed = toordinal shown + 120.
Proof.
  assert (Ha : analyze_hit (sample_clock 0) sample_hit = Returns sample_analysis)
    by (vm_compute; reflexivity).
  assert (Hs : search_expiration (sample_clock 1) sample_hit =
               Ok (Some (mkExpirationResult "2026-03-14" "20 years from filing" false
                           "2026-03-14" 0 0 "2026-03-14")))
    by (vm_compute; reflexivity).
  split; [exact Ha | ]. split; [exact Hs | ]. split; [reflexivity | ].
  destruct (analysis_adds_term_extension _ _ _ _ _ Ha Hs eq_refl)
    as (shown & analysed & H1 & H2 & H3 & _).
  exists shown, analysed. split; [exact H1 | split; [exact H2 | exact H3] ].
Defined.

(** *** The cache of [handle_analyze] *)

Lemma cache_set_same (c : Cache.t) (key : string) (e : Cache.entry) :
  Cache.set c key e key = Some e.
Proof. unfold Cache.set. rewrite String.eqb_refl. reflexivity. Qed.

Lemma handle_analyze_stored (req : Req.UnifiedRequest) (cache : Cache.t)
    (ts_check : PrimFloat.float) (post : string -> json -> http_reply)
    (now : datetime) (ts_store : PrimFloat.float) (a : Analysis.t) (cache' : Cache.t) :
  handle_analyze req cache ts_check post now ts_store = (Returns (a, false), cache') ->
  exists patent_id data p rest,
    Req.patent_id req = Some patent_id /\ nonempty patent_id = true /\
    post patent_url (analyze_body (patent_num patent_id)) = Json data /\
    patents data = p :: rest /\
    analyze_hit now p = Returns a /\
    cache' = Cache.set cache ("analyze:" ++ patent_num patent_id)
               {| Cache.data := a; Cache.timestamp := ts_store |}.
Proof.
  unfold handle_analyze.
  destruct (Req.patent_id req) as [patent_id | ]; [ | discriminate].
  destruct (nonempty patent_id) eqn:Hn; cbn [negb]; [ | discriminate].
  cbv zeta.
  match goal with
  | |- context [match ?c with Some _ => _ | None => _ end = _] =>
      destruct c as [d | ]; [discriminate | ]
  end.
  destruct (post patent_url _) as [msg | data] eqn:Hp; [discriminate | ].
  destruct (patents data) as [ | p rest] eqn:Hps; [discriminate | ].
  destruct (analyze_hit now p) as [result | e] eqn:Ha; [ | discriminate].
  intros H. inversion H. subst.
  exists patent_id, data, p, rest. auto 10.
Qed.



(** X23. A design patent in [handle_analyze]: when the type of the hit
    contains "design" in any case, the term runs from the grant date, 15 years
    for a filing on or after 2015-05-13 and 14 years before, the term
    extension of the hit is left out, and there is no fee schedule. *)
Theorem design_analysis (now : datetime) (p : Hit.t) (a : Analysis.t) :
  analyze_hit now p = Returns a ->
  is_design p = true ->
  exists grant_str filing_str g f,
    get (Hit.patent_date p) = Some grant_str /\ strptime grant_str = Ok g /\
    get (Hit.patent_earliest_application_date p) = Some filing_str /\
    strptime filing_str = Ok f /\
    let years := if on_or_after_2015_05_13 f then 15 else 14 in
    expiry (Analysis.expiration a) = strftime (years_after g years) /\
    Analysis.is_active a = lt now (years_after g years) /\
    pte_days (Analysis.expiration a) = 0 /\
    Analysis.maintenance_fees a = None.
Proof.
  intros Ha Hd. apply analyze_hit_inv in Ha.
  destruct Ha as (fs & Hg & Hn & Hact & _ & _ & Hcase). rewrite Hd in Hcase.
  destruct Hcase as (gs & Hgs & Hcalc & Hfees).
  assert (Hp : exists g f, strptime gs = Ok g /\ strptime fs = Ok f).
  { unfold calculate_design_patent_expiry in Hcalc.
    destruct (strptime gs) as [g | ]; [ | discriminate].
    destruct (strptime fs) as [f | ]; [ | discriminate].
    exists g, f. auto. }
  destruct Hp as (g & f & Sg & Sf).
  rewrite (calculate_design_patent_expiry_eq now gs fs g f Sg Sf) in Hcalc.
  destruct (strptime_inv _ _ Sg) as (Hv & _).
  rewrite (add_relativedelta_years_spec g _ Hv) in Hcalc.
  destruct ((MINYEAR <=? _) && (_ <=? MAXYEAR)); [ | discriminate].
  cbn [bind] in Hcalc. inversion Hcalc as [E].
  exists gs, fs, g, f. cbv zeta. rewrite Hact, <- E. cbn [design_dict expiry is_active pte_days].
  auto 10.
Qed.

Lemma design_analysis_witness :
  analyze_hit (sample_clock 0) design_hit = Returns design_sample /\
  is_design design_hit = true /\
  exists g f,
    strptime "2016-08-30" = Ok g /\ strptime "2015-05-13" = Ok f /\
    "2031-08-30" = strftime (years_after g (if on_or_after_2015_05_13 f then 15 else 14)).
Proof.
  assert (H : analyze_hit (sample_clock 0) design_hit = Returns design_sample)
    by (vm_compute; reflexivity).
  split; [exact H | ]. split; [reflexivity | ].
  destruct (design_analysis _ _ _ H eq_refl)
    as (gs & fs & g & f & H1 & H2 & H3 & H4 & H5 & _).
  exists g, f.
  change (get (Hit.patent_date design_hit)) with (Some "2016-08-30") in H1.
  change (get (Hit.patent_earliest_application_date design_hit))
    with (Some "2015-05-13") in H3.
  inversion H1; subst gs. inversion H3; subst fs.
  split; [exact H2 | split; [exact H4 | exact H5] ].
Defined.


